(** * Zep Cloud MCP server: payload normalisation, fallback mode, result envelopes

    A shallow embedding of [core/zep_cloud_client.py] (the SDK-backed
    [ZepCloudClient]) and [core/zep_cloud_server.py] (the REST-backed
    [ZepCloudClient] defined when the import fails, the module-level client
    construction and the tool handlers) and of the round of operations of
    [tests/test_specific_user.py], with the properties of the
    specification that are about them and further properties of the code.

    Conventions of the embedding.
    - A Python [str] is a [string]; one [ascii] stands for one code point
      below 256, so [len] is [String.length].  Floats are left out.
    - Python values that cross the boundaries (payloads, metadata, results,
      SDK objects) are terms of [value].
    - A call that may raise returns a [result]; code that may contact the
      remote service runs in the monad [Net], whose state is the log of the
      requests made so far, the repairs that the code reported, and the
      tool-call counter.  The other output of [logger] is not modelled.
    - [json.loads], [ast.literal_eval] and [repr] belong to the Python
      runtime: they are the fields of the class [PyRuntime], and the remote
      service is the class [Remote].  The properties hold for every runtime
      and every remote side.  The concrete runs use a reference runtime,
      with the JSON decoder written out, and a few remote sides.
    - [_handle_request_error] of the REST-backed client only logs and is
      left out: an exception of [Remote] is the one that leaves
      [_make_request].

    Layout: Python strings and values; [json.dumps]; the runtime, the remote
    side and [Net]; the modules [SDK], [REST], [Server] and [UserTest], one
    definition per function of the source; the reference runtime and the
    remote sides of the runs; the vocabulary of the statements; then the
    properties and their runs. *)

From Stdlib Require Import String Ascii List ZArith Bool Lia.
Import ListNotations.
Local Open Scope string_scope.
Local Open Scope Z_scope.

(* ===================================================================== *)
(** ** Python strings *)
(* ===================================================================== *)

Module PyStr.

(** [len(s)] *)
Definition len (s : string) : Z := Z.of_nat (String.length s).

(** [s[:n]] for a non-negative [n] *)
Fixpoint take (n : nat) (s : string) : string :=
  match n, s with
  | O, _ => EmptyString
  | S _, EmptyString => EmptyString
  | S k, String c r => String c (take k r)
  end.

(** [s[n:]] for a non-negative [n] *)
Fixpoint drop (n : nat) (s : string) : string :=
  match n, s with
  | O, _ => s
  | S _, EmptyString => EmptyString
  | S k, String _ r => drop k r
  end.

(** [s[1:-1]] *)
Definition inner (s : string) : string :=
  take (String.length s - 2) (drop 1 s).

Fixpoint rev_onto (s acc : string) : string :=
  match s with
  | EmptyString => acc
  | String c r => rev_onto r (String c acc)
  end.

Definition rev (s : string) : string := rev_onto s EmptyString.

(** [s.startswith(p)] *)
Definition startswith (s p : string) : bool := String.prefix p s.

(** [s.endswith(p)] *)
Definition endswith (s p : string) : bool := String.prefix (rev p) (rev s).

Definition code (c : ascii) : N := N_of_ascii c.

(** [c.isspace()] on code points below 256 *)
Definition isspace (c : ascii) : bool :=
  let n := code c in
  ((9 <=? n) && (n <=? 13) || (28 <=? n) && (n <=? 32)
   || (n =? 133) || (n =? 160))%N.

(** [s.lstrip()] *)
Fixpoint lstrip (s : string) : string :=
  match s with
  | EmptyString => EmptyString
  | String c r => if isspace c then lstrip r else s
  end.

(** [s.rstrip()] *)
Definition rstrip (s : string) : string := rev (lstrip (rev s)).

(** [s.strip()] *)
Definition strip (s : string) : string := rstrip (lstrip s).

(** [c.lower()] on code points below 256: A-Z, and the Latin-1 capitals
    U+00C0..U+00DE without the multiplication sign U+00D7. *)
Definition lower_char (c : ascii) : ascii :=
  let n := code c in
  if ((65 <=? n) && (n <=? 90)
      || (192 <=? n) && (n <=? 222) && negb (n =? 215))%N
  then ascii_of_N (n + 32) else c.

(** [s.lower()] *)
Fixpoint lower (s : string) : string :=
  match s with
  | EmptyString => EmptyString
  | String c r => String (lower_char c) (lower r)
  end.

(** [sub in s] *)
Fixpoint contains (sub s : string) : bool :=
  String.prefix sub s
  || match s with
     | EmptyString => false
     | String _ r => contains sub r
     end.

(** [c * n] *)
Fixpoint replicate (n : nat) (c : ascii) : string :=
  match n with
  | O => EmptyString
  | S k => String c (replicate k c)
  end.

Definition digit (n : N) : ascii := ascii_of_N (48 + n).

Fixpoint pos_digits (fuel : nat) (n : N) (acc : string) : string :=
  match fuel with
  | O => acc
  | S f =>
      let acc' := String (digit (n mod 10)) acc in
      if (n / 10 =? 0)%N then acc' else pos_digits f (n / 10) acc'
  end.

(** [str(n)] for an [int] *)
Definition of_Z (z : Z) : string :=
  let n := Z.abs_N z in
  let ds := pos_digits (S (N.to_nat (N.log2 n))) n EmptyString in
  if z <? 0 then String "-" ds else ds.

Definition join (sep : string) (l : list string) : string := String.concat sep l.

(** The double quote character, and a way to write texts that contain it:
    [bq s] is [s] with every backquote replaced by a double quote. *)
Definition dquote : ascii := ascii_of_N 34.

Fixpoint bq (s : string) : string :=
  match s with
  | EmptyString => EmptyString
  | String c r => String (if (code c =? 96)%N then dquote else c) (bq r)
  end.

End PyStr.

(* ===================================================================== *)
(** ** Python values, exceptions and results *)
(* ===================================================================== *)

(** The values that cross the boundaries of the two modules.  [VObj] is an
    object of a class of the SDK or of [requests]: a bag of attributes that
    [json.dumps] cannot serialise. *)
#[warnings="-register-all"]
Inductive value : Type :=
| VNone
| VBool (b : bool)
| VInt (z : Z)
| VStr (s : string)
| VList (l : list value)
| VDict (d : list (string * value))
| VObj (cls : string) (attrs : list (string * value)).

Inductive exn_kind : Type :=
| ValueError | TypeError | NameError | AttributeError | KeyError
| JSONDecodeError | SyntaxError | ImportError
| ConnectionError | HTTPError | OtherError.

(** A raised exception: its class and [str(e)]. *)
Record exn : Type := mkExn { exn_class : exn_kind; exn_msg : string }.

Inductive result (A : Type) : Type :=
| Ok (a : A)
| Raise (e : exn).
Arguments Ok {A} a.
Arguments Raise {A} e.

(** [except json.JSONDecodeError]: [JSONDecodeError] is a subclass of
    [ValueError]; only the class itself matters for the handlers here. *)
Definition is_json_decode_error (e : exn) : bool :=
  match exn_class e with JSONDecodeError => true | _ => false end.

Module Dict.

Definition t : Type := list (string * value).

(** [d.get(k)] *)
Fixpoint get (k : string) (d : t) : option value :=
  match d with
  | [] => None
  | (k', v) :: r => if String.eqb k k' then Some v else get k r
  end.

(** [k in d] *)
Definition mem (k : string) (d : t) : bool :=
  match get k d with Some _ => true | None => false end.

(** [d[k] = v]: an existing key keeps its place, a new one goes last. *)
Fixpoint set (k : string) (v : value) (d : t) : t :=
  match d with
  | [] => [(k, v)]
  | (k', v') :: r =>
      if String.eqb k k' then (k, v) :: r else (k', v') :: set k v r
  end.

End Dict.

(** Truthiness: [if v:] *)
Definition truthy (v : value) : bool :=
  match v with
  | VNone => false
  | VBool b => b
  | VInt z => negb (z =? 0)
  | VStr s => negb (String.eqb s EmptyString)
  | VList l => match l with [] => false | _ => true end
  | VDict d => match d with [] => false | _ => true end
  | VObj _ _ => true
  end.

(** [len(v)]; a [TypeError] for a value without a length. *)
Definition py_len (v : value) : result Z :=
  match v with
  | VStr s => Ok (PyStr.len s)
  | VList l => Ok (Z.of_nat (List.length l))
  | VDict d => Ok (Z.of_nat (List.length d))
  | _ => Raise (mkExn TypeError "object has no len()")
  end.

(** [o.a]; an [AttributeError] when [hasattr(o, a)] is false. *)
Definition getattr (o : value) (a : string) : result value :=
  match o with
  | VObj _ attrs =>
      match Dict.get a attrs with
      | Some v => Ok v
      | None => Raise (mkExn AttributeError ("object has no attribute " ++ a))
      end
  | _ => Raise (mkExn AttributeError ("object has no attribute " ++ a))
  end.

(* ===================================================================== *)
(** ** [json.dumps] with its default arguments *)
(* ===================================================================== *)

Module JsonDumps.

Definition hex_digit (n : N) : ascii :=
  if (n <? 10)%N then ascii_of_N (48 + n) else ascii_of_N (87 + n).

(** [ensure_ascii=True]: everything outside [' '..'~'], the backslash and
    the double quote are escaped. *)
Definition escape_char (c : ascii) : string :=
  let n := PyStr.code c in
  if (n =? 34)%N then String "\" (String PyStr.dquote EmptyString)
  else if (n =? 92)%N then "\\"
  else if (n =? 8)%N then "\b"
  else if (n =? 12)%N then "\f"
  else if (n =? 10)%N then "\n"
  else if (n =? 13)%N then "\r"
  else if (n =? 9)%N then "\t"
  else if ((32 <=? n) && (n <=? 126))%N then String c EmptyString
  else "\u00" ++ String (hex_digit (n / 16)) (String (hex_digit (n mod 16)) EmptyString).

Fixpoint escape (s : string) : string :=
  match s with
  | EmptyString => EmptyString
  | String c r => escape_char c ++ escape r
  end.

Definition encode_str (s : string) : string :=
  String PyStr.dquote (escape s ++ String PyStr.dquote EmptyString).

Definition not_serializable (cls : string) : exn :=
  mkExn TypeError ("Object of type " ++ cls ++ " is not JSON serializable").

Fixpoint dumps (v : value) : result string :=
  match v with
  | VNone => Ok "null"
  | VBool true => Ok "true"
  | VBool false => Ok "false"
  | VInt z => Ok (PyStr.of_Z z)
  | VStr s => Ok (encode_str s)
  | VList l =>
      let fix items (l : list value) : result (list string) :=
        match l with
        | [] => Ok []
        | x :: r =>
            match dumps x with
            | Raise e => Raise e
            | Ok sx =>
                match items r with
                | Raise e => Raise e
                | Ok sr => Ok (sx :: sr)
                end
            end
        end in
      match items l with
      | Raise e => Raise e
      | Ok ss => Ok ("[" ++ PyStr.join ", " ss ++ "]")
      end
  | VDict d =>
      let fix items (d : list (string * value)) : result (list string) :=
        match d with
        | [] => Ok []
        | (k, x) :: r =>
            match dumps x with
            | Raise e => Raise e
            | Ok sx =>
                match items r with
                | Raise e => Raise e
                | Ok sr => Ok ((encode_str k ++ ": " ++ sx) :: sr)
                end
            end
        end in
      match items d with
      | Raise e => Raise e
      | Ok ss => Ok ("{" ++ PyStr.join ", " ss ++ "}")
      end
  | VObj cls _ => Raise (not_serializable cls)
  end.

End JsonDumps.

Definition json_dumps : value -> result string := JsonDumps.dumps.

(** [for x in v]: the elements of a list, the keys of a dict, the characters
    of a string. *)
Definition py_iter (v : value) : result (list value) :=
  match v with
  | VList l => Ok l
  | VDict d => Ok (map (fun kv => VStr (fst kv)) d)
  | VStr s => Ok (map (fun c => VStr (String c EmptyString)) (list_ascii_of_string s))
  | _ => Raise (mkExn TypeError "object is not iterable")
  end.

(* ===================================================================== *)
(** ** The Python runtime *)
(* ===================================================================== *)

(** What [json.loads] returns: the document, with numbers kept as the text
    that denotes them and strings as code points. *)
#[warnings="-register-all"]
Inductive json : Type :=
| JNull
| JBool (b : bool)
| JNum (lexeme : string)
| JStr (s : list N)
| JArr (l : list json)
| JObj (members : list (list N * json)).

Class PyRuntime : Type := {
  (** [json.loads(s)] for a string [s] *)
  json_loads : string -> result json;
  (** [ast.literal_eval(s)] *)
  literal_eval : string -> result value;
  (** [repr(v)], which [str(v)] and f-strings use for containers and
      objects *)
  py_repr : value -> string
}.

(** [str(v)] *)
Definition py_str `{PyRuntime} (v : value) : string :=
  match v with
  | VStr s => s
  | VInt z => PyStr.of_Z z
  | VNone => "None"
  | VBool true => "True"
  | VBool false => "False"
  | _ => py_repr v
  end.

(* ===================================================================== *)
(** ** The remote service and the effects *)
(* ===================================================================== *)

(** The calls of the SDK object [Zep] that the client makes. *)
Inductive sdk_call : Type :=
| UserListOrdered
| UserGet (user_id : string)
| UserAdd (user_id : string) (metadata first_name last_name email : value)
| UserUpdate (user_id : string) (metadata first_name last_name email : value)
| UserDelete (user_id : string)
| GraphSearch (user_id : string) (query : string) (limit : Z)
| GraphAdd (user_id : string) (type : string) (data : value).

(** [requests.request(method, url, headers=..., json=data)] *)
Record http_request : Type := mkRequest {
  req_method : string;
  req_url : string;
  req_headers : list (string * string);
  req_json : value
}.

Record http_response : Type := mkResponse {
  status_code : Z;
  text : string;
  (** [response.raise_for_status()] *)
  raise_for_status : result unit;
  (** [response.json()] *)
  json_body : result value
}.

Inductive net_call : Type :=
| Sdk (c : sdk_call)
| Http (r : http_request).

(** The repairs that the code reports when it applies them. *)
Inductive repair : Type :=
| RemovedOuterSingleQuotes
| RemovedOuterDoubleQuotes
| FixedByLiteralEval.

(** The remote side.  An answer may depend on everything sent before. *)
Class Remote : Type := {
  (** [Zep(api_key=...)]: builds the SDK object, without any request *)
  zep_new : string -> result unit;
  sdk_respond : list net_call -> sdk_call -> result value;
  http_respond : list net_call -> http_request -> result http_response
}.

(** The process state that the functions change: the requests sent, the
    repairs reported, and the module's [tool_count]. *)
Record world : Type := mkWorld {
  net_log : list net_call;
  repair_log : list repair;
  tool_count : Z
}.

Definition Net (A : Type) : Type := world -> result A * world.

Module NetMonad.

Definition ret {A} (a : A) : Net A := fun w => (Ok a, w).

Definition bind {A B} (c : Net A) (k : A -> Net B) : Net B :=
  fun w =>
    match c w with
    | (Ok a, w') => k a w'
    | (Raise e, w') => (Raise e, w')
    end.

Definition raise {A} (e : exn) : Net A := fun w => (Raise e, w).

(** [try: c  except Exception as e: h e] *)
Definition try_catch {A} (c : Net A) (h : exn -> Net A) : Net A :=
  fun w =>
    match c w with
    | (Ok a, w') => (Ok a, w')
    | (Raise e, w') => h e w'
    end.

Definition lift {A} (r : result A) : Net A := fun w => (r, w).

Definition sdk `{Remote} (c : sdk_call) : Net value :=
  fun w =>
    (sdk_respond (net_log w) c,
     mkWorld (net_log w ++ [Sdk c]) (repair_log w) (tool_count w)).

Definition http `{Remote} (r : http_request) : Net http_response :=
  fun w =>
    (http_respond (net_log w) r,
     mkWorld (net_log w ++ [Http r]) (repair_log w) (tool_count w)).

Definition note (r : repair) : Net unit :=
  fun w => (Ok tt, mkWorld (net_log w) (repair_log w ++ [r]) (tool_count w)).

(** [global tool_count; tool_count += 1] *)
Definition count_tool_call : Net unit :=
  fun w => (Ok tt, mkWorld (net_log w) (repair_log w) (tool_count w + 1)).

End NetMonad.
Import NetMonad.

Declare Scope net_scope.
Delimit Scope net_scope with net.
Notation "x <- c ;; k" := (bind c (fun x => k))
  (at level 61, c at next level, right associativity) : net_scope.
Notation "c ;;; k" := (bind c (fun _ => k))
  (at level 61, right associativity) : net_scope.
Local Open Scope net_scope.

(** The same for code that cannot reach the network. *)
Definition rbind {A B} (r : result A) (k : A -> result B) : result B :=
  match r with
  | Ok a => k a
  | Raise e => Raise e
  end.

Fixpoint rmap {A B} (f : A -> result B) (l : list A) : result (list B) :=
  match l with
  | [] => Ok []
  | x :: r => rbind (f x) (fun y => rbind (rmap f r) (fun ys => Ok (y :: ys)))
  end.

(** The error envelope that both modules build. *)
Definition failure (msg : string) : value :=
  VDict [("error", VStr msg); ("success", VBool false)].

Definition valid_types : list string := ["text"; "json"; "message"].

(** [data_type not in valid_types] *)
Definition is_valid_type (data_type : string) : bool :=
  existsb (String.eqb data_type) valid_types.

(** [f"Invalid data type: {data_type}. Must be one of {valid_types}"] *)
Definition invalid_type_msg (data_type : string) : string :=
  "Invalid data type: " ++ data_type
  ++ ". Must be one of ['text', 'json', 'message']".

(** [s.startswith(('{', '['))] *)
Definition starts_with_bracket (s : string) : bool :=
  PyStr.startswith s "{" || PyStr.startswith s "[".

(* ===================================================================== *)
(** ** The client object *)
(* ===================================================================== *)

(** Which class [ZepCloudClient] names: the one of [zep_cloud_client.py]
    (over the SDK) or the one that [zep_cloud_server.py] defines itself
    (over HTTP). *)
Inductive client_impl : Type := SdkImpl | RestImpl.

(** An instance.  [fallback_mode = None] stands for an object without that
    attribute, the case that the server's start-up code tests with
    [hasattr]. *)
Record ZepCloudClient : Type := mkClient {
  impl : client_impl;
  api_key : option string;
  api_url : string;
  fallback_mode : option bool
}.

(** [self.fallback_mode] *)
Definition self_fallback_mode (self : ZepCloudClient) : result bool :=
  match fallback_mode self with
  | Some b => Ok b
  | None => Raise (mkExn AttributeError "object has no attribute fallback_mode")
  end.

(** [os.environ] after [load_dotenv()], and whether the SDK is installed. *)
Record environment : Type := mkEnv {
  environ : list (string * string);
  sdk_installed : bool
}.

(** [os.getenv(name)] *)
Fixpoint getenv (env : list (string * string)) (name : string) : option string :=
  match env with
  | [] => None
  | (k, v) :: r => if String.eqb name k then Some v else getenv r name
  end.

(* ===================================================================== *)
(** ** [core/zep_cloud_client.py] *)
(* ===================================================================== *)

Module SDK.
Section WithRuntime.
Context {rt : PyRuntime} {rm : Remote}.

(** [ZepCloudClient.__init__] *)
Definition init (env : environment) : result ZepCloudClient :=
  let api_key := getenv (environ env) "ZEP_API_KEY" in
  match api_key with
  | None => Raise (mkExn ValueError "ZEP_API_KEY environment variable not set")
  | Some k =>
      if String.eqb k EmptyString
      then Raise (mkExn ValueError "ZEP_API_KEY environment variable not set")
      else
        rbind (zep_new k) (fun _ =>
        Ok (mkClient SdkImpl (Some k) EmptyString (Some false)))
  end.

(** [x if x else {}] *)
Definition or_empty_dict (v : value) : value :=
  if truthy v then v else VDict [].

(** The five-field record that [get_user], [create_user] and
    [update_user] return. *)
Definition user_record (user : value) : result value :=
  rbind (getattr user "user_id") (fun uid =>
  rbind (getattr user "metadata") (fun md =>
  rbind (getattr user "first_name") (fun fn =>
  rbind (getattr user "last_name") (fun ln =>
  rbind (getattr user "email") (fun em =>
  Ok (VDict [("user_id", uid); ("metadata", or_empty_dict md);
             ("first_name", fn); ("last_name", ln); ("email", em)])))))).

Definition list_users_entry (user : value) : result value :=
  rbind (getattr user "user_id") (fun uid =>
  rbind (getattr user "metadata") (fun md =>
  Ok (VDict [("user_id", uid); ("metadata", or_empty_dict md)]))).

(** [list_users] *)
Definition list_users (self : ZepCloudClient) : Net value :=
  try_catch
    (user_response <- sdk UserListOrdered ;;
     users <- lift (getattr user_response "users") ;;
     let users := if truthy users then users else VList [] in
     us <- lift (py_iter users) ;;
     user_dicts <- lift (rmap list_users_entry us) ;;
     ret (VList user_dicts))
    (fun _ => ret (VList [])).

(** [get_user] *)
Definition get_user (self : ZepCloudClient) (user_id : string) : Net value :=
  try_catch
    (user <- sdk (UserGet user_id) ;;
     if truthy user then lift (user_record user) else ret VNone)
    (fun _ => ret VNone).

(** [metadata if metadata is not None else {}] *)
Definition metadata_dict (metadata : value) : value :=
  match metadata with VNone => VDict [] | _ => metadata end.

(** [create_user] *)
Definition create_user (self : ZepCloudClient) (user_id : string)
    (metadata first_name last_name email : value) : Net value :=
  try_catch
    (user <- sdk (UserAdd user_id (metadata_dict metadata) first_name last_name email) ;;
     lift (user_record user))
    (fun _ => ret VNone).

(** [update_user] *)
Definition update_user (self : ZepCloudClient) (user_id : string)
    (metadata first_name last_name email : value) : Net value :=
  try_catch
    (user <- sdk (UserUpdate user_id (metadata_dict metadata) first_name last_name email) ;;
     lift (user_record user))
    (fun _ => ret VNone).

(** [delete_user] *)
Definition delete_user (self : ZepCloudClient) (user_id : string) : Net value :=
  try_catch
    (sdk (UserDelete user_id) ;;; ret (VBool true))
    (fun _ => ret (VBool false)).

(** [o.a if hasattr(o, a) else dflt] *)
Definition attr_or (o : value) (a : string) (dflt : value) : value :=
  match getattr o a with
  | Ok v => v
  | Raise _ => dflt
  end.

(** [str(o.a) if hasattr(o, a) else None] *)
Definition str_attr_or_none (o : value) (a : string) : value :=
  match getattr o a with
  | Ok v => VStr (py_str v)
  | Raise _ => VNone
  end.

Definition edge_data (edge : value) : value :=
  VDict [("id", attr_or edge "id" VNone);
         ("fact", attr_or edge "fact" VNone);
         ("created_at", str_attr_or_none edge "created_at");
         ("updated_at", str_attr_or_none edge "updated_at");
         ("score", attr_or edge "score" VNone)].

Definition node_data (node : value) : value :=
  VDict [("id", attr_or node "id" VNone);
         ("label", attr_or node "label" VNone);
         ("attributes", attr_or node "attributes" (VDict []));
         ("score", attr_or node "score" VNone)].

(** [hasattr(o, a) and o.a], then the loop over [o.a]: the converted
    items, or [None] when the attribute is missing or falsy. *)
Definition converted (o : value) (a : string) (f : value -> value)
  : result (option (list value)) :=
  match getattr o a with
  | Raise _ => Ok None
  | Ok v =>
      if truthy v
      then rbind (py_iter v) (fun l => Ok (Some (map f l)))
      else Ok None
  end.

Definition opt_items (o : option (list value)) : list value :=
  match o with Some l => l | None => [] end.

Definition opt_entry (k : string) (o : option (list value)) : Dict.t :=
  match o with Some l => [(k, VList l)] | None => [] end.

Definition count (l : list value) : Z := Z.of_nat (List.length l).

(** The [summary] field. *)
Definition summary (query : string) (results : list value)
    (nodes edges : option (list value)) : string :=
  if 0 <? count results then
    "Found " ++ PyStr.of_Z (count results) ++ " results for query '" ++ query ++ "'"
    ++ (match nodes with
        | Some ns => if 0 <? count ns
                     then ", including " ++ PyStr.of_Z (count ns) ++ " nodes"
                     else EmptyString
        | None => EmptyString
        end)
    ++ (match edges with
        | Some es => if 0 <? count es
                     then ", including " ++ PyStr.of_Z (count es) ++ " edges/facts"
                     else EmptyString
        | None => EmptyString
        end)
  else "No results found for query '" ++ query ++ "'".

(** [query = query[:8000]] when [len(query) > 8000] *)
Definition truncate_query (query : string) : string :=
  if 8000 <? PyStr.len query then PyStr.take (Z.to_nat 8000) query else query.

(** [search_graph] *)
Definition search_graph (self : ZepCloudClient) (user_id query : string)
    (limit : Z) : Net value :=
  try_catch
    (let query := truncate_query query in
     search_results <- sdk (GraphSearch user_id query limit) ;;
     edges <- lift (converted search_results "edges" edge_data) ;;
     nodes <- lift (converted search_results "nodes" node_data) ;;
     let results := (opt_items edges ++ opt_items nodes)%list in
     ret (VDict ([("query", VStr query); ("user_id", VStr user_id);
                  ("limit", VInt limit); ("success", VBool true);
                  ("results", VList results)]
                 ++ opt_entry "edges" edges
                 ++ opt_entry "nodes" nodes
                 ++ [("summary", VStr (summary query results nodes edges))])%list))
    (fun _ => ret VNone).

(** [f"Data size of {data_len} bytes exceeds 100KB limit"] *)
Definition size_msg (n : Z) : string :=
  "Data size of " ++ PyStr.of_Z n ++ " bytes exceeds 100KB limit".

(** "Convert dict to JSON string if needed":
    [if data_type == "json" and isinstance(data, dict): data = json.dumps(data)] *)
Definition convert_dict (data : value) (data_type : string) : result value :=
  match data with
  | VDict _ =>
      if String.eqb data_type "json"
      then rbind (json_dumps data) (fun s => Ok (VStr s))
      else Ok data
  | _ => Ok data
  end.

(** [len(data) if isinstance(data, str) else len(str(data))] *)
Definition data_len (data : value) : Z :=
  match data with
  | VStr s => PyStr.len s
  | _ => PyStr.len (py_str data)
  end.

Definition dq : string := String PyStr.dquote EmptyString.

(** [data.startswith('"') and data.endswith('"') and len(data) > 2] *)
Definition double_quoted (s : string) : bool :=
  PyStr.startswith s dq && PyStr.endswith s dq && (2 <? PyStr.len s).

(** The body of the [try] under "Additional validation for JSON data": the
    payload to send, or the exception that reaches the two handlers. *)
Definition validate_json (data : value) : Net value :=
  match data with
  | VStr s =>
      match json_loads s with
      | Ok _ => ret data
      | Raise e =>
          if is_json_decode_error e then
            if double_quoted s then
              let inner_data := PyStr.inner s in
              if starts_with_bracket (PyStr.lstrip inner_data) then
                match json_loads inner_data with
                | Ok _ => note RemovedOuterDoubleQuotes ;;; ret (VStr inner_data)
                | Raise _ => raise e
                end
              else raise e
            else raise e
          else raise e
      end
  | _ => s <- lift (json_dumps data) ;; ret (VStr s)
  end.

(** [except json.JSONDecodeError] and [except Exception] of that [try] *)
Definition json_failure (e : exn) : value :=
  if is_json_decode_error e
  then failure ("Invalid JSON data: " ++ exn_msg e)
  else failure ("Error processing JSON data: " ++ exn_msg e).

(** "Use the Zep SDK to add the data to the graph" *)
Definition send_graph_data (user_id : string) (data : value) (data_type : string)
  : Net value :=
  try_catch
    (response <- sdk (GraphAdd user_id data_type data) ;;
     n <- lift (py_len data) ;;
     ret (VDict [("success", VBool true);
                 ("user_id", VStr user_id);
                 ("data_type", VStr data_type);
                 ("data_length", VInt n);
                 ("response",
                  VDict [("uuid", attr_or response "uuid" VNone);
                         ("content", attr_or response "content" VNone);
                         ("created_at", str_attr_or_none response "created_at");
                         ("processed", attr_or response "processed" VNone)])]))
    (fun e => ret (failure ("Exception adding graph data: " ++ exn_msg e))).

(** [add_graph_data] *)
Definition add_graph_data (self : ZepCloudClient) (user_id : string)
    (data : value) (data_type : string) : Net value :=
  if String.eqb user_id EmptyString then ret (failure "User ID is required")
  else
    match data with
    | VNone => ret (failure "Data is required")
    | _ =>
        if negb (is_valid_type data_type)
        then ret (failure (invalid_type_msg data_type))
        else
          match convert_dict data data_type with
          | Raise e => ret (failure ("Error converting dict to JSON: " ++ exn_msg e))
          | Ok data =>
              if 100000 <? data_len data
              then ret (failure (size_msg (data_len data)))
              else if String.eqb data_type "json" then
                checked <- try_catch
                             (d <- validate_json data ;; ret (inl d))
                             (fun e => ret (inr (json_failure e))) ;;
                match checked with
                | inl d => send_graph_data user_id d data_type
                | inr err => ret err
                end
              else send_graph_data user_id data data_type
          end
    end.

End WithRuntime.
End SDK.

(* ===================================================================== *)
(** ** [core/zep_cloud_server.py]: the local [ZepCloudClient] *)
(* ===================================================================== *)

Module REST.
Section WithRuntime.
Context {rt : PyRuntime} {rm : Remote}.

Definition ZEP_CLOUD_API_URL : string := "https://api.getzep.com/api/v2".

(** [x or y] on optional strings *)
Definition or_else (x y : option string) : option string :=
  match x with
  | Some s => if String.eqb s EmptyString then y else x
  | None => y
  end.

(** [f"Bearer {self.api_key}"] *)
Definition bearer (k : option string) : string :=
  "Bearer " ++ match k with Some s => s | None => "None" end.

(** [self.headers] *)
Definition headers (self : ZepCloudClient) : list (string * string) :=
  [("Content-Type", "application/json"); ("Authorization", bearer (api_key self))].

(** [_make_request]; [_handle_request_error] only logs. *)
Definition _make_request (self : ZepCloudClient) (method url : string)
    (data : value) : Net http_response :=
  response <- http (mkRequest method url (headers self) data) ;;
  lift (raise_for_status response) ;;;
  ret response.

Definition with_fallback (self : ZepCloudClient) (b : bool) : ZepCloudClient :=
  mkClient (impl self) (api_key self) (api_url self) (Some b).

(** [test_connection]: the object with [fallback_mode] set, and the
    returned flag. *)
Definition test_connection (self : ZepCloudClient) : Net (ZepCloudClient * bool) :=
  try_catch
    (response <- _make_request self "GET" (api_url self ++ "/health") VNone ;;
     if status_code response =? 200
     then ret (with_fallback self false, true)
     else ret (with_fallback self true, false))
    (fun _ => ret (with_fallback self true, false)).

(** [ZepCloudClient.__init__(api_key=None, api_url=None)]; [ZEP_API_KEY] is
    the module's [os.getenv("ZEP_API_KEY")]. *)
Definition init (env : environment) (key url : option string) : Net ZepCloudClient :=
  let ZEP_API_KEY := getenv (environ env) "ZEP_API_KEY" in
  let self :=
    mkClient RestImpl (or_else key ZEP_API_KEY)
      (match or_else url (Some ZEP_CLOUD_API_URL) with
       | Some u => u
       | None => ZEP_CLOUD_API_URL
       end)
      (Some false) in
  r <- test_connection self ;;
  ret (fst r).

(** [if metadata == "null": metadata = None] *)
Definition null_sentinel (metadata : value) : value :=
  match metadata with
  | VStr s => if String.eqb s "null" then VNone else metadata
  | _ => metadata
  end.

(** [x or {}] *)
Definition or_empty (v : value) : value :=
  if truthy v then v else VDict [].

(** [if v: data[k] = v] *)
Definition set_if (k : string) (v : value) (d : Dict.t) : Dict.t :=
  if truthy v then Dict.set k v d else d.

(** The handler [except Exception as e: return {"error": str(e), "success": False}] *)
Definition guarded (c : Net value) : Net value :=
  try_catch c (fun e => ret (failure (exn_msg e))).

(** [create_user] *)
Definition create_user (self : ZepCloudClient) (user_id : string)
    (metadata first_name last_name email : value) : Net value :=
  let metadata := null_sentinel metadata in
  fb <- lift (self_fallback_mode self) ;;
  if fb then
    ret (VDict [("user_id", VStr user_id); ("metadata", or_empty metadata);
                ("first_name", first_name); ("last_name", last_name);
                ("email", email); ("success", VBool true); ("fallback", VBool true)])
  else
    let url := api_url self ++ "/users" in
    let data :=
      set_if "email" email
        (set_if "last_name" last_name
          (set_if "first_name" first_name
            (set_if "metadata" metadata [("user_id", VStr user_id)]))) in
    guarded (response <- _make_request self "POST" url (VDict data) ;;
             lift (json_body response)).

(** [get_user] *)
Definition get_user (self : ZepCloudClient) (user_id : string) : Net value :=
  fb <- lift (self_fallback_mode self) ;;
  if fb then
    ret (VDict [("user_id", VStr user_id); ("success", VBool true);
                ("fallback", VBool true)])
  else
    let url := api_url self ++ "/users/" ++ user_id in
    guarded (response <- _make_request self "GET" url VNone ;;
             lift (json_body response)).

(** [update_user] *)
Definition update_user (self : ZepCloudClient) (user_id : string)
    (metadata : value) : Net value :=
  let metadata := null_sentinel metadata in
  fb <- lift (self_fallback_mode self) ;;
  if fb then
    ret (VDict [("user_id", VStr user_id); ("metadata", or_empty metadata);
                ("success", VBool true); ("fallback", VBool true)])
  else
    let url := api_url self ++ "/users/" ++ user_id in
    let data := VDict [("metadata", or_empty metadata)] in
    guarded (response <- _make_request self "PATCH" url data ;;
             lift (json_body response)).

(** [delete_user] *)
Definition delete_user (self : ZepCloudClient) (user_id : string) : Net value :=
  fb <- lift (self_fallback_mode self) ;;
  if fb then ret (VDict [("success", VBool true); ("fallback", VBool true)])
  else
    let url := api_url self ++ "/users/" ++ user_id in
    guarded (_make_request self "DELETE" url VNone ;;;
             ret (VDict [("success", VBool true)])).

(** [list_users(limit=100, cursor=None)] *)
Definition list_users (self : ZepCloudClient) (limit : Z) (cursor : value)
  : Net value :=
  fb <- lift (self_fallback_mode self) ;;
  if fb then
    ret (VDict [("users", VList []); ("success", VBool true);
                ("fallback", VBool true)])
  else
    let url := api_url self ++ "/users?limit=" ++ PyStr.of_Z limit in
    let url := if truthy cursor then url ++ "&cursor=" ++ py_str cursor else url in
    guarded (response <- _make_request self "GET" url VNone ;;
             lift (json_body response)).

(** [k in d and d[k]] for a dict [d] *)
Definition present (k : string) (d : Dict.t) : option value :=
  match Dict.get k d with
  | Some v => if truthy v then Some v else None
  | None => None
  end.

(** The items that the two loops append to [response_json["results"]] *)
Definition copied (k : string) (d : Dict.t) : result (list value) :=
  match present k d with
  | Some v => py_iter v
  | None => Ok []
  end.

(** "Enhance response for better compatibility" *)
Definition with_results (d : Dict.t) : result Dict.t :=
  if Dict.mem "results" d then Ok d
  else
    rbind (copied "edges" d) (fun es =>
    rbind (copied "nodes" d) (fun ns =>
    Ok (Dict.set "results" (VList (es ++ ns)%list) d))).

(** [f", including {len(d[k])} <what>"] when [k in d and d[k]] *)
Definition including (k what : string) (d : Dict.t) : result string :=
  match present k d with
  | Some v => rbind (py_len v) (fun n => Ok (", including " ++ PyStr.of_Z n ++ " " ++ what))
  | None => Ok EmptyString
  end.

(** "Add a summary field" *)
Definition rest_summary (query : string) (d : Dict.t) : result string :=
  let results := match Dict.get "results" d with Some v => v | None => VList [] end in
  rbind (py_len results) (fun n =>
  if 0 <? n then
    rbind (including "nodes" "nodes" d) (fun s1 =>
    rbind (including "edges" "edges/facts" d) (fun s2 =>
    Ok ("Found " ++ PyStr.of_Z n ++ " results for query '" ++ query ++ "'" ++ s1 ++ s2)))
  else Ok ("No results found for query '" ++ query ++ "'")).

(** What the code after [response.json()] does with a body that is not a
    dict: the membership test or the item assignment raises. *)
Definition not_a_dict (v : value) : exn :=
  match v with
  | VList _ => mkExn TypeError "list indices must be integers or slices, not str"
  | VStr _ => mkExn TypeError "'str' object does not support item assignment"
  | VNone => mkExn TypeError "argument of type 'NoneType' is not iterable"
  | VBool _ => mkExn TypeError "argument of type 'bool' is not iterable"
  | VInt _ => mkExn TypeError "argument of type 'int' is not iterable"
  | _ => mkExn TypeError "object does not support item assignment"
  end.

Definition enhance (query : string) (response_json : value) : result value :=
  match response_json with
  | VDict d =>
      rbind (with_results d) (fun d =>
      let d := Dict.set "success" (VBool true) d in
      rbind (rest_summary query d) (fun s =>
      Ok (VDict (Dict.set "summary" (VStr s) d))))
  | _ => Raise (not_a_dict response_json)
  end.

(** [search_graph] *)
Definition search_graph (self : ZepCloudClient) (user_id query : string)
    (limit : Z) : Net value :=
  fb <- lift (self_fallback_mode self) ;;
  if fb then
    ret (VDict [("query", VStr query); ("user_id", VStr user_id);
                ("limit", VInt limit); ("edges", VList []); ("nodes", VList []);
                ("results", VList []); ("success", VBool true);
                ("summary", VStr "No results found for query (fallback mode)");
                ("fallback", VBool true)])
  else
    let url := api_url self ++ "/graph/search" in
    let data := VDict [("user_id", VStr user_id); ("query", VStr query);
                       ("limit", VInt limit)] in
    try_catch
      (response <- _make_request self "POST" url data ;;
       response_json <- lift (json_body response) ;;
       lift (enhance query response_json))
      (fun e => ret (VDict [("error", VStr (exn_msg e)); ("success", VBool false);
                            ("summary", VStr ("Error searching graph: " ++ exn_msg e))])).

(** [data[:10000]] *)
Definition py_take (n : nat) (data : value) : result value :=
  match data with
  | VStr s => Ok (VStr (PyStr.take n s))
  | VList l => Ok (VList (firstn n l))
  | VDict _ => Raise (mkExn TypeError "unhashable type: 'slice'")
  | _ => Raise (mkExn TypeError "object is not subscriptable")
  end.

(** "Check if data exceeds size limit" *)
Definition truncate_data (data : value) : result value :=
  rbind (py_len data) (fun n =>
  if 10000 <? n then py_take (Z.to_nat 10000) data else Ok data).

(** [add_graph_data] *)
Definition add_graph_data (self : ZepCloudClient) (user_id : string)
    (data : value) (data_type : string) : Net value :=
  fb <- lift (self_fallback_mode self) ;;
  if fb then
    n <- lift (py_len data) ;;
    ret (VDict [("success", VBool true); ("user_id", VStr user_id);
                ("data_type", VStr data_type); ("data_length", VInt n);
                ("fallback", VBool true);
                ("response",
                 VDict [("uuid", VStr "simulated-uuid");
                        ("content", VStr "Simulated content (fallback mode)");
                        ("created_at", VStr "simulated-timestamp");
                        ("processed", VBool true)])])
  else
    data <- lift (truncate_data data) ;;
    if negb (is_valid_type data_type)
    then ret (failure (invalid_type_msg data_type))
    else
      let url := api_url self ++ "/graph" in
      let post_data := VDict [("user_id", VStr user_id); ("type", VStr data_type);
                              ("data", data)] in
      guarded (response <- _make_request self "POST" url post_data ;;
               response_json <- lift (json_body response) ;;
               n <- lift (py_len data) ;;
               ret (VDict [("success", VBool true); ("user_id", VStr user_id);
                           ("data_type", VStr data_type); ("data_length", VInt n);
                           ("response", response_json)])).

End WithRuntime.
End REST.

(* ===================================================================== *)
(** ** [core/zep_cloud_server.py]: start-up and the tools *)
(* ===================================================================== *)

(** The module's globals after import: [client] ([None] when the name was
    never bound) and [fallback_mode]. *)
Record server : Type := mkServer {
  client : option ZepCloudClient;
  server_fallback_mode : bool
}.

Module Server.
Section WithRuntime.
Context {rt : PyRuntime} {rm : Remote}.

(** [ZepCloudClient()]: the imported class when the import worked
    ([use_new_client]), the local one otherwise. *)
Definition construct (env : environment) : Net ZepCloudClient :=
  if sdk_installed env then lift (SDK.init env) else REST.init env None None.

(** [client.list_users()] *)
Definition probe (c : ZepCloudClient) : Net value :=
  match impl c with
  | SdkImpl => SDK.list_users c
  | RestImpl => REST.list_users c 100 VNone
  end.

(** The body of the [try] after the construction. *)
Definition determine_fallback (c : ZepCloudClient) : Net bool :=
  match fallback_mode c with
  | Some b => ret b
  | None =>
      test_users <- probe c ;;
      match test_users with
      | VNone => ret true
      | _ => n <- lift (py_len test_users) ;; ret (n =? 0)
      end
  end.

(** "Create a global client instance" *)
Definition startup (env : environment) : Net server :=
  fun w =>
    match construct env w with
    | (Raise _, w') => (Ok (mkServer None true), w')
    | (Ok c, w') =>
        match determine_fallback c w' with
        | (Ok fb, w'') => (Ok (mkServer (Some c) fb), w'')
        | (Raise _, w'') => (Ok (mkServer (Some c) true), w'')
        end
    end.

(** A use of the global [client]. *)
Definition with_client {A} (srv : server) (k : ZepCloudClient -> Net A) : Net A :=
  match client srv with
  | Some c => k c
  | None => raise (mkExn NameError "name 'client' is not defined")
  end.

Definition wrong_arity (name : string) : exn :=
  mkExn TypeError (name ++ "() takes 1 positional argument but 3 were given").

(** [create_user] *)
Definition create_user (srv : server) (user_id : string)
    (metadata first_name last_name email : value) : Net string :=
  count_tool_call ;;;
  let metadata := REST.null_sentinel metadata in
  result <- with_client srv (fun c =>
              match impl c with
              | SdkImpl => SDK.create_user c user_id metadata first_name last_name email
              | RestImpl => REST.create_user c user_id metadata first_name last_name email
              end) ;;
  lift (json_dumps result).

(** [get_user] *)
Definition get_user (srv : server) (user_id : string) : Net string :=
  count_tool_call ;;;
  result <- with_client srv (fun c =>
              match impl c with
              | SdkImpl => SDK.get_user c user_id
              | RestImpl => REST.get_user c user_id
              end) ;;
  lift (json_dumps result).

(** [update_user] *)
Definition update_user (srv : server) (user_id : string) (metadata : value)
  : Net string :=
  count_tool_call ;;;
  let metadata := REST.null_sentinel metadata in
  result <- with_client srv (fun c =>
              match impl c with
              | SdkImpl => SDK.update_user c user_id metadata VNone VNone VNone
              | RestImpl => REST.update_user c user_id metadata
              end) ;;
  lift (json_dumps result).

(** [delete_user] *)
Definition delete_user (srv : server) (user_id : string) : Net string :=
  count_tool_call ;;;
  result <- with_client srv (fun c =>
              match impl c with
              | SdkImpl => SDK.delete_user c user_id
              | RestImpl => REST.delete_user c user_id
              end) ;;
  lift (json_dumps result).

(** [list_users]; the SDK-backed method takes no arguments. *)
Definition list_users (srv : server) (limit : Z) (cursor : value) : Net string :=
  count_tool_call ;;;
  result <- with_client srv (fun c =>
              match impl c with
              | SdkImpl => raise (wrong_arity "list_users")
              | RestImpl => REST.list_users c limit cursor
              end) ;;
  lift (json_dumps result).

(** [check_connection] *)
Definition check_connection (srv : server) : Net string :=
  count_tool_call ;;;
  let fb := server_fallback_mode srv in
  lift (json_dumps
          (VDict [("connected", VBool (negb fb));
                  ("fallback_mode", VBool fb);
                  ("message", VStr (if negb fb then "Connected to Zep Cloud API"
                                    else "Running in fallback mode"))])).

(** "Truncate very long queries" *)
Definition truncate_query (query : string) : string :=
  if 8000 <? PyStr.len query then PyStr.take (Z.to_nat 8000) query else query.

(** [not query or len(query.strip()) == 0] *)
Definition is_blank (query : string) : bool :=
  String.eqb query EmptyString || (PyStr.len (PyStr.strip query) =? 0).

(** The rewriting of the query between the truncation and the client call. *)
Definition rewrite_query (query : string) : string :=
  let lower_query := PyStr.lower query in
  if is_blank query then "user information"
  else if negb (PyStr.contains "user" lower_query)
          && negb (PyStr.contains "information" lower_query)
          && negb (PyStr.contains "data" lower_query)
  then query ++ " user information"
  else query.

(** One count of [result_info]: [len(result[k])] when [k in result and
    result[k]], else [0]. *)
Definition info_count (k : string) (d : Dict.t) : result Z :=
  match REST.present k d with
  | Some v => py_len v
  | None => Ok 0
  end.

(** "Log the result structure for debugging" *)
Definition result_info (res : value) : result unit :=
  match res with
  | VDict d =>
      rbind (info_count "edges" d) (fun _ =>
      rbind (info_count "nodes" d) (fun _ =>
      rbind (info_count "results" d) (fun _ => Ok tt)))
  | _ => Ok tt
  end.

(** [search_graph] *)
Definition search_graph (srv : server) (user_id query : string) (limit : Z)
  : Net string :=
  count_tool_call ;;;
  let query := rewrite_query (truncate_query query) in
  result <- with_client srv (fun c =>
              match impl c with
              | SdkImpl => SDK.search_graph c user_id query limit
              | RestImpl => REST.search_graph c user_id query limit
              end) ;;
  lift (result_info result) ;;;
  lift (json_dumps result).

Definition sq : string := "'".

(** [data.startswith("'") and data.endswith("'")] *)
Definition single_quoted (data : string) : bool :=
  PyStr.startswith data sq && PyStr.endswith data sq.

(** "Remove extra quotes that Claude might add" *)
Definition unquote (data : string) : Net string :=
  if single_quoted data then
    note RemovedOuterSingleQuotes ;;; ret (PyStr.inner data)
  else if SDK.double_quoted data then
    let inner_data := PyStr.inner data in
    if starts_with_bracket (PyStr.lstrip inner_data) then
      match json_loads inner_data with
      | Ok _ => note RemovedOuterDoubleQuotes ;;; ret inner_data
      | Raise _ => ret data
      end
    else ret data
  else ret data.

(** [data.startswith('{') and data.endswith('}')] *)
Definition looks_like_dict (data : string) : bool :=
  PyStr.startswith data "{" && PyStr.endswith data "}".

(** "Try to parse as Python literal if it looks like a dict" *)
Definition literal_fix (data : string) : Net string :=
  if looks_like_dict data then
    match rbind (literal_eval data) json_dumps with
    | Ok s => note FixedByLiteralEval ;;; ret s
    | Raise _ => ret data
    end
  else ret data.

(** "Special handling for JSON data to make it more robust": the payload to
    hand to the client, or the failure to return. *)
Definition normalize_json (data : string) : Net (string + value) :=
  match json_loads data with
  | Ok _ => ret (inl data)
  | Raise e =>
      if is_json_decode_error e then
        data <- unquote data ;;
        data <- literal_fix (PyStr.strip data) ;;
        match json_loads data with
        | Ok _ => ret (inl data)
        | Raise e' =>
            if is_json_decode_error e'
            then ret (inr (failure ("Invalid JSON format: " ++ exn_msg e')))
            else ret (inr (failure ("Failed to process JSON data: " ++ exn_msg e')))
        end
      else raise e
  end.

(** "Log summary based on result":
    [result.get("response", {}).get("uuid", "unknown")] needs a dict. *)
Definition log_summary (res : value) : result unit :=
  match res with
  | VDict d =>
      match Dict.get "success" d with
      | Some ok =>
          if truthy ok then
            match Dict.get "response" d with
            | None => Ok tt
            | Some (VDict _) => Ok tt
            | Some _ => Raise (mkExn AttributeError "object has no attribute 'get'")
            end
          else Ok tt
      | None => Ok tt
      end
  | _ => Ok tt
  end.

(** "Call the client method" *)
Definition forward (srv : server) (user_id : string) (data : value)
    (data_type : string) : Net string :=
  try_catch
    (res <- with_client srv (fun c =>
              match impl c with
              | SdkImpl => SDK.add_graph_data c user_id data data_type
              | RestImpl => REST.add_graph_data c user_id data data_type
              end) ;;
     lift (log_summary res) ;;;
     lift (json_dumps res))
    (fun e => lift (json_dumps (failure (exn_msg e)))).

(** "Handle case where data is a Python dict instead of a string" *)
Definition to_text (data : value) (data_type : string) : result value :=
  match data with
  | VStr _ => Ok data
  | _ =>
      if String.eqb data_type "json"
      then rbind (json_dumps data) (fun s => Ok (VStr s))
      else Ok data
  end.

(** [add_graph_data] *)
Definition add_graph_data (srv : server) (user_id : string) (data : value)
    (data_type : string) : Net string :=
  count_tool_call ;;;
  match to_text data data_type with
  | Raise e =>
      lift (json_dumps
              (failure ("Failed to convert Python dict to JSON string: " ++ exn_msg e)))
  | Ok data =>
      if negb (is_valid_type data_type)
      then lift (json_dumps (failure (invalid_type_msg data_type)))
      else if String.eqb data_type "json" then
        match data with
        | VStr s =>
            fixed <- normalize_json s ;;
            match fixed with
            | inl s' => forward srv user_id (VStr s') data_type
            | inr err => lift (json_dumps err)
            end
        | _ => raise (mkExn TypeError "the JSON object must be str, bytes or bytearray")
        end
      else forward srv user_id data data_type
  end.

End WithRuntime.
End Server.

(* ===================================================================== *)
(** ** [tests/test_specific_user.py]: a round of operations on one user *)
(* ===================================================================== *)

(** The script works on the SDK-backed client.  What it prints is kept only
    as far as printing can raise: a subscript or [json.dumps] inside an
    f-string.  [time.time()] is an argument of the function that reads the
    clock. *)
Module UserTest.
Section WithRuntime.
Context {rt : PyRuntime} {rm : Remote}.

Definition USER_ID : string := "16263830569_aprilx".

(** [v[k]] for a string [k] *)
Definition getitem (v : value) (k : string) : result value :=
  match v with
  | VDict d =>
      match Dict.get k d with
      | Some x => Ok x
      | None => Raise (mkExn KeyError k)
      end
  | VStr _ => Raise (mkExn TypeError "string indices must be integers")
  | VList _ => Raise (mkExn TypeError "list indices must be integers or slices, not str")
  | _ => Raise (mkExn TypeError "object is not subscriptable")
  end.

(** [k in v] for a string [k] *)
Definition contains_key (v : value) (k : string) : result bool :=
  match v with
  | VDict d => Ok (Dict.mem k d)
  | VStr s => Ok (PyStr.contains k s)
  | VList l =>
      Ok (existsb (fun x => match x with VStr s => String.eqb s k | _ => false end) l)
  | _ => Raise (mkExn TypeError "argument is not iterable")
  end.

(** The two prints after a call that returned a user:
    [user['user_id']] and [json.dumps(user['metadata'], indent=2)]. *)
Definition show_user (user : value) : result unit :=
  rbind (getitem user "user_id") (fun _ =>
  rbind (getitem user "metadata") (fun md =>
  rbind (json_dumps md) (fun _ => Ok tt))).

(** [check_user_exists(client, user_id, verbose=True)] *)
Definition check_user_exists (client : ZepCloudClient) (user_id : string)
    (verbose : bool) : Net value :=
  try_catch
    (user <- SDK.get_user client user_id ;;
     if truthy user then
       (if verbose then lift (show_user user) else ret tt) ;;;
       ret user
     else ret VNone)
    (fun _ => ret VNone).

(** The default metadata of [create_user] and [restore_user]. *)
Definition default_metadata (now : value) (description source : string) : value :=
  VDict [("created_at", now); ("description", VStr description);
         ("source", VStr source); ("organization", VStr "zep_cloud_test")].

(** [create_user(client, user_id, metadata=None)]; [now] is [time.time()]. *)
Definition create_user (client : ZepCloudClient) (user_id : string)
    (metadata now : value) : Net value :=
  let metadata :=
    match metadata with
    | VNone => default_metadata now "Test user created for production use"
                 "direct_api_call"
    | _ => metadata
    end in
  lift (json_dumps metadata) ;;;
  try_catch
    (user <- SDK.create_user client user_id metadata VNone VNone VNone ;;
     if truthy user then lift (show_user user) ;;; ret user else ret VNone)
    (fun _ => ret VNone).

(** [update_user(client, user_id, metadata)] *)
Definition update_user (client : ZepCloudClient) (user_id : string)
    (metadata : value) : Net value :=
  lift (json_dumps metadata) ;;;
  try_catch
    (user <- SDK.update_user client user_id metadata VNone VNone VNone ;;
     if truthy user then lift (show_user user) ;;; ret user else ret VNone)
    (fun _ => ret VNone).

(** [delete_user(client, user_id)] *)
Definition delete_user (client : ZepCloudClient) (user_id : string) : Net bool :=
  try_catch
    (res <- SDK.delete_user client user_id ;; ret (truthy res))
    (fun _ => ret false).

(** [restore_user(client, user_id, metadata=None)] *)
Definition restore_user (client : ZepCloudClient) (user_id : string)
    (metadata now : value) : Net value :=
  let metadata :=
    match metadata with
    | VNone => default_metadata now "Restored user" "restore_operation"
    | _ => metadata
    end in
  create_user client user_id metadata now.

(** The [update_metadata] of [run_test_with_metadata]. *)
Definition update_metadata (now : value) : value :=
  VDict [("updated_at", now); ("description", VStr "Updated test user");
         ("test_operation", VStr "update"); ("organization", VStr "zep_cloud_test")].

(** "Cleaning up by deleting the user we created." *)
Definition clean_up (client : ZepCloudClient) (had_user_initially : bool) : Net unit :=
  if had_user_initially then ret tt
  else delete_user client USER_ID ;;; ret tt.

(** The end of the round for a user that was there at the start:
    "Restore the original user". *)
Definition restore_original (client : ZepCloudClient) (original_user now : value)
  : Net unit :=
  has_metadata <- (if truthy original_user
                   then lift (contains_key original_user "metadata")
                   else ret false) ;;
  (if has_metadata : bool
   then md <- lift (getitem original_user "metadata") ;;
        restore_user client USER_ID md now
   else restore_user client USER_ID VNone now) ;;;
  ret tt.

(** The round from [had_user_initially = original_user is not None] on.
    [now] gives the readings of the clock: [now 0] for the default
    metadata of [create_user], [now 1] for [update_metadata], [now 2] for
    the default metadata of [restore_user]. *)
Definition proceed (client : ZepCloudClient) (metadata : value) (now : nat -> value)
    (original_user : value) : Net bool :=
  let had_user_initially :=
    match original_user with VNone => false | _ => true end in
  created <- (if had_user_initially then ret true
              else u <- create_user client USER_ID metadata (now 0%nat) ;;
                   ret (truthy u)) ;;
  if negb created then ret false
  else
    updated_user <- update_user client USER_ID (update_metadata (now 1%nat)) ;;
    if negb (truthy updated_user) then
      clean_up client had_user_initially ;;; ret false
    else
      verified_user <- check_user_exists client USER_ID true ;;
      if negb (truthy verified_user) then
        clean_up client had_user_initially ;;; ret false
      else if had_user_initially then
        restore_original client original_user (now 2%nat) ;;; ret true
      else
        deleted <- delete_user client USER_ID ;;
        if negb deleted then ret false
        else
          deleted_check <- check_user_exists client USER_ID true ;;
          if truthy deleted_check then ret false else ret true.

(** The round after the client has been built. *)
Definition round (client : ZepCloudClient) (metadata : value) (now : nat -> value)
  : Net bool :=
  original_user <- check_user_exists client USER_ID true ;;
  proceed client metadata now original_user.

(** [run_test_with_metadata(metadata)] *)
Definition run_test_with_metadata (env : environment) (metadata : value)
    (now : nat -> value) : Net bool :=
  match SDK.init env with
  | Raise _ => ret false
  | Ok client => round client metadata now
  end.

End WithRuntime.
End UserTest.

(* ===================================================================== *)
(** ** A reference runtime *)
(* ===================================================================== *)

(** [repr] of the values of the model; an object shows its class only. *)
Module Repr.

Definition printable (n : N) : bool :=
  ((32 <=? n) && (n <=? 126) || (161 <=? n) && negb (n =? 173))%N.

Definition hex2 (n : N) : string :=
  String (JsonDumps.hex_digit (n / 16)) (String (JsonDumps.hex_digit (n mod 16)) EmptyString).

Definition escape_char (quote : ascii) (c : ascii) : string :=
  let n := PyStr.code c in
  if (n =? 92)%N then "\\"
  else if Ascii.eqb c quote then String "\" (String c EmptyString)
  else if (n =? 10)%N then "\n"
  else if (n =? 13)%N then "\r"
  else if (n =? 9)%N then "\t"
  else if printable n then String c EmptyString
  else "\x" ++ hex2 n.

Fixpoint escape (quote : ascii) (s : string) : string :=
  match s with
  | EmptyString => EmptyString
  | String c r => escape_char quote c ++ escape quote r
  end.

(** Single quotes, unless the text has a single quote and no double one. *)
Definition of_str (s : string) : string :=
  let quote :=
    if PyStr.contains "'" s && negb (PyStr.contains (String PyStr.dquote EmptyString) s)
    then PyStr.dquote else "'"%char in
  String quote (escape quote s ++ String quote EmptyString).

Fixpoint repr (v : value) : string :=
  match v with
  | VNone => "None"
  | VBool true => "True"
  | VBool false => "False"
  | VInt z => PyStr.of_Z z
  | VStr s => of_str s
  | VList l => "[" ++ PyStr.join ", " (map repr l) ++ "]"
  | VDict d =>
      "{" ++ PyStr.join ", " (map (fun kv => of_str (fst kv) ++ ": " ++ repr (snd kv)) d) ++ "}"
  | VObj cls _ => "<" ++ cls ++ " object>"
  end.

End Repr.

(** [json.loads] as CPython's [json.decoder] and [json.scanner] define it
    (before 3.13): the JSON grammar, the four whitespace characters, strict
    strings, and the three extra literals [NaN], [Infinity], [-Infinity].
    The diagnostic is the decoder's message without the position. *)
Module JsonLoads.

Definition code := PyStr.code.

(** The outcome of a scanner: what was read and what follows it, or the
    message of the [JSONDecodeError]. *)
Inductive scan (A : Type) : Type :=
| Scanned (a : A) (rest : list ascii)
| Bad (msg : string).
Arguments Scanned {A} a rest.
Arguments Bad {A} msg.

Definition expecting_value : string := "Expecting value".
Definition expecting_name : string :=
  "Expecting property name enclosed in double quotes".
Definition expecting_colon : string := "Expecting ':' delimiter".
Definition expecting_comma : string := "Expecting ',' delimiter".
Definition unterminated : string := "Unterminated string starting at".
Definition control_character : string := "Invalid control character at".
Definition bad_unicode_escape : string := "Invalid \uXXXX escape".
Definition bad_escape (c : ascii) : string :=
  "Invalid \escape: " ++ Repr.of_str (String c EmptyString).

Definition is_ws (c : ascii) : bool :=
  let n := code c in ((n =? 32) || (n =? 9) || (n =? 10) || (n =? 13))%N.

Fixpoint skip_ws (s : list ascii) : list ascii :=
  match s with
  | c :: r => if is_ws c then skip_ws r else s
  | [] => []
  end.

Definition is_digit (c : ascii) : bool :=
  let n := code c in ((48 <=? n) && (n <=? 57))%N.

Definition hex_value (c : ascii) : option N :=
  let n := code c in
  if ((48 <=? n) && (n <=? 57))%N then Some (n - 48)%N
  else if ((97 <=? n) && (n <=? 102))%N then Some (n - 87)%N
  else if ((65 <=? n) && (n <=? 70))%N then Some (n - 55)%N
  else None.

(** Four hexadecimal digits. *)
Definition hex4 (s : list ascii) : option (N * list ascii) :=
  match s with
  | a :: b :: c :: d :: r =>
      match hex_value a, hex_value b, hex_value c, hex_value d with
      | Some x, Some y, Some z, Some t => Some (((x * 16 + y) * 16 + z) * 16 + t, r)%N
      | _, _, _, _ => None
      end
  | _ => None
  end.

(** The character after a backslash, [u] apart. *)
Definition simple_escape (c : ascii) : option N :=
  let n := code c in
  if (n =? 34)%N then Some 34%N          (* quote *)
  else if (n =? 92)%N then Some 92%N     (* backslash *)
  else if (n =? 47)%N then Some 47%N     (* slash *)
  else if (n =? 98)%N then Some 8%N      (* b *)
  else if (n =? 102)%N then Some 12%N    (* f *)
  else if (n =? 110)%N then Some 10%N    (* n *)
  else if (n =? 114)%N then Some 13%N    (* r *)
  else if (n =? 116)%N then Some 9%N     (* t *)
  else None.

(** A low surrogate escape that follows a high surrogate. *)
Definition low_surrogate (s : list ascii) : option (N * list ascii) :=
  match s with
  | b :: u :: r =>
      if ((code b =? 92) && (code u =? 117))%N then
        match hex4 r with
        | Some (lo, r') =>
            if ((56320 <=? lo) && (lo <=? 57343))%N then Some (lo, r') else None
        | None => None
        end
      else None
  | _ => None
  end.

(** [scanstring], after the opening quote: the code points and what
    follows the closing quote.  Every step consumes a character, so a fuel
    of the length of the text is never used up. *)
Fixpoint scanstring (fuel : nat) (s : list ascii) (acc : list N)
  : scan (list N) :=
  match fuel with
  | O => Bad unterminated
  | S fuel' =>
      match s with
      | [] => Bad unterminated
      | c :: r =>
          let n := code c in
          if (n =? 34)%N then Scanned (rev acc) r
          else if (n <? 32)%N then Bad control_character
          else if (n =? 92)%N then
            match r with
            | [] => Bad unterminated
            | e :: r1 =>
                if (code e =? 117)%N then
                  match hex4 r1 with
                  | None => Bad bad_unicode_escape
                  | Some (uni, r2) =>
                      if ((55296 <=? uni) && (uni <=? 56319))%N then
                        match low_surrogate r2 with
                        | Some (uni2, r3) =>
                            scanstring fuel' r3
                              ((65536 + ((uni - 55296) * 1024 + (uni2 - 56320)))%N :: acc)
                        | None => scanstring fuel' r2 (uni :: acc)
                        end
                      else scanstring fuel' r2 (uni :: acc)
                  end
                else
                  match simple_escape e with
                  | Some k => scanstring fuel' r1 (k :: acc)
                  | None => Bad (bad_escape e)
                  end
            end
          else scanstring fuel' r (n :: acc)
      end
  end.

Fixpoint span_digits (s : list ascii) : list ascii * list ascii :=
  match s with
  | c :: r =>
      if is_digit c then let (ds, r') := span_digits r in (c :: ds, r')
      else ([], s)
  | [] => ([], [])
  end.

(** The integer part: an optional minus, then a zero or a digit string
    without a leading zero. *)
Definition int_part (s : list ascii) : option (list ascii * list ascii) :=
  let (sign, r) :=
    match s with
    | c :: r => if (code c =? 45)%N then ([c], r) else ([], s)
    | [] => ([], s)
    end in
  match r with
  | d :: r1 =>
      if (code d =? 48)%N then Some ((sign ++ [d])%list, r1)
      else if is_digit d then
        let (ds, r2) := span_digits r1 in Some ((sign ++ d :: ds)%list, r2)
      else None
  | [] => None
  end.

(** The optional fraction: a point and at least one digit. *)
Definition frac_part (s : list ascii) : list ascii * list ascii :=
  match s with
  | c :: r =>
      if (code c =? 46)%N then
        match span_digits r with
        | ([], _) => ([], s)
        | (ds, r') => (c :: ds, r')
        end
      else ([], s)
  | [] => ([], s)
  end.

(** The optional exponent: e or E, an optional sign, at least one digit. *)
Definition exp_part (s : list ascii) : list ascii * list ascii :=
  match s with
  | c :: r =>
      if ((code c =? 101) || (code c =? 69))%N then
        let (sign, r1) :=
          match r with
          | g :: r1 => if ((code g =? 43) || (code g =? 45))%N then ([g], r1) else ([], r)
          | [] => ([], r)
          end in
        match span_digits r1 with
        | ([], _) => ([], s)
        | (ds, r') => (c :: (sign ++ ds)%list, r')
        end
      else ([], s)
  | [] => ([], s)
  end.

(** [NUMBER_RE.match] *)
Definition match_number (s : list ascii) : option (string * list ascii) :=
  match int_part s with
  | None => None
  | Some (i, r) =>
      let (f, r1) := frac_part r in
      let (e, r2) := exp_part r1 in
      Some (string_of_list_ascii (i ++ f ++ e)%list, r2)
  end.

(** [string[idx:idx + len(w)] == w]: what follows the word. *)
Fixpoint after_word (w : list ascii) (s : list ascii) : option (list ascii) :=
  match w, s with
  | [], _ => Some s
  | a :: w', b :: s' => if Ascii.eqb a b then after_word w' s' else None
  | _ :: _, [] => None
  end.

Definition word (w : string) (s : list ascii) : option (list ascii) :=
  after_word (list_ascii_of_string w) s.

(** The literals and the numbers of [_scan_once]; [StopIteration] becomes
    "Expecting value" in every caller. *)
Definition scan_atom (s : list ascii) : scan json :=
  match word "null" s with
  | Some r => Scanned JNull r
  | None =>
  match word "true" s with
  | Some r => Scanned (JBool true) r
  | None =>
  match word "false" s with
  | Some r => Scanned (JBool false) r
  | None =>
  match match_number s with
  | Some (lexeme, r) => Scanned (JNum lexeme) r
  | None =>
  match word "NaN" s with
  | Some r => Scanned (JNum "NaN") r
  | None =>
  match word "Infinity" s with
  | Some r => Scanned (JNum "Infinity") r
  | None =>
  match word "-Infinity" s with
  | Some r => Scanned (JNum "-Infinity") r
  | None => Bad expecting_value
  end end end end end end end.

(** [_scan_once], [JSONObject] and [JSONArray].  [members] starts after the
    opening quote of a key, [elements] at the first character of an
    element.  A call uses up one unit of fuel and the callee starts where
    at least one more character has been consumed, or is the scanner of a
    value that is at least one character long: twice the length of the
    text, and two, is enough fuel. *)
Fixpoint scan_once (fuel : nat) (s : list ascii) {struct fuel} : scan json :=
  match fuel with
  | O => Bad expecting_value
  | S fuel' =>
      match s with
      | [] => Bad expecting_value
      | c :: r =>
          let n := code c in
          if (n =? 34)%N then
            match scanstring (List.length r) r [] with
            | Scanned cps r' => Scanned (JStr cps) r'
            | Bad msg => Bad msg
            end
          else if (n =? 123)%N then
            match skip_ws r with
            | d :: r1 =>
                if (code d =? 125)%N then Scanned (JObj []) r1
                else if (code d =? 34)%N then
                  match members fuel' r1 [] with
                  | Scanned ms r2 => Scanned (JObj ms) r2
                  | Bad msg => Bad msg
                  end
                else Bad expecting_name
            | [] => Bad expecting_name
            end
          else if (n =? 91)%N then
            match skip_ws r with
            | d :: r1 =>
                if (code d =? 93)%N then Scanned (JArr []) r1
                else
                  match elements fuel' (d :: r1) [] with
                  | Scanned es r2 => Scanned (JArr es) r2
                  | Bad msg => Bad msg
                  end
            | [] => Bad expecting_value
            end
          else scan_atom s
      end
  end
with members (fuel : nat) (s : list ascii) (acc : list (list N * json)) {struct fuel}
  : scan (list (list N * json)) :=
  match fuel with
  | O => Bad expecting_value
  | S fuel' =>
      match scanstring (List.length s) s [] with
      | Bad msg => Bad msg
      | Scanned key r =>
          match skip_ws r with
          | c :: r1 =>
              if (code c =? 58)%N then
                match scan_once fuel' (skip_ws r1) with
                | Bad msg => Bad msg
                | Scanned v r2 =>
                    match skip_ws r2 with
                    | d :: r3 =>
                        if (code d =? 125)%N then Scanned (rev ((key, v) :: acc)) r3
                        else if (code d =? 44)%N then
                          match skip_ws r3 with
                          | q :: r4 =>
                              if (code q =? 34)%N
                              then members fuel' r4 ((key, v) :: acc)
                              else Bad expecting_name
                          | [] => Bad expecting_name
                          end
                        else Bad expecting_comma
                    | [] => Bad expecting_comma
                    end
                end
              else Bad expecting_colon
          | [] => Bad expecting_colon
          end
      end
  end
with elements (fuel : nat) (s : list ascii) (acc : list json) {struct fuel}
  : scan (list json) :=
  match fuel with
  | O => Bad expecting_value
  | S fuel' =>
      match scan_once fuel' s with
      | Bad msg => Bad msg
      | Scanned v r =>
          match skip_ws r with
          | d :: r1 =>
              if (code d =? 93)%N then Scanned (rev (v :: acc)) r1
              else if (code d =? 44)%N then elements fuel' (skip_ws r1) (v :: acc)
              else Bad expecting_comma
          | [] => Bad expecting_comma
          end
      end
  end.

Definition decode_error (msg : string) : exn := mkExn JSONDecodeError msg.

(** [JSONDecoder.decode] *)
Definition loads (text : string) : result json :=
  let s := skip_ws (list_ascii_of_string text) in
  match scan_once (2 * List.length s + 2) s with
  | Bad msg => Raise (decode_error msg)
  | Scanned v r =>
      match skip_ws r with
      | [] => Ok v
      | _ :: _ => Raise (decode_error "Extra data")
      end
  end.

End JsonLoads.

(** A fragment of [ast.literal_eval]: dict and list displays, with the
    trailing comma that Python allows, string keys, strings in single or
    double quotes without a backslash, decimal integers, [True], [False]
    and [None].  A text outside the fragment is answered with an error. *)
Module Literal.

Definition code := PyStr.code.

(** Whitespace between the tokens of a display. *)
Definition is_ws (c : ascii) : bool :=
  let n := code c in ((n =? 32) || (n =? 9) || (n =? 10) || (n =? 13) || (n =? 12))%N.

Fixpoint skip_ws (s : list ascii) : list ascii :=
  match s with
  | c :: r => if is_ws c then skip_ws r else s
  | [] => []
  end.

(** The characters up to the closing quote [q]. *)
Fixpoint quoted (q : ascii) (s : list ascii) (acc : list ascii)
  : option (string * list ascii) :=
  match s with
  | [] => None
  | c :: r =>
      if Ascii.eqb c q then Some (string_of_list_ascii (rev acc), r)
      else if ((code c =? 92) || (code c =? 10) || (code c =? 13))%N then None
      else quoted q r (c :: acc)
  end.

Definition is_quote (c : ascii) : bool :=
  ((code c =? 39) || (code c =? 34))%N.

Definition digits_value (ds : list ascii) : Z :=
  fold_left (fun acc d => acc * 10 + Z.of_N (code d - 48)) ds 0.

Definition number (s : list ascii) : option (Z * list ascii) :=
  match JsonLoads.int_part s with
  | Some (c :: ds, r) =>
      if (code c =? 45)%N then Some (- digits_value ds, r)
      else Some (digits_value (c :: ds), r)
  | _ => None
  end.

Definition atom (s : list ascii) : option (value * list ascii) :=
  match JsonLoads.word "None" s with
  | Some r => Some (VNone, r)
  | None =>
  match JsonLoads.word "True" s with
  | Some r => Some (VBool true, r)
  | None =>
  match JsonLoads.word "False" s with
  | Some r => Some (VBool false, r)
  | None =>
  match number s with
  | Some (z, r) => Some (VInt z, r)
  | None => None
  end end end end.

(** [entries] and [items] start at the first token after the opening
    bracket or after a comma. *)
Fixpoint literal (fuel : nat) (s : list ascii) {struct fuel}
  : option (value * list ascii) :=
  match fuel with
  | O => None
  | S fuel' =>
      match s with
      | [] => None
      | c :: r =>
          if is_quote c then
            match quoted c r [] with
            | Some (t, r') => Some (VStr t, r')
            | None => None
            end
          else if (code c =? 123)%N then
            match entries fuel' (skip_ws r) [] with
            | Some (d, r') => Some (VDict d, r')
            | None => None
            end
          else if (code c =? 91)%N then
            match items fuel' (skip_ws r) [] with
            | Some (l, r') => Some (VList l, r')
            | None => None
            end
          else atom s
      end
  end
with entries (fuel : nat) (s : list ascii) (acc : Dict.t) {struct fuel}
  : option (Dict.t * list ascii) :=
  match fuel with
  | O => None
  | S fuel' =>
      match s with
      | [] => None
      | c :: r =>
          if (code c =? 125)%N then Some (acc, r)
          else if is_quote c then
            match quoted c r [] with
            | None => None
            | Some (k, r1) =>
                match skip_ws r1 with
                | colon :: r2 =>
                    if (code colon =? 58)%N then
                      match literal fuel' (skip_ws r2) with
                      | None => None
                      | Some (v, r3) =>
                          match skip_ws r3 with
                          | d :: r4 =>
                              if (code d =? 125)%N then Some (Dict.set k v acc, r4)
                              else if (code d =? 44)%N
                              then entries fuel' (skip_ws r4) (Dict.set k v acc)
                              else None
                          | [] => None
                          end
                      end
                    else None
                | [] => None
                end
            end
          else None
      end
  end
with items (fuel : nat) (s : list ascii) (acc : list value) {struct fuel}
  : option (list value * list ascii) :=
  match fuel with
  | O => None
  | S fuel' =>
      match s with
      | [] => None
      | c :: r =>
          if (code c =? 93)%N then Some (rev acc, r)
          else
            match literal fuel' s with
            | None => None
            | Some (v, r1) =>
                match skip_ws r1 with
                | d :: r2 =>
                    if (code d =? 93)%N then Some (rev (v :: acc), r2)
                    else if (code d =? 44)%N
                    then items fuel' (skip_ws r2) (v :: acc)
                    else None
                | [] => None
                end
            end
      end
  end.

Definition eval (text : string) : result value :=
  let s := skip_ws (list_ascii_of_string text) in
  match literal (2 * List.length s + 2) s with
  | Some (v, r) =>
      match skip_ws r with
      | [] => Ok v
      | _ :: _ => Raise (mkExn SyntaxError "invalid syntax")
      end
  | None => Raise (mkExn ValueError "malformed node or string")
  end.

End Literal.

Definition reference_runtime : PyRuntime := {|
  json_loads := JsonLoads.loads;
  literal_eval := Literal.eval;
  py_repr := Repr.repr
|}.

(* ===================================================================== *)
(** ** Two remote sides for the concrete runs *)
(* ===================================================================== *)

Module Fixtures.

Definition user_object (user_id : string) (metadata : value) : value :=
  VObj "User" [("user_id", VStr user_id); ("metadata", metadata);
               ("first_name", VNone); ("last_name", VNone); ("email", VNone)].

(** A reachable account without any user, graph fact or node. *)
Definition empty_account (c : sdk_call) : value :=
  match c with
  | UserListOrdered => VObj "ApiUserListResponse" [("users", VList [])]
  | UserGet u => user_object u VNone
  | UserAdd u md _ _ _ => user_object u md
  | UserUpdate u md _ _ _ => user_object u md
  | UserDelete _ => VNone
  | GraphSearch _ _ _ => VObj "GraphSearchResults" [("edges", VList []); ("nodes", VList [])]
  | GraphAdd _ _ data =>
      VObj "Episode" [("uuid", VStr "ep-1"); ("content", data);
                      ("created_at", VStr "2025-01-01T00:00:00Z");
                      ("processed", VBool false)]
  end.

Definition ok_response : http_response :=
  mkResponse 200 "{}" (Ok tt) (Ok (VDict [])).

Definition remote_up : Remote := {|
  zep_new := fun _ => Ok tt;
  sdk_respond := fun _ c => Ok (empty_account c);
  http_respond := fun _ _ => Ok ok_response
|}.

Definition refused : exn := mkExn ConnectionError "connection refused".

Definition remote_down : Remote := {|
  zep_new := fun _ => Ok tt;
  sdk_respond := fun _ _ => Raise refused;
  http_respond := fun _ _ => Raise refused
|}.

Definition world0 : world := mkWorld [] [] 0.

Definition env_with_key (installed : bool) : environment :=
  mkEnv [("HOME", "/root"); ("ZEP_API_KEY", "z_key")] installed.

Definition env_without_key (installed : bool) : environment :=
  mkEnv [("HOME", "/root")] installed.

Definition sdk_client : ZepCloudClient :=
  mkClient SdkImpl (Some "z_key") EmptyString (Some false).

Definition rest_client (fallback : bool) : ZepCloudClient :=
  mkClient RestImpl (Some "z_key") REST.ZEP_CLOUD_API_URL (Some fallback).

Definition sdk_server : server := mkServer (Some sdk_client) false.

Definition rest_server (fallback : bool) : server :=
  mkServer (Some (rest_client fallback)) fallback.

(** [n] times the letter a. *)
Definition long_payload (n : Z) : string := PyStr.replicate (Z.to_nat n) "a".

(** 8,000 spaces and a letter. *)
Definition spaces_then_x : string :=
  PyStr.replicate (Z.to_nat 8000) " " ++ "x".

(** A JSON array in one pair of double quotes: a JSON string as well. *)
Definition quoted_array : string := PyStr.bq "`[1]`".

(** A JSON object in one pair of double quotes: not JSON. *)
Definition quoted_object : string := PyStr.bq "`{`name`: `X`}`".

Definition plain_object : string := PyStr.bq "{`name`: `X`}".

(** The same object in one pair of single quotes. *)
Definition single_quoted_object : string := PyStr.bq "'{`name`: `X`}'".

(** A Python dict display with single quotes. *)
Definition python_dict : string := "{'name': 'John', 'age': 30}".

Definition python_dict_as_json : string := PyStr.bq "{`name`: `John`, `age`: 30}".

(** An SDK-backed client object without the attribute [fallback_mode]. *)
Definition bare_client : ZepCloudClient :=
  mkClient SdkImpl (Some "z_key") EmptyString None.

(** 8,001 times the letter q. *)
Definition long_query : string := PyStr.replicate (Z.to_nat 8001) "q".

End Fixtures.

(* ===================================================================== *)
(** ** Two more remote sides *)
(* ===================================================================== *)

Module Accounts.
Import Fixtures.

Definition two_users : list value :=
  [user_object "alice" (VDict [("plan", VStr "pro")]); user_object "bob" VNone].

Definition two_edges : list value :=
  [VObj "EntityEdge" [("id", VStr "e1"); ("fact", VStr "alice likes tea");
                      ("created_at", VStr "2025-01-01"); ("score", VInt 1)];
   VObj "EntityEdge" [("id", VStr "e2"); ("fact", VStr "alice lives in Oslo")]].

Definition one_node : list value :=
  [VObj "EntityNode" [("id", VStr "n1"); ("label", VStr "Person")]].

(** An account with two users, two facts and one node. *)
Definition busy_account (c : sdk_call) : value :=
  match c with
  | UserListOrdered => VObj "ApiUserListResponse" [("users", VList two_users)]
  | GraphSearch _ _ _ =>
      VObj "GraphSearchResults" [("edges", VList two_edges); ("nodes", VList one_node)]
  | _ => empty_account c
  end.

Definition search_body : value :=
  VDict [("edges", VList [VDict [("fact", VStr "alice likes tea")]]);
         ("success", VBool false)].

Definition remote_busy : Remote := {|
  zep_new := fun _ => Ok tt;
  sdk_respond := fun _ c => Ok (busy_account c);
  http_respond := fun _ _ => Ok (mkResponse 200 "{}" (Ok tt) (Ok search_body))
|}.

(** A service that answers every request with the JSON text [null]. *)
Definition remote_terse : Remote := {|
  zep_new := fun _ => Ok tt;
  sdk_respond := fun _ _ => Ok VNone;
  http_respond := fun _ _ => Ok (mkResponse 200 "null" (Ok tt) (Ok VNone))
|}.

(** The metadata of [u] after the requests of [log], or [None] when [u]
    does not exist then. *)
Fixpoint stored (log : list net_call) (u : string) (acc : option value)
  : option value :=
  match log with
  | [] => acc
  | Sdk (UserAdd x md _ _ _) :: r =>
      stored r u (if String.eqb x u
                  then match acc with None => Some md | Some _ => acc end
                  else acc)
  | Sdk (UserUpdate x md _ _ _) :: r =>
      stored r u (if String.eqb x u
                  then match acc with None => None | Some _ => Some md end
                  else acc)
  | Sdk (UserDelete x) :: r =>
      stored r u (if String.eqb x u then None else acc)
  | _ :: r => stored r u acc
  end.

Definition not_found : exn := mkExn OtherError "not found".
Definition already_exists : exn := mkExn OtherError "user already exists".

(** A remote side that keeps the users it is given. *)
Definition keeping (log : list net_call) (c : sdk_call) : result value :=
  match c with
  | UserListOrdered => Ok (VObj "ApiUserListResponse" [("users", VList [])])
  | UserGet u =>
      match stored log u None with
      | Some md => Ok (user_object u md)
      | None => Raise not_found
      end
  | UserAdd u md _ _ _ =>
      match stored log u None with
      | Some _ => Raise already_exists
      | None => Ok (user_object u md)
      end
  | UserUpdate u md _ _ _ =>
      match stored log u None with
      | Some _ => Ok (user_object u md)
      | None => Raise not_found
      end
  | UserDelete u =>
      match stored log u None with
      | Some _ => Ok VNone
      | None => Raise not_found
      end
  | _ => Ok (empty_account c)
  end.

Definition remote_keeping : Remote := {|
  zep_new := fun _ => Ok tt;
  sdk_respond := keeping;
  http_respond := fun _ _ => Ok ok_response
|}.

(** The clock of the concrete runs. *)
Definition clock (k : nat) : value := VInt (1700000000 + Z.of_nat k).

(** A clock without a third reading. *)
Definition stopped_clock (k : nat) : value :=
  match k with
  | 0%nat | 1%nat => clock k
  | _ => VNone
  end.

(** A log in which the user of the test script exists already. *)
Definition world_with_user : world :=
  mkWorld [Sdk (UserAdd UserTest.USER_ID (VDict [("plan", VStr "pro")])
                  VNone VNone VNone)] [] 0.

End Accounts.

(* ===================================================================== *)
(** ** Vocabulary of the statements *)
(* ===================================================================== *)

(** The outcome [r] of a run from [w] is a synthesized success: a dict
    with [success: True] and [fallback: True], and the world is as it
    was, so nothing has been sent. *)
Definition synthesized (w : world) (r : result value * world) : Prop :=
  exists d, r = (Ok (VDict d), w)
            /\ Dict.get "success" d = Some (VBool true)
            /\ Dict.get "fallback" d = Some (VBool true).

(** Every character is one that [strip()] removes. *)
Fixpoint all_space (s : string) : bool :=
  match s with
  | EmptyString => true
  | String c r => PyStr.isspace c && all_space r
  end.

(** The world after [tool_count += 1]. *)
Definition counted (w : world) : world :=
  mkWorld (net_log w) (repair_log w) (tool_count w + 1).

(** The world after a reported repair. *)
Definition noted (r : repair) (w : world) : world :=
  mkWorld (net_log w) (repair_log w ++ [r]) (tool_count w).

(** [json.dumps] of the error envelope. *)
Definition failure_text (msg : string) : string :=
  "{" ++ PyStr.join ", " [JsonDumps.encode_str "error" ++ ": " ++ JsonDumps.encode_str msg;
                          JsonDumps.encode_str "success" ++ ": false"] ++ "}".




(** The request that the REST-backed [add_graph_data] sends. *)
Definition graph_post (self : ZepCloudClient) (user_id : string) (data : value)
    (data_type : string) : net_call :=
  Http (mkRequest "POST" (api_url self ++ "/graph") (REST.headers self)
          (VDict [("user_id", VStr user_id); ("type", VStr data_type);
                  ("data", data)])).

(** The world after the requests [calls] have been sent. *)
Definition sent (w : world) (calls : list net_call) : world :=
  mkWorld (net_log w ++ calls) (repair_log w) (tool_count w).

(** A computation sends at most [n] requests, each of which satisfies [P],
    drops nothing from the two logs and leaves [tool_count] alone. *)
Definition effects {A} (P : net_call -> Prop) (n : nat) (c : Net A) : Prop :=
  forall w,
    exists l r,
      snd (c w) = mkWorld (net_log w ++ l) (repair_log w ++ r) (tool_count w)
      /\ Forall P l
      /\ (List.length l <= n)%nat.

(** The same for a tool handler, which counts its call first. *)
Definition tool_effects {A} (P : net_call -> Prop) (n : nat) (c : Net A) : Prop :=
  forall w,
    exists l r,
      snd (c w) = mkWorld (net_log w ++ l) (repair_log w ++ r) (tool_count w + 1)
      /\ Forall P l
      /\ (List.length l <= n)%nat.

(** A call of the SDK answers with the sentinel when the remote side
    fails: the run from [w] never raises and sends exactly [c]. *)
Definition guarded_call `{Remote} (run : result value * world) (w : world)
    (c : sdk_call) (sentinel : value) : Prop :=
  exists v,
    run = (Ok v, sent w [Sdk c])
    /\ (forall e, sdk_respond (net_log w) c = Raise e -> v = sentinel).

(** The record of a user that [get_user], [create_user] and [update_user]
    of the SDK-backed client return: five fields, and a [metadata] that is
    truthy or the empty dict. *)
Definition user_record_shape (v : value) : Prop :=
  exists uid md fn ln em,
    v = VDict [("user_id", uid); ("metadata", md); ("first_name", fn);
               ("last_name", ln); ("email", em)]
    /\ (truthy md = true \/ md = VDict []).

(** What a REST-backed operation makes of the answer to its request: the
    body, or the failure envelope with [str(e)]. *)
Definition rest_outcome (answer : result http_response) : value :=
  match answer with
  | Raise e => failure (exn_msg e)
  | Ok resp =>
      match raise_for_status resp with
      | Raise e => failure (exn_msg e)
      | Ok _ =>
          match json_body resp with
          | Ok body => body
          | Raise e => failure (exn_msg e)
          end
      end
  end.

(** The request of a REST-backed client. *)
Definition rest_request (self : ZepCloudClient) (method path : string)
    (body : value) : http_request :=
  mkRequest method (api_url self ++ path) (REST.headers self) body.

(** A request concerns the user [u]. *)
Definition about_user (u : string) (c : net_call) : Prop :=
  match c with
  | Sdk (UserGet x) | Sdk (UserDelete x) => x = u
  | Sdk (UserAdd x _ _ _ _) | Sdk (UserUpdate x _ _ _ _) => x = u
  | _ => False
  end.

Definition is_delete (c : net_call) : Prop :=
  match c with
  | Sdk (UserDelete _) => True
  | _ => False
  end.

(** An entry of the list that the SDK-backed [list_users] returns. *)
Definition list_entry_shape (v : value) : Prop :=
  exists uid md,
    v = VDict [("user_id", uid); ("metadata", md)]
    /\ (truthy md = true \/ md = VDict []).

(** [Some l] for a list that is not empty: the field of the search
    envelope that is there only when there is something to show. *)
Definition when_not_empty (l : list value) : option value :=
  match l with
  | [] => None
  | _ :: _ => Some (VList l)
  end.

(** The repairs that one run of the tool's normalisation can report, in
    the order of the report. *)
Definition repair_sequences : list (list repair) :=
  [[]; [RemovedOuterSingleQuotes]; [RemovedOuterDoubleQuotes];
   [FixedByLiteralEval];
   [RemovedOuterSingleQuotes; FixedByLiteralEval];
   [RemovedOuterDoubleQuotes; FixedByLiteralEval]].

(** The world after the repairs [r] have been reported. *)
Definition repaired (w : world) (r : list repair) : world :=
  mkWorld (net_log w) (repair_log w ++ r) (tool_count w).

(** [v] when it is truthy: what [if v: data[k] = v] leaves under [k]. *)
Definition when_truthy (v : value) : option value :=
  if truthy v then Some v else None.

(** The probe of the REST-backed client. *)
Definition health_check (self : ZepCloudClient) : http_request :=
  rest_request self "GET" "/health" VNone.

(** The answer to the probe is a response without an error status whose
    status code is 200. *)
Definition healthy (answer : result http_response) : bool :=
  match answer with
  | Ok resp =>
      match raise_for_status resp with
      | Ok _ => status_code resp =? 200
      | Raise _ => false
      end
  | Raise _ => false
  end.

(** What the REST-backed [delete_user] makes of the answer. *)
Definition delete_outcome (answer : result http_response) : value :=
  match answer with
  | Raise e => failure (exn_msg e)
  | Ok resp =>
      match raise_for_status resp with
      | Raise e => failure (exn_msg e)
      | Ok _ => VDict [("success", VBool true)]
      end
  end.

(** The path of the REST-backed [list_users]. *)
Definition users_path `{PyRuntime} (limit : Z) (cursor : value) : string :=
  if truthy cursor
  then ("/users?limit=" ++ PyStr.of_Z limit) ++ "&cursor=" ++ py_str cursor
  else "/users?limit=" ++ PyStr.of_Z limit.

(** A request goes through the client that the server holds: an SDK call
    for the SDK-backed one, an HTTP request with the client's headers for
    the REST-backed one.  Without a client there is no such request. *)
Definition via (srv : server) (c : net_call) : Prop :=
  match client srv with
  | None => False
  | Some cl =>
      match impl cl, c with
      | SdkImpl, Sdk _ => True
      | RestImpl, Http r => req_headers r = REST.headers cl
      | _, _ => False
      end
  end.

(** What a use of the unbound global [client] raises. *)
Definition no_client : exn := mkExn NameError "name 'client' is not defined".

(** A request concerns the user [u] and does not delete it. *)
Definition kept (u : string) (c : net_call) : Prop :=
  about_user u c /\ ~ is_delete c.

(** The three keywords of the query rewriting. *)
Definition mentions_keyword (query : string) : bool :=
  PyStr.contains "user" (PyStr.lower query)
  || PyStr.contains "information" (PyStr.lower query)
  || PyStr.contains "data" (PyStr.lower query).

(* ===================================================================== *)
(** * Properties *)
(* ===================================================================== *)

Section StartUp.
Context {rt : PyRuntime} {rm : Remote}.

Lemma sdk_init_fallback_attr (env : environment) (c : ZepCloudClient) :
  SDK.init env = Ok c -> impl c = SdkImpl /\ fallback_mode c = Some false.
Proof.
  unfold SDK.init.
  destruct (getenv (environ env) "ZEP_API_KEY") as [k|]; [|discriminate].
  destruct (String.eqb k EmptyString); [discriminate|].
  destruct (zep_new k); simpl; [|discriminate].
  intros E. injection E as <-. split; reflexivity.
Qed.

Lemma startup_never_raises (env : environment) (w : world) :
  exists srv w', Server.startup env w = (Ok srv, w').
Proof.
  unfold Server.startup.
  destruct (Server.construct env w) as [[c|e] w'].
  - destruct (Server.determine_fallback c w') as [[fb|e] w'']; eauto.
  - eauto.
Qed.

(** C1, as amended.  When [ZEP_API_KEY] is absent from the environment, the
    constructor of the SDK-backed client raises a [ValueError]; the
    module-level construction of the server catches it and goes on with
    [fallback_mode = True] and no client bound, without any request.  The
    start-up code as a whole never raises. *)
Theorem C1_missing_key_raises_in_client_and_server_falls_back
    (env : environment) (w : world) :
  getenv (environ env) "ZEP_API_KEY" = None ->
  SDK.init env = Raise (mkExn ValueError "ZEP_API_KEY environment variable not set")
  /\ (sdk_installed env = true ->
      Server.startup env w = (Ok (mkServer None true), w))
  /\ (exists srv w', Server.startup env w = (Ok srv, w')).
Proof.
  intros Hkey.
  assert (Hinit : SDK.init env
                  = Raise (mkExn ValueError "ZEP_API_KEY environment variable not set")).
  { unfold SDK.init. rewrite Hkey. reflexivity. }
  split; [exact Hinit|]. split.
  - intros Hsdk. unfold Server.startup, Server.construct, lift.
    rewrite Hsdk, Hinit. reflexivity.
  - apply startup_never_raises.
Qed.

(** The SDK-backed [list_users] answers a failure of the remote call with
    the empty list. *)
Lemma sdk_list_users_on_error (self : ZepCloudClient) (w : world) (e : exn) :
  sdk_respond (net_log w) UserListOrdered = Raise e ->
  fst (SDK.list_users self w) = Ok (VList []).
Proof.
  intros Herr. unfold SDK.list_users, try_catch, bind, sdk. rewrite Herr. reflexivity.
Qed.

(** With the SDK-backed client, start-up reads the attribute and never
    probes. *)
Lemma startup_sdk_reads_attribute (env : environment) (w : world) (c : ZepCloudClient) :
  sdk_installed env = true ->
  SDK.init env = Ok c ->
  Server.startup env w = (Ok (mkServer (Some c) false), w).
Proof.
  intros Hsdk Hinit. unfold Server.startup, Server.construct, lift.
  rewrite Hsdk, Hinit. unfold Server.determine_fallback.
  destruct (sdk_init_fallback_attr _ _ Hinit) as [_ ->]. reflexivity.
Qed.

(** C10, as amended.  The SDK-backed [list_users] returns the empty list
    when the remote call fails.  The start-up code takes [fallback_mode]
    from the client's attribute of that name when it has one; the SDK-backed
    client always has it, set to [False], so start-up with that client sends
    nothing and ends with [fallback_mode = False] whatever the account
    holds.  Only for a client without the attribute is [list_users] called,
    and then fallback mode is on exactly when the list is [None] or has
    length zero. *)
Theorem C10_list_users_empty_on_error_and_startup_reads_attribute :
  (forall self w e,
      sdk_respond (net_log w) UserListOrdered = Raise e ->
      fst (SDK.list_users self w) = Ok (VList []))
  /\ (forall env w c,
         sdk_installed env = true ->
         SDK.init env = Ok c ->
         Server.startup env w = (Ok (mkServer (Some c) false), w))
  /\ (forall c w w',
         fallback_mode c = None ->
         Server.probe c w = (Ok VNone, w') ->
         Server.determine_fallback c w = (Ok true, w'))
  /\ (forall c w w' v n,
         fallback_mode c = None ->
         Server.probe c w = (Ok v, w') ->
         v <> VNone ->
         py_len v = Ok n ->
         Server.determine_fallback c w = (Ok (n =? 0), w')).
Proof.
  split; [exact sdk_list_users_on_error|].
  split; [exact startup_sdk_reads_attribute|].
  split.
  - intros c w w' Hattr Hprobe.
    unfold Server.determine_fallback, bind. rewrite Hattr, Hprobe. reflexivity.
  - intros c w w' v n Hattr Hprobe Hv Hlen.
    unfold Server.determine_fallback, bind, lift, ret. rewrite Hattr, Hprobe.
    destruct v; try congruence; rewrite Hlen; reflexivity.
Qed.

End StartUp.

(* ===================================================================== *)
(** ** Strings *)
(* ===================================================================== *)

Lemma take_length (n : nat) (s : string) :
  (n <= String.length s)%nat -> String.length (PyStr.take n s) = n.
Proof.
  revert s. induction n as [|n IH]; intros [|c r] Hn; simpl in *;
    try reflexivity; try lia.
  rewrite IH; lia.
Qed.

Lemma take_len (k : Z) (s : string) :
  0 <= k -> k <= PyStr.len s -> PyStr.len (PyStr.take (Z.to_nat k) s) = k.
Proof.
  unfold PyStr.len. intros H0 Hk. rewrite take_length; lia.
Qed.

Lemma take_all (n : nat) (s : string) :
  (String.length s <= n)%nat -> PyStr.take n s = s.
Proof.
  revert s. induction n as [|n IH]; intros [|c r] Hn; simpl in *;
    try reflexivity; try lia.
  rewrite IH; [reflexivity | lia].
Qed.

Lemma take_app (n : nat) (s t : string) :
  (n <= String.length s)%nat -> PyStr.take n (s ++ t) = PyStr.take n s.
Proof.
  revert s. induction n as [|n IH]; intros [|c r] Hn; simpl in *;
    try reflexivity; try lia.
  rewrite IH; [reflexivity | lia].
Qed.

Lemma append_length (s t : string) :
  String.length (s ++ t) = (String.length s + String.length t)%nat.
Proof. induction s as [|c r IH]; simpl; [reflexivity | rewrite IH; reflexivity]. Qed.

Lemma json_dumps_failure (msg : string) :
  json_dumps (failure msg) = Ok (failure_text msg).
Proof. reflexivity. Qed.


(** A type outside [valid_types] is none of its three members. *)
Lemma invalid_type_not_json (data_type : string) :
  is_valid_type data_type = false -> String.eqb data_type "json" = false.
Proof.
  unfold is_valid_type, valid_types. simpl. intros H.
  destruct (String.eqb data_type "text"); [discriminate|].
  destruct (String.eqb data_type "json"); [discriminate|reflexivity].
Qed.

Ltac net_unfold :=
  unfold REST.guarded in *;
  unfold bind, ret, lift, raise, try_catch, note, count_tool_call, sdk, http in *;
  cbv beta in *.

Section Fallback.
Context {rt : PyRuntime} {rm : Remote}.

(** C4.  While [fallback_mode] is true on the REST-backed client, each of
    the seven operations returns a dict with [success: True] and
    [fallback: True] and leaves the log of requests as it was.
    [add_graph_data] does so for a payload of its declared type [str], and
    for any other payload that has a length ([len(data)] is part of the
    result). *)
Theorem C4_rest_fallback_returns_synthesized_success
    (self : ZepCloudClient) (w : world) :
  fallback_mode self = Some true ->
  (forall user_id metadata first_name last_name email,
      synthesized w (REST.create_user self user_id metadata first_name last_name email w))
  /\ (forall user_id, synthesized w (REST.get_user self user_id w))
  /\ (forall user_id metadata, synthesized w (REST.update_user self user_id metadata w))
  /\ (forall user_id, synthesized w (REST.delete_user self user_id w))
  /\ (forall limit cursor, synthesized w (REST.list_users self limit cursor w))
  /\ (forall user_id query limit, synthesized w (REST.search_graph self user_id query limit w))
  /\ (forall user_id s data_type,
         synthesized w (REST.add_graph_data self user_id (VStr s) data_type w))
  /\ (forall user_id data data_type n,
         py_len data = Ok n ->
         synthesized w (REST.add_graph_data self user_id data data_type w)).
Proof.
  intros Hfb.
  assert (Hself : self_fallback_mode self = Ok true)
    by (unfold self_fallback_mode; rewrite Hfb; reflexivity).
  repeat split; intros;
    unfold REST.create_user, REST.get_user, REST.update_user, REST.delete_user,
      REST.list_users, REST.search_graph, REST.add_graph_data;
    net_unfold; rewrite Hself;
    try match goal with H : py_len _ = Ok _ |- _ => rewrite H end;
    eexists; (split; [reflexivity|]); split; reflexivity.
Qed.

End Fallback.

Section Validation.
Context {rt : PyRuntime} {rm : Remote}.

Lemma sdk_rejects_invalid_type self user_id data data_type w :
  is_valid_type data_type = false ->
  exists msg, SDK.add_graph_data self user_id data data_type w = (Ok (failure msg), w).
Proof.
  intros Hbad. unfold SDK.add_graph_data.
  destruct (String.eqb user_id EmptyString); [eexists; reflexivity|].
  destruct data; try (eexists; reflexivity); rewrite Hbad; eexists; reflexivity.
Qed.

Lemma rest_rejects_invalid_type self user_id s data_type w :
  fallback_mode self = Some false ->
  is_valid_type data_type = false ->
  REST.add_graph_data self user_id (VStr s) data_type w
  = (Ok (failure (invalid_type_msg data_type)), w).
Proof.
  intros Hfb Hbad.
  unfold REST.add_graph_data, self_fallback_mode, REST.truncate_data, py_len,
    REST.py_take, rbind.
  rewrite Hfb. net_unfold.
  destruct (10000 <? PyStr.len s); rewrite Hbad; reflexivity.
Qed.

Lemma tool_rejects_invalid_type srv user_id data data_type w :
  is_valid_type data_type = false ->
  Server.add_graph_data srv user_id data data_type w
  = (Ok (failure_text (invalid_type_msg data_type)), counted w).
Proof.
  intros Hbad. pose proof (invalid_type_not_json _ Hbad) as Hjson.
  unfold Server.add_graph_data, Server.to_text. net_unfold.
  rewrite Hjson.
  destruct data; rewrite Hbad; reflexivity.
Qed.

(** C3, as amended.  For a [data_type] outside [text], [json], [message]:
    the SDK-backed client returns a failure envelope, the REST-backed
    client does so when it is not in fallback mode, and the tool handler
    does so with either client and in either mode; in all three the log of
    requests is untouched.  (In fallback mode the REST-backed client called
    directly answers with its synthesized success before it looks at the
    type.) *)
Theorem C3_invalid_type_rejected_before_any_request (data_type : string) :
  is_valid_type data_type = false ->
  (forall self user_id data w,
      exists msg,
        SDK.add_graph_data self user_id data data_type w = (Ok (failure msg), w))
  /\ (forall self user_id s w,
         fallback_mode self = Some false ->
         REST.add_graph_data self user_id (VStr s) data_type w
         = (Ok (failure (invalid_type_msg data_type)), w))
  /\ (forall srv user_id data w,
         Server.add_graph_data srv user_id data data_type w
         = (Ok (failure_text (invalid_type_msg data_type)), counted w)
         /\ json_dumps (failure (invalid_type_msg data_type))
            = Ok (failure_text (invalid_type_msg data_type))
         /\ net_log (counted w) = net_log w).
Proof.
  intros Hbad. split; [|split].
  - intros. apply sdk_rejects_invalid_type; assumption.
  - intros. apply rest_rejects_invalid_type; assumption.
  - intros. split; [apply tool_rejects_invalid_type; assumption|].
    split; [apply json_dumps_failure | reflexivity].
Qed.

Lemma sdk_oversize_fails self user_id data data_type data' w :
  SDK.convert_dict data data_type = Ok data' ->
  100000 < SDK.data_len data' ->
  exists msg, SDK.add_graph_data self user_id data data_type w = (Ok (failure msg), w).
Proof.
  intros Hconv Hbig. unfold SDK.add_graph_data.
  destruct (String.eqb user_id EmptyString); [eexists; reflexivity|].
  apply Z.ltb_lt in Hbig.
  destruct (is_valid_type data_type);
    destruct data; cbn [negb]; try (eexists; reflexivity);
    rewrite Hconv, Hbig; eexists; reflexivity.
Qed.

Lemma sdk_oversize_message self user_id data data_type data' w :
  user_id <> EmptyString ->
  data <> VNone ->
  is_valid_type data_type = true ->
  SDK.convert_dict data data_type = Ok data' ->
  100000 < SDK.data_len data' ->
  SDK.add_graph_data self user_id data data_type w
  = (Ok (failure (SDK.size_msg (SDK.data_len data'))), w).
Proof.
  intros Huid Hdata Hvalid Hconv Hbig. unfold SDK.add_graph_data.
  apply String.eqb_neq in Huid. rewrite Huid, Hvalid. apply Z.ltb_lt in Hbig.
  destruct data; try congruence; cbn [negb]; rewrite Hconv, Hbig; reflexivity.
Qed.

Lemma rest_oversize_truncates self user_id s data_type w :
  fallback_mode self = Some false ->
  is_valid_type data_type = true ->
  10000 < PyStr.len s ->
  net_log (snd (REST.add_graph_data self user_id (VStr s) data_type w))
  = (net_log w
     ++ [graph_post self user_id (VStr (PyStr.take (Z.to_nat 10000) s)) data_type])%list.
Proof.
  intros Hfb Hvalid Hbig. apply Z.ltb_lt in Hbig.
  unfold REST.add_graph_data, self_fallback_mode, REST.truncate_data, py_len,
    REST.py_take, rbind, REST._make_request, graph_post.
  rewrite Hfb. net_unfold. rewrite Hbig, Hvalid. cbn [negb net_log].
  destruct (http_respond _ _) as [resp|e]; [|reflexivity].
  destruct (raise_for_status resp); [|reflexivity].
  destruct (json_body resp); reflexivity.
Qed.

(** C2, as amended.  On the SDK-backed path a payload whose serialised
    length exceeds 100,000 is never transmitted and the result is a failure
    envelope whatever the [data_type]; when the user id, the payload and
    the type pass the earlier checks, the error is the size error.  On the
    REST-backed path (not in fallback mode) a payload of more than 10,000
    characters is not rejected: its first 10,000 characters are sent. *)
Theorem C2_oversize_rejected_by_sdk_truncated_by_rest :
  (forall self user_id data data_type data' w,
      SDK.convert_dict data data_type = Ok data' ->
      100000 < SDK.data_len data' ->
      (exists msg,
          SDK.add_graph_data self user_id data data_type w = (Ok (failure msg), w))
      /\ (user_id <> EmptyString -> data <> VNone -> is_valid_type data_type = true ->
          SDK.add_graph_data self user_id data data_type w
          = (Ok (failure (SDK.size_msg (SDK.data_len data'))), w)))
  /\ (forall self user_id s data_type w,
         fallback_mode self = Some false ->
         is_valid_type data_type = true ->
         10000 < PyStr.len s ->
         net_log (snd (REST.add_graph_data self user_id (VStr s) data_type w))
         = (net_log w
            ++ [graph_post self user_id (VStr (PyStr.take (Z.to_nat 10000) s)) data_type])%list
         /\ PyStr.len (PyStr.take (Z.to_nat 10000) s) = 10000).
Proof.
  split.
  - intros self user_id data data_type data' w Hconv Hbig. split.
    + eapply sdk_oversize_fails; eassumption.
    + intros. apply sdk_oversize_message; assumption.
  - intros self user_id s data_type w Hfb Hvalid Hbig. split.
    + apply rest_oversize_truncates; assumption.
    + apply take_len; lia.
Qed.

End Validation.

(* ===================================================================== *)
(** ** Reversal and stripping *)
(* ===================================================================== *)

Lemma append_empty_r (s : string) : s ++ EmptyString = s.
Proof. induction s as [|c r IH]; simpl; [reflexivity | rewrite IH; reflexivity]. Qed.

Lemma rev_onto_rev_onto (s a b : string) :
  PyStr.rev_onto (PyStr.rev_onto s a) b = PyStr.rev_onto a (s ++ b).
Proof.
  revert a b. induction s as [|c r IH]; intros a b; simpl.
  - reflexivity.
  - rewrite IH. reflexivity.
Qed.

Lemma rev_involutive (s : string) : PyStr.rev (PyStr.rev s) = s.
Proof.
  unfold PyStr.rev. rewrite rev_onto_rev_onto. simpl. apply append_empty_r.
Qed.

(** A text that begins and ends with a character that is not a space is
    its own [strip()]. *)
Lemma strip_fixed (s : string) (a b : ascii) (r t : string) :
  s = String a r -> PyStr.isspace a = false ->
  PyStr.rev s = String b t -> PyStr.isspace b = false ->
  PyStr.strip s = s.
Proof.
  intros Hs Ha Hrev Hb. unfold PyStr.strip, PyStr.rstrip.
  assert (Hl : PyStr.lstrip s = s) by (rewrite Hs; simpl; rewrite Ha; reflexivity).
  rewrite Hl, Hrev. simpl. rewrite Hb, <- Hrev. apply rev_involutive.
Qed.

Lemma prefix_one (c : ascii) (s : string) :
  String.prefix (String c EmptyString) s = true -> exists r, s = String c r.
Proof.
  destruct s as [|a r]; simpl; [discriminate|].
  destruct (ascii_dec c a) as [->|]; [|discriminate].
  intros _. eexists; reflexivity.
Qed.

Lemma looks_like_dict_strip (s : string) :
  Server.looks_like_dict s = true -> PyStr.strip s = s.
Proof.
  unfold Server.looks_like_dict, PyStr.startswith, PyStr.endswith.
  intros H. apply andb_prop in H as [H1 H2].
  apply prefix_one in H1 as [r Hs]. apply prefix_one in H2 as [t Hrev].
  eapply strip_fixed; eauto.
Qed.

Lemma looks_like_dict_not_quoted (s : string) :
  Server.looks_like_dict s = true ->
  Server.single_quoted s = false /\ SDK.double_quoted s = false.
Proof.
  unfold Server.looks_like_dict, PyStr.startswith. intros H.
  apply andb_prop in H as [H1 _]. apply prefix_one in H1 as [r ->].
  split; reflexivity.
Qed.

Lemma double_quoted_not_single (s : string) :
  SDK.double_quoted s = true -> Server.single_quoted s = false.
Proof.
  unfold SDK.double_quoted, PyStr.startswith. intros H.
  apply andb_prop in H as [H _]. apply andb_prop in H as [H _].
  apply prefix_one in H as [r ->]. reflexivity.
Qed.

Section Normalisation.
Context {rt : PyRuntime} {rm : Remote}.

(** The SDK-backed sender makes exactly one request, with the payload it
    was given. *)
Lemma send_graph_data_world user_id data data_type w :
  snd (SDK.send_graph_data user_id data data_type w)
  = mkWorld (net_log w ++ [Sdk (GraphAdd user_id data_type data)])
      (repair_log w) (tool_count w).
Proof.
  unfold SDK.send_graph_data. net_unfold.
  destruct (sdk_respond _ _); [destruct (py_len data)|]; reflexivity.
Qed.


Lemma sdk_json_checks_pass self user_id data w :
  user_id <> EmptyString ->
  PyStr.len data <= 100000 ->
  SDK.add_graph_data self user_id (VStr data) "json" w
  = bind (try_catch (bind (SDK.validate_json (VStr data)) (fun d => ret (inl d)))
                    (fun e => ret (inr (SDK.json_failure e))))
         (fun checked =>
            match checked with
            | inl d => SDK.send_graph_data user_id d "json"
            | inr err => ret err
            end) w.
Proof.
  intros Huid Hlen. unfold SDK.add_graph_data.
  apply String.eqb_neq in Huid. rewrite Huid.
  assert (Hsmall : (100000 <? SDK.data_len (VStr data)) = false)
    by (apply Z.ltb_ge; exact Hlen).
  cbn [is_valid_type valid_types existsb String.eqb Ascii.eqb Bool.eqb negb orb
       SDK.convert_dict].
  rewrite Hsmall. reflexivity.
Qed.


Lemma tool_json_branch srv user_id data w :
  Server.add_graph_data srv user_id (VStr data) "json" w
  = bind (Server.normalize_json data)
         (fun fixed =>
            match fixed with
            | inl s' => Server.forward srv user_id (VStr s') "json"
            | inr err => lift (json_dumps err)
            end) (counted w).
Proof. reflexivity. Qed.



Lemma sdk_unwraps_double_quotes self user_id data e j w :
  json_loads data = Raise e ->
  is_json_decode_error e = true ->
  SDK.double_quoted data = true ->
  starts_with_bracket (PyStr.lstrip (PyStr.inner data)) = true ->
  json_loads (PyStr.inner data) = Ok j ->
  user_id <> EmptyString ->
  PyStr.len data <= 100000 ->
  SDK.add_graph_data self user_id (VStr data) "json" w
  = SDK.send_graph_data user_id (VStr (PyStr.inner data)) "json"
      (noted RemovedOuterDoubleQuotes w).
Proof.
  intros He Hd Hq Hb Hj Huid Hlen. rewrite sdk_json_checks_pass by assumption.
  unfold SDK.validate_json. rewrite He, Hd, Hq, Hb, Hj. reflexivity.
Qed.

Lemma tool_unquote_double data j w :
  SDK.double_quoted data = true ->
  starts_with_bracket (PyStr.lstrip (PyStr.inner data)) = true ->
  json_loads (PyStr.inner data) = Ok j ->
  Server.unquote data w = (Ok (PyStr.inner data), noted RemovedOuterDoubleQuotes w).
Proof.
  intros Hq Hb Hj. unfold Server.unquote.
  rewrite (double_quoted_not_single _ Hq), Hq, Hb, Hj. reflexivity.
Qed.

Lemma literal_fix_kept t w :
  Server.looks_like_dict t = false
  \/ (exists e, rbind (literal_eval t) json_dumps = Raise e) ->
  Server.literal_fix t w = (Ok t, w).
Proof.
  unfold Server.literal_fix. intros [H | [e H]]; rewrite H; [reflexivity|].
  destruct (Server.looks_like_dict t); reflexivity.
Qed.

Lemma literal_fix_applied t v s w :
  Server.looks_like_dict t = true ->
  literal_eval t = Ok v ->
  json_dumps v = Ok s ->
  Server.literal_fix t w = (Ok s, noted FixedByLiteralEval w).
Proof.
  unfold Server.literal_fix. intros -> Hv Hs. rewrite Hv. simpl. rewrite Hs. reflexivity.
Qed.

Lemma tool_unquote_single data w :
  Server.single_quoted data = true ->
  Server.unquote data w = (Ok (PyStr.inner data), noted RemovedOuterSingleQuotes w).
Proof. intros Hq. unfold Server.unquote. rewrite Hq. reflexivity. Qed.

(** What the handler does once the quotes are off: trim, try the literal
    repair, validate, call the client. *)
Lemma tool_after_unquote srv user_id data e u w w1 :
  json_loads data = Raise e ->
  is_json_decode_error e = true ->
  Server.unquote data (counted w) = (Ok u, w1) ->
  (forall j',
      Server.looks_like_dict (PyStr.strip u) = false
      \/ (exists e', rbind (literal_eval (PyStr.strip u)) json_dumps = Raise e') ->
      json_loads (PyStr.strip u) = Ok j' ->
      Server.add_graph_data srv user_id (VStr data) "json" w
      = Server.forward srv user_id (VStr (PyStr.strip u)) "json" w1)
  /\ (forall v s j',
         Server.looks_like_dict (PyStr.strip u) = true ->
         literal_eval (PyStr.strip u) = Ok v ->
         json_dumps v = Ok s ->
         json_loads s = Ok j' ->
         Server.add_graph_data srv user_id (VStr data) "json" w
         = Server.forward srv user_id (VStr s) "json" (noted FixedByLiteralEval w1)).
Proof.
  intros He Hd Hu. split.
  - intros j' Hkeep Hj'. rewrite tool_json_branch.
    unfold Server.normalize_json, bind at 1. rewrite He, Hd.
    unfold bind at 1. unfold bind at 1. rewrite Hu.
    rewrite literal_fix_kept by assumption. rewrite Hj'. reflexivity.
  - intros v s j' Hlook Hv Hs Hj'. rewrite tool_json_branch.
    unfold Server.normalize_json, bind at 1. rewrite He, Hd.
    unfold bind at 1. unfold bind at 1. rewrite Hu.
    rewrite (literal_fix_applied _ v s) by assumption. rewrite Hj'. reflexivity.
Qed.

Lemma sdk_rejects_unrepaired self user_id data e w :
  json_loads data = Raise e ->
  is_json_decode_error e = true ->
  SDK.double_quoted data = false ->
  user_id <> EmptyString ->
  PyStr.len data <= 100000 ->
  SDK.add_graph_data self user_id (VStr data) "json" w
  = (Ok (failure ("Invalid JSON data: " ++ exn_msg e)), w).
Proof.
  intros He Hd Hq Huid Hlen. rewrite sdk_json_checks_pass by assumption.
  unfold SDK.validate_json, SDK.json_failure.
  rewrite He, Hd, Hq. net_unfold. rewrite Hd. reflexivity.
Qed.

Lemma single_quoted_not_double (s : string) :
  Server.single_quoted s = true -> SDK.double_quoted s = false.
Proof.
  unfold Server.single_quoted, PyStr.startswith. intros H.
  apply andb_prop in H as [H _]. apply prefix_one in H as [r ->]. reflexivity.
Qed.

(** C7, as amended.  Take a payload that [json.loads] rejects.
    - If it has more than two characters, stands in one pair of outer
      double quotes, and its interior begins, after leading whitespace,
      with an opening brace or bracket and is accepted by [json.loads]:
      the SDK-backed [add_graph_data] with [data_type = "json"] removes
      the pair and sends the interior, and the tool handler removes the
      pair as well.
    - If it stands in one pair of outer single quotes, the tool handler
      removes the pair; the SDK-backed client called directly does not,
      and answers "Invalid JSON data".
    After the removal the tool handler trims the interior and, when
    [json.loads] accepts it, hands it to the client -- re-serialised by
    [json.dumps] when the trimmed interior looks like a dict and
    [ast.literal_eval] reads it. *)
Theorem C7_outer_quotes_are_removed (data : string) (e : exn) :
  json_loads data = Raise e ->
  is_json_decode_error e = true ->
  (forall j,
      SDK.double_quoted data = true ->
      starts_with_bracket (PyStr.lstrip (PyStr.inner data)) = true ->
      json_loads (PyStr.inner data) = Ok j ->
      (forall self user_id w,
          user_id <> EmptyString ->
          PyStr.len data <= 100000 ->
          SDK.add_graph_data self user_id (VStr data) "json" w
          = SDK.send_graph_data user_id (VStr (PyStr.inner data)) "json"
              (noted RemovedOuterDoubleQuotes w)
          /\ net_log (snd (SDK.add_graph_data self user_id (VStr data) "json" w))
             = (net_log w
                ++ [Sdk (GraphAdd user_id "json" (VStr (PyStr.inner data)))])%list)
      /\ (forall w,
             Server.unquote data w
             = (Ok (PyStr.inner data), noted RemovedOuterDoubleQuotes w)))
  /\ (Server.single_quoted data = true ->
      (forall w,
          Server.unquote data w
          = (Ok (PyStr.inner data), noted RemovedOuterSingleQuotes w))
      /\ (forall self user_id w,
             user_id <> EmptyString ->
             PyStr.len data <= 100000 ->
             SDK.add_graph_data self user_id (VStr data) "json" w
             = (Ok (failure ("Invalid JSON data: " ++ exn_msg e)), w)))
  /\ (forall srv user_id w w1,
         Server.unquote data (counted w) = (Ok (PyStr.inner data), w1) ->
         (forall j',
             Server.looks_like_dict (PyStr.strip (PyStr.inner data)) = false
             \/ (exists e',
                    rbind (literal_eval (PyStr.strip (PyStr.inner data))) json_dumps
                    = Raise e') ->
             json_loads (PyStr.strip (PyStr.inner data)) = Ok j' ->
             Server.add_graph_data srv user_id (VStr data) "json" w
             = Server.forward srv user_id (VStr (PyStr.strip (PyStr.inner data)))
                 "json" w1)
         /\ (forall v s j',
                Server.looks_like_dict (PyStr.strip (PyStr.inner data)) = true ->
                literal_eval (PyStr.strip (PyStr.inner data)) = Ok v ->
                json_dumps v = Ok s ->
                json_loads s = Ok j' ->
                Server.add_graph_data srv user_id (VStr data) "json" w
                = Server.forward srv user_id (VStr s) "json"
                    (noted FixedByLiteralEval w1))).
Proof.
  intros He Hd. split; [|split].
  - intros j Hq Hb Hj. split.
    + intros self user_id w Huid Hlen.
      rewrite (sdk_unwraps_double_quotes self user_id data e j w) by assumption.
      split; [reflexivity|]. rewrite send_graph_data_world. reflexivity.
    + intros w. eapply tool_unquote_double; eassumption.
  - intros Hq. split.
    + intros w. apply tool_unquote_single, Hq.
    + intros self user_id w Huid Hlen.
      apply sdk_rejects_unrepaired; try assumption.
      apply single_quoted_not_double, Hq.
  - intros srv user_id w w1 Hu. eapply tool_after_unquote; eassumption.
Qed.

End Normalisation.

Section LiteralRepair.
Context {rt : PyRuntime} {rm : Remote}.

Lemma tool_not_quoted data w :
  Server.looks_like_dict data = true ->
  Server.unquote data w = (Ok data, w).
Proof.
  intros Hlook. unfold Server.unquote.
  destruct (looks_like_dict_not_quoted _ Hlook) as [-> ->]. reflexivity.
Qed.

Lemma tool_repairs_literal srv user_id data e v s j w :
  json_loads data = Raise e ->
  is_json_decode_error e = true ->
  Server.looks_like_dict data = true ->
  literal_eval data = Ok v ->
  json_dumps v = Ok s ->
  json_loads s = Ok j ->
  Server.add_graph_data srv user_id (VStr data) "json" w
  = Server.forward srv user_id (VStr s) "json" (noted FixedByLiteralEval (counted w)).
Proof.
  intros He Hd Hlook Hv Hs Hj. rewrite tool_json_branch.
  unfold Server.normalize_json, bind at 1. rewrite He, Hd.
  unfold bind at 1. unfold bind at 1.
  rewrite tool_not_quoted by assumption.
  rewrite (looks_like_dict_strip _ Hlook).
  rewrite (literal_fix_applied _ v s) by assumption. rewrite Hj. reflexivity.
Qed.

Lemma sdk_rejects_literal self user_id data e w :
  json_loads data = Raise e ->
  is_json_decode_error e = true ->
  Server.looks_like_dict data = true ->
  user_id <> EmptyString ->
  PyStr.len data <= 100000 ->
  SDK.add_graph_data self user_id (VStr data) "json" w
  = (Ok (failure ("Invalid JSON data: " ++ exn_msg e)), w).
Proof.
  intros He Hd Hlook Huid Hlen. rewrite sdk_json_checks_pass by assumption.
  unfold SDK.validate_json, SDK.json_failure.
  destruct (looks_like_dict_not_quoted _ Hlook) as [_ Hq].
  rewrite He, Hd, Hq. net_unfold. rewrite Hd. reflexivity.
Qed.

Lemma rest_forwards_as_is self user_id data data_type w :
  fallback_mode self = Some false ->
  is_valid_type data_type = true ->
  PyStr.len data <= 10000 ->
  net_log (snd (REST.add_graph_data self user_id (VStr data) data_type w))
  = (net_log w ++ [graph_post self user_id (VStr data) data_type])%list.
Proof.
  intros Hfb Hvalid Hlen. apply Z.ltb_ge in Hlen.
  unfold REST.add_graph_data, self_fallback_mode, REST.truncate_data, py_len,
    REST.py_take, rbind, REST._make_request, graph_post.
  rewrite Hfb. net_unfold. rewrite Hlen, Hvalid. cbn [negb net_log].
  destruct (http_respond _ _) as [resp|e]; [|reflexivity].
  destruct (raise_for_status resp); [|reflexivity].
  destruct (json_body resp); reflexivity.
Qed.

(** C8, as amended.  For a payload that [json.loads] rejects and that
    begins with an opening and ends with a closing brace: the tool handler
    hands to the client [json.dumps(ast.literal_eval(payload))] when the
    literal can be read and serialised and the outcome passes
    [json.loads].  The clients called directly have no such repair: the
    SDK-backed one answers "Invalid JSON data" and sends nothing, the
    REST-backed one sends the payload as it came. *)
Theorem C8_literal_dict_repaired_by_the_tool_only (data : string) (e : exn) :
  json_loads data = Raise e ->
  is_json_decode_error e = true ->
  Server.looks_like_dict data = true ->
  (forall srv user_id w v s j,
      literal_eval data = Ok v ->
      json_dumps v = Ok s ->
      json_loads s = Ok j ->
      Server.add_graph_data srv user_id (VStr data) "json" w
      = Server.forward srv user_id (VStr s) "json"
          (noted FixedByLiteralEval (counted w)))
  /\ (forall self user_id w,
         user_id <> EmptyString ->
         PyStr.len data <= 100000 ->
         SDK.add_graph_data self user_id (VStr data) "json" w
         = (Ok (failure ("Invalid JSON data: " ++ exn_msg e)), w))
  /\ (forall self user_id w,
         fallback_mode self = Some false ->
         PyStr.len data <= 10000 ->
         net_log (snd (REST.add_graph_data self user_id (VStr data) "json" w))
         = (net_log w ++ [graph_post self user_id (VStr data) "json"])%list).
Proof.
  intros He Hd Hlook. split; [|split].
  - intros. eapply tool_repairs_literal; eassumption.
  - intros. eapply sdk_rejects_literal; eassumption.
  - intros. apply rest_forwards_as_is; [assumption | reflexivity | assumption].
Qed.

End LiteralRepair.

(* ===================================================================== *)
(** ** Blank queries *)
(* ===================================================================== *)

Lemma lstrip_empty_iff (s : string) :
  PyStr.lstrip s = EmptyString <-> all_space s = true.
Proof.
  induction s as [|c r IH]; simpl; [tauto|].
  destruct (PyStr.isspace c); simpl; [exact IH|]. split; discriminate.
Qed.

Lemma lstrip_head (s : string) (c : ascii) (r : string) :
  PyStr.lstrip s = String c r -> PyStr.isspace c = false.
Proof.
  induction s as [|a t IH]; simpl; [discriminate|].
  destruct (PyStr.isspace a) eqn:Ha; [exact IH|].
  intros E. injection E as <- _. exact Ha.
Qed.

Lemma all_space_rev_onto (s acc : string) :
  all_space (PyStr.rev_onto s acc) = all_space s && all_space acc.
Proof.
  revert acc. induction s as [|c r IH]; intros acc; simpl; [reflexivity|].
  rewrite IH. simpl. destruct (PyStr.isspace c), (all_space r); reflexivity.
Qed.

Lemma rev_onto_empty (s acc : string) :
  PyStr.rev_onto s acc = EmptyString -> s = EmptyString /\ acc = EmptyString.
Proof.
  revert acc. induction s as [|c r IH]; intros acc; simpl; [tauto|].
  intros H. apply IH in H as [_ H]. discriminate.
Qed.

Lemma strip_empty_iff (s : string) :
  PyStr.strip s = EmptyString <-> all_space s = true.
Proof.
  unfold PyStr.strip, PyStr.rstrip, PyStr.rev. split.
  - intros H. apply rev_onto_empty in H as [H _].
    apply lstrip_empty_iff in H. rewrite all_space_rev_onto in H.
    apply andb_prop in H as [H _].
    destruct (PyStr.lstrip s) as [|c r] eqn:Hl; [apply lstrip_empty_iff; exact Hl|].
    apply lstrip_head in Hl. simpl in H. rewrite Hl in H. discriminate.
  - intros H. apply lstrip_empty_iff in H. rewrite H. reflexivity.
Qed.

Lemma len_zero_iff (s : string) : (PyStr.len s =? 0) = true <-> s = EmptyString.
Proof.
  unfold PyStr.len. rewrite Z.eqb_eq. destruct s; simpl; split;
    try reflexivity; try discriminate; lia.
Qed.

Lemma is_blank_all_space (s : string) : Server.is_blank s = all_space s.
Proof.
  unfold Server.is_blank. destruct (all_space s) eqn:Ha.
  - apply strip_empty_iff in Ha. rewrite Ha. apply orb_true_r.
  - apply orb_false_iff. split.
    + destruct s; [discriminate | reflexivity].
    + destruct (PyStr.len (PyStr.strip s) =? 0) eqn:Hz; [|reflexivity].
      apply len_zero_iff, strip_empty_iff in Hz. congruence.
Qed.

Lemma all_space_take (n : nat) (s : string) :
  all_space s = true -> all_space (PyStr.take n s) = true.
Proof.
  revert s. induction n as [|n IH]; intros [|c r]; simpl; try reflexivity.
  intros H. apply andb_prop in H as [Hc Hr]. rewrite Hc, (IH _ Hr). reflexivity.
Qed.

Lemma blank_stays_blank (query : string) :
  Server.is_blank query = true -> Server.is_blank (Server.truncate_query query) = true.
Proof.
  rewrite !is_blank_all_space. unfold Server.truncate_query. intros H.
  destruct (8000 <? PyStr.len query); [apply all_space_take|]; exact H.
Qed.

Lemma rewrite_blank (query : string) :
  Server.is_blank query = true -> Server.rewrite_query query = "user information".
Proof. unfold Server.rewrite_query. intros ->. reflexivity. Qed.

(** What the SDK-backed client makes of a rewritten query of exactly 8,000
    characters: the enrichment, if any, is cut off again. *)
Lemma sdk_cuts_the_enrichment (q : string) :
  PyStr.len q = 8000 ->
  Server.is_blank q = false ->
  SDK.truncate_query (Server.rewrite_query q) = q.
Proof.
  intros Hlen Hnb. unfold Server.rewrite_query. rewrite Hnb.
  unfold SDK.truncate_query.
  destruct (negb _ && negb _ && negb _).
  - assert (Hl : PyStr.len (q ++ " user information") = 8017).
    { unfold PyStr.len in *. rewrite append_length. simpl String.length. lia. }
    rewrite Hl. change (8000 <? 8017) with true. cbv iota.
    rewrite take_app by (unfold PyStr.len in Hlen; lia).
    apply take_all. unfold PyStr.len in Hlen. lia.
  - rewrite Hlen. reflexivity.
Qed.

Section Search.
Context {rt : PyRuntime} {rm : Remote}.

Lemma sdk_search_graph_world self user_id query limit w :
  snd (SDK.search_graph self user_id query limit w)
  = mkWorld (net_log w ++ [Sdk (GraphSearch user_id (SDK.truncate_query query) limit)])
      (repair_log w) (tool_count w).
Proof.
  unfold SDK.search_graph. net_unfold.
  destruct (sdk_respond _ _) as [sr|e]; [|reflexivity].
  destruct (SDK.converted sr "edges" SDK.edge_data); [|reflexivity].
  destruct (SDK.converted sr "nodes" SDK.node_data); reflexivity.
Qed.

Lemma tool_search_graph_log_sdk srv c user_id query limit w :
  client srv = Some c -> impl c = SdkImpl ->
  net_log (snd (Server.search_graph srv user_id query limit w))
  = (net_log w
     ++ [Sdk (GraphSearch user_id
               (SDK.truncate_query (Server.rewrite_query (Server.truncate_query query)))
               limit)])%list.
Proof.
  intros Hc Hi. unfold Server.search_graph, Server.with_client. rewrite Hc, Hi.
  unfold bind at 1. unfold count_tool_call. unfold bind at 1.
  pose proof (sdk_search_graph_world c user_id
                (Server.rewrite_query (Server.truncate_query query)) limit (counted w))
    as Hw.
  unfold counted in Hw.
  destruct (SDK.search_graph c user_id _ limit _) as [[res|e] w']; simpl in Hw;
    subst w'; [|reflexivity].
  net_unfold. destruct (Server.result_info res); [|reflexivity].
  destruct (json_dumps res); reflexivity.
Qed.

(** C5, as amended.  In the [search_graph] tool a query that is empty or
    all whitespace is replaced by ["user information"] before the client is
    called, also when only its first 8,000 characters are looked at.  A
    query of more than 8,000 characters is first cut to its first 8,000
    characters; unless that prefix is blank, the SDK-backed client sends
    exactly those 8,000 characters. *)
Theorem C5_blank_query_defaulted_and_long_query_cut :
  (forall query,
      Server.is_blank query = true ->
      Server.rewrite_query (Server.truncate_query query) = "user information")
  /\ (forall srv c user_id query limit w,
         client srv = Some c -> impl c = SdkImpl ->
         Server.is_blank (Server.truncate_query query) = true ->
         net_log (snd (Server.search_graph srv user_id query limit w))
         = (net_log w ++ [Sdk (GraphSearch user_id "user information" limit)])%list)
  /\ (forall srv c user_id query limit w,
         client srv = Some c -> impl c = SdkImpl ->
         8000 < PyStr.len query ->
         Server.is_blank (PyStr.take (Z.to_nat 8000) query) = false ->
         net_log (snd (Server.search_graph srv user_id query limit w))
         = (net_log w
            ++ [Sdk (GraphSearch user_id (PyStr.take (Z.to_nat 8000) query) limit)])%list
         /\ PyStr.len (PyStr.take (Z.to_nat 8000) query) = 8000).
Proof.
  split; [|split].
  - intros query Hb. apply rewrite_blank, blank_stays_blank, Hb.
  - intros srv c user_id query limit w Hc Hi Hb.
    rewrite (tool_search_graph_log_sdk srv c) by assumption.
    rewrite (rewrite_blank _ Hb). reflexivity.
  - intros srv c user_id query limit w Hc Hi Hlong Hnb.
    assert (Hlen : PyStr.len (PyStr.take (Z.to_nat 8000) query) = 8000)
      by (apply take_len; lia).
    split; [|exact Hlen].
    rewrite (tool_search_graph_log_sdk srv c) by assumption.
    assert (Ht : Server.truncate_query query = PyStr.take (Z.to_nat 8000) query).
    { unfold Server.truncate_query. apply Z.ltb_lt in Hlong. rewrite Hlong. reflexivity. }
    rewrite Ht, sdk_cuts_the_enrichment by assumption. reflexivity.
Qed.

End Search.

Section Envelopes.
Context {rt : PyRuntime} {rm : Remote}.













End Envelopes.

(* ===================================================================== *)
(** * Concrete runs *)
(* ===================================================================== *)

Import Fixtures.



Section ReachableAccount.
#[local] Existing Instance reference_runtime.
#[local] Existing Instance remote_up.

(** The reference runtime on a few texts. *)
Example loads_nested :
  json_loads (PyStr.bq " [1, -2.5e+3, true, null, {`a`: [ ]}] ")
  = Ok (JArr [JNum "1"; JNum "-2.5e+3"; JBool true; JNull; JObj [([97%N], JArr [])]]).
Proof. reflexivity. Qed.

Example loads_rejects :
  json_loads "[1,]" = Raise (JsonLoads.decode_error "Expecting value")
  /\ json_loads "01" = Raise (JsonLoads.decode_error "Extra data")
  /\ json_loads (PyStr.bq "{`a`: 1,}")
     = Raise (JsonLoads.decode_error "Expecting property name enclosed in double quotes")
  /\ json_loads (PyStr.bq "{`a` 1}")
     = Raise (JsonLoads.decode_error "Expecting ':' delimiter")
  /\ json_loads (PyStr.bq "[`a")
     = Raise (JsonLoads.decode_error "Unterminated string starting at")
  /\ json_loads "not json at all" = Raise (JsonLoads.decode_error "Expecting value").
Proof. repeat split; reflexivity. Qed.

Example dumps_envelope :
  json_dumps (failure (PyStr.bq "bad `x`"))
  = Ok (PyStr.bq "{`error`: `bad \`x\``, `success`: false}").
Proof. reflexivity. Qed.

Example literal_trailing_comma :
  literal_eval (PyStr.bq "{`name`: `John`, `age`: 30,}")
  = Ok (VDict [("name", VStr "John"); ("age", VInt 30)]).
Proof. reflexivity. Qed.

(** The two scenarios of the specification about [add_graph_data]. *)
Example scenario_redundant_quotes :
  Server.add_graph_data sdk_server "u1" (VStr quoted_object) "json" world0
  = (Ok (PyStr.bq ("{`success`: true, `user_id`: `u1`, `data_type`: `json`, "
                   ++ "`data_length`: 13, `response`: {`uuid`: `ep-1`, "
                   ++ "`content`: `{\`name\`: \`X\`}`, "
                   ++ "`created_at`: `2025-01-01T00:00:00Z`, `processed`: false}}")),
     mkWorld [Sdk (GraphAdd "u1" "json" (VStr plain_object))]
       [RemovedOuterDoubleQuotes; FixedByLiteralEval] 1).
Proof. reflexivity. Qed.

Example scenario_not_json :
  Server.add_graph_data sdk_server "u1" (VStr "not json at all") "json" world0
  = (Ok (PyStr.bq "{`error`: `Invalid JSON format: Expecting value`, `success`: false}"),
     mkWorld [] [] 1).
Proof. reflexivity. Qed.


(** C1 does not hold as stated: without the key, and with the SDK installed,
    the server module still comes up, in fallback mode. *)
Lemma C1_counterexample :
  getenv (environ (env_without_key true)) "ZEP_API_KEY" = None
  /\ Server.startup (env_without_key true) world0
     = (Ok (mkServer None true), world0).
Proof. split; reflexivity. Qed.

(** C1 at the environment without the key. *)
Lemma C1_witness :
  getenv (environ (env_without_key true)) "ZEP_API_KEY" = None
  /\ (SDK.init (env_without_key true)
      = Raise (mkExn ValueError "ZEP_API_KEY environment variable not set")
      /\ (sdk_installed (env_without_key true) = true ->
          Server.startup (env_without_key true) world0
          = (Ok (mkServer None true), world0))
      /\ (exists srv w',
             Server.startup (env_without_key true) world0 = (Ok srv, w'))).
Proof.
  split; [reflexivity|].
  apply C1_missing_key_raises_in_client_and_server_falls_back.
  reflexivity.
Defined.

(** C2 does not hold as stated: the REST-backed client sends a payload of
    10,001 characters, cut to 10,000, and reports success. *)
Lemma C2_counterexample :
  10000 < PyStr.len (long_payload 10001)
  /\ fst (REST.add_graph_data (rest_client false) "u1"
            (VStr (long_payload 10001)) "text" world0)
     = Ok (VDict [("success", VBool true); ("user_id", VStr "u1");
                  ("data_type", VStr "text"); ("data_length", VInt 10000);
                  ("response", VDict [])])
  /\ net_log (snd (REST.add_graph_data (rest_client false) "u1"
                     (VStr (long_payload 10001)) "text" world0))
     = [graph_post (rest_client false) "u1" (VStr (long_payload 10000)) "text"].
Proof. vm_compute. repeat split; reflexivity. Qed.

(** C2 at a text payload of 100,001 characters on the SDK-backed path. *)
Lemma C2_witness :
  (SDK.convert_dict (VStr (long_payload 100001)) "text"
   = Ok (VStr (long_payload 100001))
   /\ 100000 < SDK.data_len (VStr (long_payload 100001)))
  /\ SDK.add_graph_data sdk_client "u1" (VStr (long_payload 100001)) "text" world0
     = (Ok (failure (SDK.size_msg (SDK.data_len (VStr (long_payload 100001))))),
        world0).
Proof.
  split; [split; [reflexivity | vm_compute; reflexivity]|].
  apply (proj1 C2_oversize_rejected_by_sdk_truncated_by_rest
           sdk_client "u1" (VStr (long_payload 100001)) "text"
           (VStr (long_payload 100001)) world0).
  - reflexivity.
  - vm_compute; reflexivity.
  - discriminate.
  - discriminate.
  - reflexivity.
Defined.

(** C3 does not hold as stated: in fallback mode the REST-backed client
    answers an unknown type with a success. *)
Lemma C3_counterexample :
  is_valid_type "bogus" = false
  /\ REST.add_graph_data (rest_client true) "u1" (VStr "x") "bogus" world0
     = (Ok (VDict [("success", VBool true); ("user_id", VStr "u1");
                   ("data_type", VStr "bogus"); ("data_length", VInt 1);
                   ("fallback", VBool true);
                   ("response",
                    VDict [("uuid", VStr "simulated-uuid");
                           ("content", VStr "Simulated content (fallback mode)");
                           ("created_at", VStr "simulated-timestamp");
                           ("processed", VBool true)])]),
        world0).
Proof. split; reflexivity. Qed.

(** C3 at the type [bogus]: the three paths of the amended claim. *)
Lemma C3_witness :
  is_valid_type "bogus" = false
  /\ (exists msg,
         SDK.add_graph_data sdk_client "u1" (VStr "x") "bogus" world0
         = (Ok (failure msg), world0))
  /\ REST.add_graph_data (rest_client false) "u1" (VStr "x") "bogus" world0
     = (Ok (failure (invalid_type_msg "bogus")), world0)
  /\ Server.add_graph_data (rest_server true) "u1" (VStr "x") "bogus" world0
     = (Ok (failure_text (invalid_type_msg "bogus")), counted world0).
Proof.
  split; [reflexivity|].
  destruct (C3_invalid_type_rejected_before_any_request (rt := reference_runtime)
              "bogus" ltac:(reflexivity)) as (Hsdk & Hrest & Htool).
  split; [apply Hsdk|]. split; [apply Hrest; reflexivity|]. apply Htool.
Defined.

(** C5 does not hold as stated: of a query of 8,001 characters, not all
    whitespace, nothing but the default text is sent; and the REST-backed
    client sends 8,017 characters of a query of 8,001 letters. *)
Lemma C5_counterexample :
  (PyStr.len spaces_then_x = 8001
   /\ Server.is_blank spaces_then_x = false
   /\ net_log (snd (Server.search_graph sdk_server "u1" spaces_then_x 10 world0))
      = [Sdk (GraphSearch "u1" "user information" 10)])
  /\ (PyStr.len long_query = 8001
      /\ net_log (snd (Server.search_graph (rest_server false) "u1" long_query 10
                         world0))
         = [Http (mkRequest "POST" (REST.ZEP_CLOUD_API_URL ++ "/graph/search")
                    (REST.headers (rest_client false))
                    (VDict [("user_id", VStr "u1");
                            ("query", VStr (PyStr.take (Z.to_nat 8000) long_query
                                            ++ " user information"));
                            ("limit", VInt 10)]))]
      /\ PyStr.len (PyStr.take (Z.to_nat 8000) long_query ++ " user information")
         = 8017).
Proof. vm_compute. repeat split; reflexivity. Qed.

(** C5 at the empty query and at a query of 8,001 letters. *)
Lemma C5_witness :
  (Server.is_blank EmptyString = true
   /\ 8000 < PyStr.len long_query
   /\ Server.is_blank (PyStr.take (Z.to_nat 8000) long_query) = false)
  /\ Server.rewrite_query (Server.truncate_query EmptyString) = "user information"
  /\ net_log (snd (Server.search_graph sdk_server "u1" long_query 10 world0))
     = (net_log world0
        ++ [Sdk (GraphSearch "u1" (PyStr.take (Z.to_nat 8000) long_query) 10)])%list
  /\ PyStr.len (PyStr.take (Z.to_nat 8000) long_query) = 8000.
Proof.
  split; [repeat split; vm_compute; reflexivity|].
  destruct (C5_blank_query_defaulted_and_long_query_cut (rt := reference_runtime))
    as (Hblank & _ & Hlong).
  split; [apply Hblank; reflexivity|].
  apply (Hlong sdk_server sdk_client "u1" long_query 10 world0);
    try reflexivity; vm_compute; reflexivity.
Defined.

(** C7 does not hold as stated: a payload in one pair of double quotes
    whose interior begins with a bracket is sent with its quotes, by the
    client and through the tool handler; and the SDK-backed client sends
    nothing of a JSON object in one pair of single quotes. *)
Lemma C7_counterexample :
  (SDK.double_quoted quoted_array = true
   /\ PyStr.inner quoted_array = "[1]"
   /\ starts_with_bracket (PyStr.inner quoted_array) = true
   /\ json_loads (PyStr.inner quoted_array) = Ok (JArr [JNum "1"])
   /\ quoted_array <> PyStr.inner quoted_array
   /\ snd (SDK.add_graph_data sdk_client "u1" (VStr quoted_array) "json" world0)
      = mkWorld [Sdk (GraphAdd "u1" "json" (VStr quoted_array))] [] 0
   /\ snd (Server.add_graph_data sdk_server "u1" (VStr quoted_array) "json" world0)
      = mkWorld [Sdk (GraphAdd "u1" "json" (VStr quoted_array))] [] 1)
  /\ (Server.single_quoted single_quoted_object = true
      /\ PyStr.inner single_quoted_object = plain_object
      /\ SDK.add_graph_data sdk_client "u1" (VStr single_quoted_object) "json" world0
         = (Ok (failure "Invalid JSON data: Expecting value"), world0)).
Proof. repeat split; try reflexivity. discriminate. Qed.

(** C7 at a JSON object in one pair of double quotes, on the SDK-backed
    client and through the tool handler. *)
Lemma C7_witness :
  (json_loads quoted_object = Raise (JsonLoads.decode_error "Extra data")
   /\ is_json_decode_error (JsonLoads.decode_error "Extra data") = true
   /\ SDK.double_quoted quoted_object = true
   /\ starts_with_bracket (PyStr.lstrip (PyStr.inner quoted_object)) = true
   /\ json_loads (PyStr.inner quoted_object)
      = Ok (JObj [([110; 97; 109; 101]%N, JStr [88%N])]))
  /\ PyStr.inner quoted_object = plain_object
  /\ net_log (snd (SDK.add_graph_data sdk_client "u1" (VStr quoted_object) "json" world0))
     = (net_log world0
        ++ [Sdk (GraphAdd "u1" "json" (VStr (PyStr.inner quoted_object)))])%list
  /\ Server.add_graph_data sdk_server "u1" (VStr quoted_object) "json" world0
     = Server.forward sdk_server "u1" (VStr plain_object) "json"
         (noted FixedByLiteralEval
            (noted RemovedOuterDoubleQuotes (counted world0))).
Proof.
  split; [repeat split; reflexivity|]. split; [reflexivity|].
  destruct (C7_outer_quotes_are_removed (rt := reference_runtime)
              quoted_object (JsonLoads.decode_error "Extra data")
              ltac:(reflexivity) ltac:(reflexivity))
    as (Hdouble & _ & Htool).
  split.
  - destruct (Hdouble (JObj [([110; 97; 109; 101]%N, JStr [88%N])])
                ltac:(reflexivity) ltac:(reflexivity) ltac:(reflexivity))
      as [Hsdk _].
    apply (Hsdk sdk_client "u1" world0); [discriminate | vm_compute; discriminate].
  - apply (proj2 (Htool sdk_server "u1" world0
                    (noted RemovedOuterDoubleQuotes (counted world0))
                    ltac:(reflexivity))
             (VDict [("name", VStr "X")]) plain_object
             (JObj [([110; 97; 109; 101]%N, JStr [88%N])]));
      reflexivity.
Defined.

(** C8 does not hold as stated: the SDK-backed client, called directly,
    rejects a dict display that [ast.literal_eval] reads, and sends
    nothing. *)
Lemma C8_counterexample :
  literal_eval python_dict = Ok (VDict [("name", VStr "John"); ("age", VInt 30)])
  /\ SDK.add_graph_data sdk_client "u1" (VStr python_dict) "json" world0
     = (Ok (failure ("Invalid JSON data: "
                     ++ "Expecting property name enclosed in double quotes")),
        world0).
Proof. split; reflexivity. Qed.

(** C8 at that dict display, through the tool handler. *)
Lemma C8_witness :
  (json_loads python_dict = Raise (JsonLoads.decode_error JsonLoads.expecting_name)
   /\ is_json_decode_error (JsonLoads.decode_error JsonLoads.expecting_name) = true
   /\ Server.looks_like_dict python_dict = true)
  /\ (literal_eval python_dict = Ok (VDict [("name", VStr "John"); ("age", VInt 30)])
      /\ json_dumps (VDict [("name", VStr "John"); ("age", VInt 30)])
         = Ok python_dict_as_json
      /\ json_loads python_dict_as_json
         = Ok (JObj [([110; 97; 109; 101]%N, JStr [74; 111; 104; 110]%N);
                     ([97; 103; 101]%N, JNum "30")]))
  /\ Server.add_graph_data sdk_server "u1" (VStr python_dict) "json" world0
     = Server.forward sdk_server "u1" (VStr python_dict_as_json) "json"
         (noted FixedByLiteralEval (counted world0)).
Proof.
  split; [repeat split; reflexivity|]. split; [repeat split; reflexivity|].
  apply (proj1 (C8_literal_dict_repaired_by_the_tool_only (rt := reference_runtime)
                  python_dict
                  (JsonLoads.decode_error JsonLoads.expecting_name)
                  ltac:(reflexivity) ltac:(reflexivity) ltac:(reflexivity))
           sdk_server "u1" world0
           (VDict [("name", VStr "John"); ("age", VInt 30)])
           python_dict_as_json
           (JObj [([110; 97; 109; 101]%N, JStr [74; 111; 104; 110]%N);
                  ([97; 103; 101]%N, JNum "30")]));
    reflexivity.
Defined.


(** C10 does not hold as stated: an account that answers and has no user; the
    server starts with [fallback_mode = False] and sends nothing. *)
Lemma C10_counterexample :
  fst (SDK.list_users sdk_client world0) = Ok (VList [])
  /\ SDK.init (env_with_key true) = Ok sdk_client
  /\ Server.startup (env_with_key true) world0
     = (Ok (mkServer (Some sdk_client) false), world0).
Proof. repeat split; reflexivity. Qed.

(** C10 at the environment with the key, and at a client object without
    the attribute. *)
Lemma C10_witness :
  (sdk_installed (env_with_key true) = true
   /\ SDK.init (env_with_key true) = Ok sdk_client
   /\ fallback_mode bare_client = None
   /\ Server.probe bare_client world0
      = (Ok (VList []), mkWorld [Sdk UserListOrdered] [] 0)
   /\ VList [] <> VNone
   /\ py_len (VList []) = Ok 0)
  /\ Server.startup (env_with_key true) world0
     = (Ok (mkServer (Some sdk_client) false), world0)
  /\ Server.determine_fallback bare_client world0
     = (Ok (0 =? 0), mkWorld [Sdk UserListOrdered] [] 0).
Proof.
  split; [repeat split; try reflexivity; discriminate|].
  destruct (C10_list_users_empty_on_error_and_startup_reads_attribute
              (rt := reference_runtime))
    as (_ & Hstart & _ & Hprobe).
  split; [apply Hstart; reflexivity|].
  apply (Hprobe bare_client world0 (mkWorld [Sdk UserListOrdered] [] 0) (VList []) 0).
  - reflexivity.
  - reflexivity.
  - discriminate.
  - reflexivity.
Defined.

End ReachableAccount.

Section UnreachableService.
#[local] Existing Instance reference_runtime.
#[local] Existing Instance remote_down.

(** C4 at a client in fallback mode, with the remote side down. *)
Lemma C4_witness :
  fallback_mode (rest_client true) = Some true
  /\ synthesized world0 (REST.get_user (rest_client true) "u1" world0)
  /\ synthesized world0
       (REST.search_graph (rest_client true) "u1" "what do I like" 10 world0)
  /\ synthesized world0
       (REST.add_graph_data (rest_client true) "u1" (VStr "remember this") "text"
          world0).
Proof.
  split; [reflexivity|].
  destruct (C4_rest_fallback_returns_synthesized_success
              (rest_client true) world0 ltac:(reflexivity))
    as (_ & Hget & _ & _ & _ & Hsearch & Hadd & _).
  split; [apply Hget|]. split; [apply Hsearch | apply Hadd].
Defined.



End UnreachableService.

(* ===================================================================== *)
(** * Further properties of the two modules *)
(* ===================================================================== *)

Lemma world_eta (w : world) :
  mkWorld (net_log w ++ []) (repair_log w ++ []) (tool_count w) = w.
Proof. destruct w. simpl. rewrite !app_nil_r. reflexivity. Qed.

Lemma sent_nil (w : world) : sent w [] = w.
Proof. destruct w. unfold sent. simpl. rewrite app_nil_r. reflexivity. Qed.

Section Effects.
Context {A B : Type} (P : net_call -> Prop).

Lemma effects_ret (a : A) : effects P 0 (ret a).
Proof.
  intros w. exists [], []. simpl. rewrite world_eta. auto.
Qed.

Lemma effects_raise (e : exn) : effects P 0 (@raise A e).
Proof.
  intros w. exists [], []. simpl. rewrite world_eta. auto.
Qed.

Lemma effects_lift (r : result A) : effects P 0 (lift r).
Proof.
  intros w. exists [], []. simpl. rewrite world_eta. auto.
Qed.

Lemma effects_note (r : repair) : effects P 0 (note r).
Proof.
  intros w. exists [], [r]. simpl. rewrite app_nil_r. auto.
Qed.

Lemma effects_weaken (n m : nat) (c : Net A) :
  (n <= m)%nat -> effects P n c -> effects P m c.
Proof.
  intros Hle Hc w. destruct (Hc w) as (l & r & Hw & HP & Hn).
  exists l, r. repeat split; auto. lia.
Qed.

Lemma effects_bind (n m : nat) (c : Net A) (k : A -> Net B) :
  effects P n c -> (forall a, effects P m (k a)) -> effects P (n + m) (bind c k).
Proof.
  intros Hc Hk w. unfold bind.
  destruct (Hc w) as (l1 & r1 & Hw1 & HP1 & Hn1).
  destruct (c w) as [[a|e] w1]; simpl in Hw1; subst w1.
  - destruct (Hk a (mkWorld (net_log w ++ l1) (repair_log w ++ r1) (tool_count w)))
      as (l2 & r2 & Hw2 & HP2 & Hn2).
    simpl in Hw2. exists (l1 ++ l2)%list, (r1 ++ r2)%list.
    rewrite Hw2, !app_assoc. repeat split.
    + apply Forall_app; auto.
    + rewrite length_app. lia.
  - exists l1, r1. repeat split; auto. simpl. lia.
Qed.

Lemma effects_try (n m : nat) (c : Net A) (h : exn -> Net A) :
  effects P n c -> (forall e, effects P m (h e)) -> effects P (n + m) (try_catch c h).
Proof.
  intros Hc Hh w. unfold try_catch.
  destruct (Hc w) as (l1 & r1 & Hw1 & HP1 & Hn1).
  destruct (c w) as [[a|e] w1]; simpl in Hw1; subst w1.
  - exists l1, r1. repeat split; auto. simpl. lia.
  - destruct (Hh e (mkWorld (net_log w ++ l1) (repair_log w ++ r1) (tool_count w)))
      as (l2 & r2 & Hw2 & HP2 & Hn2).
    simpl in Hw2. exists (l1 ++ l2)%list, (r1 ++ r2)%list.
    rewrite Hw2, !app_assoc. repeat split.
    + apply Forall_app; auto.
    + rewrite length_app. lia.
Qed.

End Effects.

Lemma effects_sdk {rm : Remote} (P : net_call -> Prop) (c : sdk_call) :
  P (Sdk c) -> effects P 1 (sdk c).
Proof.
  intros HP w. exists [Sdk c], []. simpl. rewrite app_nil_r. auto.
Qed.

Lemma effects_http {rm : Remote} (P : net_call -> Prop) (r : http_request) :
  P (Http r) -> effects P 1 (http r).
Proof.
  intros HP w. exists [Http r], []. simpl. rewrite app_nil_r. auto.
Qed.

(** A handler is its body after the count. *)
Lemma tool_effects_counted {A} (P : net_call -> Prop) (n : nat) (body : Net A) :
  effects P n body -> tool_effects P n (bind count_tool_call (fun _ => body)).
Proof.
  intros Hb w. unfold bind, count_tool_call.
  destruct (Hb (mkWorld (net_log w) (repair_log w) (tool_count w + 1)))
    as (l & r & Hw & HP & Hn).
  exists l, r. auto.
Qed.

(** Case analysis on an innermost scrutinee of the goal. *)
Ltac break_match :=
  match goal with
  | |- context [match ?x with _ => _ end] =>
      lazymatch x with
      | context [match _ with _ => _ end] => fail
      | (?r, _) => destruct r
      | _ => destruct x
      end
  end.

Ltac break_matches := repeat (cbn beta iota; break_match).

Section SdkOperations.
Context {rt : PyRuntime} {rm : Remote}.

Ltac guarded :=
  unfold guarded_call, sent; net_unfold; cbn [net_log repair_log tool_count];
  destruct (sdk_respond _ _) as [resp|e0];
  [break_matches|];
  eexists; (split; [reflexivity | intros e' He'; first [discriminate He' | reflexivity]]).

(** X1.  The six read and write operations of the SDK-backed client never
    raise: each sends exactly one request, and when the remote side fails
    it returns its sentinel -- [[]] for [list_users], [None] for
    [get_user], [create_user], [update_user] and [search_graph], [False]
    for [delete_user]. *)
Theorem X1_sdk_operations_catch_every_failure
    (self : ZepCloudClient) (user_id query : string)
    (metadata first_name last_name email : value) (limit : Z) (w : world) :
  guarded_call (SDK.list_users self w) w UserListOrdered (VList [])
  /\ guarded_call (SDK.get_user self user_id w) w (UserGet user_id) VNone
  /\ guarded_call (SDK.create_user self user_id metadata first_name last_name email w) w
       (UserAdd user_id (SDK.metadata_dict metadata) first_name last_name email) VNone
  /\ guarded_call (SDK.update_user self user_id metadata first_name last_name email w) w
       (UserUpdate user_id (SDK.metadata_dict metadata) first_name last_name email) VNone
  /\ guarded_call (SDK.delete_user self user_id w) w (UserDelete user_id) (VBool false)
  /\ guarded_call (SDK.search_graph self user_id query limit w) w
       (GraphSearch user_id (SDK.truncate_query query) limit) VNone.
Proof.
  repeat split.
  - unfold SDK.list_users. guarded.
  - unfold SDK.get_user. guarded.
  - unfold SDK.create_user. guarded.
  - unfold SDK.update_user. guarded.
  - unfold SDK.delete_user. guarded.
  - unfold SDK.search_graph. guarded.
Qed.

Lemma or_empty_dict_shape (v : value) :
  truthy (SDK.or_empty_dict v) = true \/ SDK.or_empty_dict v = VDict [].
Proof.
  unfold SDK.or_empty_dict. destruct (truthy v) eqn:Hv; [left; exact Hv | right; reflexivity].
Qed.

Lemma user_record_shape_ok (user v : value) :
  SDK.user_record user = Ok v -> user_record_shape v.
Proof.
  unfold SDK.user_record, rbind.
  destruct (getattr user "user_id") as [uid|]; [|discriminate].
  destruct (getattr user "metadata") as [md|]; [|discriminate].
  destruct (getattr user "first_name") as [fn|]; [|discriminate].
  destruct (getattr user "last_name") as [ln|]; [|discriminate].
  destruct (getattr user "email") as [em|]; [|discriminate].
  intros E. injection E as <-.
  exists uid, (SDK.or_empty_dict md), fn, ln, em.
  split; [reflexivity | apply or_empty_dict_shape].
Qed.

Ltac record_or_none :=
  net_unfold; cbn [net_log];
  destruct (sdk_respond _ _) as [user|e0]; [|eexists; split; [reflexivity | left; reflexivity]];
  try (destruct (truthy user); [|eexists; split; [reflexivity | left; reflexivity]]);
  destruct (SDK.user_record user) as [v|e0] eqn:Hrec;
  eexists; (split; [reflexivity|]);
  [right; eapply user_record_shape_ok; exact Hrec | left; reflexivity].

(** X2.  What [get_user], [create_user] and [update_user] of the SDK-backed
    client return is [None] or a record of exactly the five fields
    [user_id], [metadata], [first_name], [last_name], [email], whose
    [metadata] is never [None]: a falsy one is replaced by the empty
    dict. *)
Theorem X2_sdk_user_results_are_records_or_none
    (self : ZepCloudClient) (user_id : string)
    (metadata first_name last_name email : value) (w : world) :
  (exists v, fst (SDK.get_user self user_id w) = Ok v
             /\ (v = VNone \/ user_record_shape v))
  /\ (exists v, fst (SDK.create_user self user_id metadata first_name last_name email w)
                = Ok v
                /\ (v = VNone \/ user_record_shape v))
  /\ (exists v, fst (SDK.update_user self user_id metadata first_name last_name email w)
                = Ok v
                /\ (v = VNone \/ user_record_shape v)).
Proof.
  repeat split.
  - unfold SDK.get_user. record_or_none.
  - unfold SDK.create_user. record_or_none.
  - unfold SDK.update_user. record_or_none.
Qed.

Lemma rmap_length {A B} (f : A -> result B) (l : list A) (l' : list B) :
  rmap f l = Ok l' -> List.length l' = List.length l.
Proof.
  revert l'. induction l as [|x r IH]; simpl; intros l' E.
  - injection E as <-. reflexivity.
  - unfold rbind in E. destruct (f x); [|discriminate].
    destruct (rmap f r) as [ys|]; [|discriminate].
    injection E as <-. simpl. rewrite (IH ys eq_refl). reflexivity.
Qed.

Lemma rmap_forall {A B} (f : A -> result B) (Q : B -> Prop) (l : list A) (l' : list B) :
  (forall x y, f x = Ok y -> Q y) -> rmap f l = Ok l' -> Forall Q l'.
Proof.
  intros Hf. revert l'. induction l as [|x r IH]; simpl; intros l' E.
  - injection E as <-. constructor.
  - unfold rbind in E. destruct (f x) as [y|] eqn:Hy; [|discriminate].
    destruct (rmap f r) as [ys|]; [|discriminate].
    injection E as <-. constructor; [eapply Hf; exact Hy | apply IH; reflexivity].
Qed.

Lemma list_users_entry_shape (user v : value) :
  SDK.list_users_entry user = Ok v -> list_entry_shape v.
Proof.
  unfold SDK.list_users_entry, rbind.
  destruct (getattr user "user_id") as [uid|]; [|discriminate].
  destruct (getattr user "metadata") as [md|]; [|discriminate].
  intros E. injection E as <-. exists uid, (SDK.or_empty_dict md).
  split; [reflexivity | apply or_empty_dict_shape].
Qed.

(** X3.  [list_users] of the SDK-backed client returns a list of dicts
    with the two fields [user_id] and [metadata] (never [None]).  When the
    remote side answers with a list of users, the result has one entry per
    user, in the same number -- or is empty, which is what the code returns
    when one of the users cannot be read. *)
Theorem X3_sdk_list_users_keeps_every_user_or_none
    (self : ZepCloudClient) (w : world) :
  exists l,
    fst (SDK.list_users self w) = Ok (VList l)
    /\ Forall list_entry_shape l
    /\ (forall resp us,
           sdk_respond (net_log w) UserListOrdered = Ok resp ->
           getattr resp "users" = Ok (VList us) ->
           l = [] \/ List.length l = List.length us).
Proof.
  unfold SDK.list_users. net_unfold. cbn [net_log].
  destruct (sdk_respond (net_log w) UserListOrdered) as [resp|e0];
    [|exists []; repeat split; [constructor | intros; discriminate]].
  destruct (getattr resp "users") as [users|e0] eqn:Hu;
    [|exists []; repeat split; [constructor | intros; left; reflexivity]].
  destruct (py_iter (if truthy users then users else VList [])) as [us'|e0] eqn:Hit;
    [|exists []; repeat split; [constructor | intros; left; reflexivity]].
  destruct (rmap SDK.list_users_entry us') as [l|e0] eqn:Hmap;
    [|exists []; repeat split; [constructor | intros; left; reflexivity]].
  exists l. split; [reflexivity|]. split.
  - eapply rmap_forall; [|exact Hmap]. intros x y. apply list_users_entry_shape.
  - intros resp' us E1 E2. injection E1 as <-. rewrite Hu in E2.
    injection E2 as ->.
    apply rmap_length in Hmap. destruct us as [|u us]; simpl in Hit.
    + injection Hit as <-. left. destruct l; [reflexivity | discriminate].
    + injection Hit as <-. right. exact Hmap.
Qed.

(** X4.  When the remote side answers a search with a list of edges and a
    list of nodes, the envelope of the SDK-backed [search_graph] has
    [success: True], the query as it was sent, and a [results] list that is
    the converted edges followed by the converted nodes; [edges] and
    [nodes] are present exactly when their list is not empty. *)
Theorem X4_sdk_search_results_are_edges_then_nodes
    (self : ZepCloudClient) (user_id query : string) (limit : Z) (w : world)
    (resp : value) (es ns : list value) :
  sdk_respond (net_log w) (GraphSearch user_id (SDK.truncate_query query) limit)
  = Ok resp ->
  getattr resp "edges" = Ok (VList es) ->
  getattr resp "nodes" = Ok (VList ns) ->
  exists d,
    fst (SDK.search_graph self user_id query limit w) = Ok (VDict d)
    /\ Dict.get "success" d = Some (VBool true)
    /\ Dict.get "query" d = Some (VStr (SDK.truncate_query query))
    /\ Dict.get "results" d
       = Some (VList (map SDK.edge_data es ++ map SDK.node_data ns))
    /\ Dict.get "edges" d = when_not_empty (map SDK.edge_data es)
    /\ Dict.get "nodes" d = when_not_empty (map SDK.node_data ns).
Proof.
  intros Hresp Hes Hns. unfold SDK.search_graph, SDK.converted. net_unfold.
  cbn [net_log]. rewrite Hresp, Hes, Hns.
  destruct es as [|e es], ns as [|n ns]; cbn [truthy py_iter rbind];
    eexists; (split; [reflexivity|]); repeat split; reflexivity.
Qed.

Lemma sdk_truncate_query_bound (query : string) :
  PyStr.len (SDK.truncate_query query) <= 8000
  /\ (PyStr.len query <= 8000 -> SDK.truncate_query query = query).
Proof.
  unfold SDK.truncate_query.
  destruct (8000 <? PyStr.len query) eqn:Hlong.
  - apply Z.ltb_lt in Hlong. split; [rewrite take_len; lia | lia].
  - apply Z.ltb_ge in Hlong. split; [exact Hlong | reflexivity].
Qed.

(** X5.  The SDK-backed [search_graph] never sends a query of more than
    8,000 characters: it sends a query of at most 8,000 characters as it
    is, and of a longer one the first 8,000 characters. *)
Theorem X5_sdk_search_sends_at_most_8000_characters
    (self : ZepCloudClient) (user_id query : string) (limit : Z) (w : world) :
  exists sent_query,
    net_log (snd (SDK.search_graph self user_id query limit w))
    = (net_log w ++ [Sdk (GraphSearch user_id sent_query limit)])%list
    /\ PyStr.len sent_query <= 8000
    /\ sent_query = PyStr.take (Z.to_nat 8000) query.
Proof.
  exists (SDK.truncate_query query).
  rewrite sdk_search_graph_world. cbn [net_log].
  split; [reflexivity|]. split; [apply sdk_truncate_query_bound|].
  unfold SDK.truncate_query. destruct (8000 <? PyStr.len query) eqn:Hlong;
    [reflexivity|].
  apply Z.ltb_ge in Hlong. symmetry. apply take_all. unfold PyStr.len in Hlong. lia.
Qed.

End SdkOperations.

(* ===================================================================== *)
(** ** The tool handlers *)
(* ===================================================================== *)

Lemma lower_app (a b : string) :
  PyStr.lower (a ++ b) = PyStr.lower a ++ PyStr.lower b.
Proof.
  induction a as [|c r IH]; cbn [PyStr.lower append]; [reflexivity|].
  rewrite IH. reflexivity.
Qed.

Lemma contains_app_r (sub a b : string) :
  PyStr.contains sub b = true -> PyStr.contains sub (a ++ b) = true.
Proof.
  intros H. induction a as [|c r IH]; cbn [PyStr.contains append]; [exact H|].
  rewrite IH. apply orb_true_r.
Qed.

Lemma all_space_app (a b : string) :
  all_space (a ++ b) = all_space a && all_space b.
Proof.
  induction a as [|c r IH]; cbn [all_space append]; [reflexivity|].
  rewrite IH. apply andb_assoc.
Qed.

Lemma take_length_le (n : nat) (s : string) :
  (String.length (PyStr.take n s) <= n)%nat
  /\ (String.length (PyStr.take n s) <= String.length s)%nat.
Proof.
  revert s. induction n as [|n IH]; intros [|c r]; simpl; try lia.
  destruct (IH r). lia.
Qed.

Lemma drop_length_le (n : nat) (s : string) :
  (String.length (PyStr.drop n s) <= String.length s)%nat.
Proof.
  revert s. induction n as [|n IH]; intros [|c r]; simpl; try lia.
  specialize (IH r). lia.
Qed.

Lemma inner_len (s : string) : PyStr.len (PyStr.inner s) <= PyStr.len s.
Proof.
  unfold PyStr.len, PyStr.inner.
  pose proof (take_length_le (String.length s - 2) (PyStr.drop 1 s)) as [_ H].
  pose proof (drop_length_le 1 s). lia.
Qed.

Lemma enriched_names_a_keyword (q : string) :
  mentions_keyword (q ++ " user information") = true.
Proof.
  unfold mentions_keyword. rewrite lower_app.
  rewrite (contains_app_r "user" (PyStr.lower q) (PyStr.lower " user information"))
    by reflexivity.
  reflexivity.
Qed.

Lemma rewrite_query_post (q : string) :
  Server.is_blank (Server.rewrite_query q) = false
  /\ mentions_keyword (Server.rewrite_query q) = true
  /\ PyStr.len (Server.rewrite_query q) <= Z.max 16 (PyStr.len q + 17).
Proof.
  unfold Server.rewrite_query. cbv zeta.
  destruct (Server.is_blank q) eqn:Hb.
  - repeat split; try reflexivity. change (PyStr.len "user information") with 16. lia.
  - destruct (PyStr.contains "user" (PyStr.lower q)) eqn:H1,
             (PyStr.contains "information" (PyStr.lower q)) eqn:H2,
             (PyStr.contains "data" (PyStr.lower q)) eqn:H3;
      cbn [negb andb];
      try (repeat split;
           [exact Hb | unfold mentions_keyword; rewrite H1, H2, H3; reflexivity | lia]).
    repeat split.
    + rewrite is_blank_all_space, all_space_app.
      change (all_space " user information") with false. apply andb_false_r.
    + apply enriched_names_a_keyword.
    + unfold PyStr.len. rewrite append_length.
      change (String.length " user information") with 17%nat. lia.
Qed.

Lemma rewrite_query_fixed (q : string) :
  Server.is_blank q = false -> mentions_keyword q = true ->
  Server.rewrite_query q = q.
Proof.
  intros Hb Hk. unfold Server.rewrite_query. cbv zeta. rewrite Hb.
  unfold mentions_keyword in Hk.
  destruct (PyStr.contains "user" (PyStr.lower q)),
           (PyStr.contains "information" (PyStr.lower q)),
           (PyStr.contains "data" (PyStr.lower q));
    cbn [negb andb orb] in *; try reflexivity; discriminate.
Qed.

Lemma tool_truncate_query_bound (query : string) :
  PyStr.len (Server.truncate_query query) <= 8000.
Proof.
  unfold Server.truncate_query.
  destruct (8000 <? PyStr.len query) eqn:Hlong.
  - apply Z.ltb_lt in Hlong. rewrite take_len; lia.
  - apply Z.ltb_ge in Hlong. exact Hlong.
Qed.

(** X6.  The query that the [search_graph] tool hands to the client is
    never blank, names at least one of the words [user], [information] and
    [data] (in any case), is at most 8,017 characters long, and is a fixed
    point of the rewriting: rewriting it again changes nothing. *)
Theorem X6_rewritten_query_names_a_keyword (query : string) :
  Server.is_blank (Server.rewrite_query (Server.truncate_query query)) = false
  /\ mentions_keyword (Server.rewrite_query (Server.truncate_query query)) = true
  /\ PyStr.len (Server.rewrite_query (Server.truncate_query query)) <= 8017
  /\ Server.rewrite_query (Server.rewrite_query (Server.truncate_query query))
     = Server.rewrite_query (Server.truncate_query query).
Proof.
  destruct (rewrite_query_post (Server.truncate_query query)) as (Hb & Hk & Hl).
  pose proof (tool_truncate_query_bound query).
  repeat split; [exact Hb | exact Hk | lia | apply rewrite_query_fixed; assumption].
Qed.

Lemma repaired_nil (w : world) : repaired w [] = w.
Proof. destruct w. unfold repaired. simpl. rewrite app_nil_r. reflexivity. Qed.

Lemma repaired_app (w : world) (r1 r2 : list repair) :
  repaired (repaired w r1) r2 = repaired w (r1 ++ r2).
Proof. unfold repaired. simpl. rewrite app_assoc. reflexivity. Qed.

Section ToolLayer.
Context {rt : PyRuntime} {rm : Remote}.

Lemma unquote_run (data : string) (w : world) :
  exists r d,
    Server.unquote data w = (Ok d, repaired w r)
    /\ (r = [] \/ r = [RemovedOuterSingleQuotes] \/ r = [RemovedOuterDoubleQuotes]).
Proof.
  unfold Server.unquote. net_unfold.
  destruct (Server.single_quoted data).
  { exists [RemovedOuterSingleQuotes]. eexists. split; [reflexivity | auto]. }
  destruct (SDK.double_quoted data);
    [|exists []; eexists; rewrite repaired_nil; split; [reflexivity | auto]].
  destruct (starts_with_bracket _);
    [|exists []; eexists; rewrite repaired_nil; split; [reflexivity | auto]].
  destruct (json_loads (PyStr.inner data)).
  - exists [RemovedOuterDoubleQuotes]. eexists. split; [reflexivity | auto].
  - exists []. eexists. rewrite repaired_nil. split; [reflexivity | auto].
Qed.

Lemma literal_fix_run (data : string) (w : world) :
  exists r d,
    Server.literal_fix data w = (Ok d, repaired w r)
    /\ (r = [] \/ r = [FixedByLiteralEval]).
Proof.
  unfold Server.literal_fix. net_unfold.
  destruct (Server.looks_like_dict data);
    [|exists []; eexists; rewrite repaired_nil; split; [reflexivity | auto]].
  destruct (rbind _ _).
  - exists [FixedByLiteralEval]. eexists. split; [reflexivity | auto].
  - exists []. eexists. rewrite repaired_nil. split; [reflexivity | auto].
Qed.

(** X7.  The normalisation of a JSON payload in the [add_graph_data] tool
    sends nothing and leaves [tool_count] alone; it reports one of six
    sequences of repairs (quotes before the literal repair, at most one of
    each kind).  A payload that it lets through is accepted by
    [json.loads]; what it returns otherwise is the error envelope; and it
    raises only what [json.loads] raised on the input, when that is not a
    [JSONDecodeError]. *)
Theorem X7_normalisation_lets_through_only_json (data : string) (w : world) :
  exists r,
    In r repair_sequences
    /\ snd (Server.normalize_json data w) = repaired w r
    /\ match fst (Server.normalize_json data w) with
       | Ok (inl payload) => exists j, json_loads payload = Ok j
       | Ok (inr v) => exists msg, v = failure msg
       | Raise e => json_loads data = Raise e /\ is_json_decode_error e = false
       end.
Proof.
  unfold Server.normalize_json.
  destruct (json_loads data) as [j|e] eqn:Hj.
  { exists []. rewrite repaired_nil.
    split; [left; reflexivity | split; [reflexivity | cbn; eauto]]. }
  destruct (is_json_decode_error e) eqn:He;
    [|exists []; rewrite repaired_nil;
      split; [left; reflexivity | split; [reflexivity | cbn; auto]]].
  unfold bind.
  destruct (unquote_run data w) as (r1 & d1 & -> & Hr1).
  destruct (literal_fix_run (PyStr.strip d1) (repaired w r1)) as (r2 & d2 & -> & Hr2).
  rewrite repaired_app.
  exists (r1 ++ r2)%list. split.
  { unfold repair_sequences.
    destruct Hr1 as [-> | [-> | ->]], Hr2 as [-> | ->]; simpl; tauto. }
  destruct (json_loads d2) as [j2|e2] eqn:H2.
  - split; [reflexivity | cbn; eauto].
  - destruct (is_json_decode_error e2);
      (split; [reflexivity | cbn; eexists; reflexivity]).
Qed.

Lemma sdk_validate_json_run (s : string) (w : world) :
  (exists payload r j,
      SDK.validate_json (VStr s) w = (Ok (VStr payload), repaired w r)
      /\ (payload = s \/ payload = PyStr.inner s)
      /\ json_loads payload = Ok j)
  \/ (exists e, SDK.validate_json (VStr s) w = (Raise e, w)).
Proof.
  unfold SDK.validate_json. net_unfold.
  destruct (json_loads s) as [j|e] eqn:Hj.
  { left. exists s, [], j. rewrite repaired_nil. auto. }
  destruct (is_json_decode_error e); [|right; eauto].
  destruct (SDK.double_quoted s); [|right; eauto].
  destruct (starts_with_bracket _); [|right; eauto].
  destruct (json_loads (PyStr.inner s)) as [j|e'] eqn:Hi; [|right; eauto].
  left. exists (PyStr.inner s), [RemovedOuterDoubleQuotes], j. auto.
Qed.

Lemma sdk_add_string_run
    (self : ZepCloudClient) (user_id s data_type : string) (w : world) :
  (exists msg,
      SDK.add_graph_data self user_id (VStr s) data_type w = (Ok (failure msg), w))
  \/ (exists payload r,
        SDK.add_graph_data self user_id (VStr s) data_type w
        = SDK.send_graph_data user_id (VStr payload) data_type (repaired w r)
        /\ user_id <> EmptyString
        /\ is_valid_type data_type = true
        /\ (payload = s \/ payload = PyStr.inner s)
        /\ PyStr.len payload <= 100000
        /\ (data_type = "json" -> exists j, json_loads payload = Ok j)).
Proof.
  unfold SDK.add_graph_data.
  destruct (String.eqb user_id EmptyString) eqn:Hu; [left; eexists; reflexivity|].
  apply String.eqb_neq in Hu.
  destruct (is_valid_type data_type) eqn:Hv; cbn [negb]; [|left; eexists; reflexivity].
  cbn [SDK.convert_dict SDK.data_len].
  destruct (100000 <? PyStr.len s) eqn:Hlen; [left; eexists; reflexivity|].
  apply Z.ltb_ge in Hlen.
  destruct (String.eqb data_type "json") eqn:Hjson.
  - net_unfold.
    destruct (sdk_validate_json_run s w) as [(payload & r & j & -> & Hp & Hj) | (e & ->)].
    + right. exists payload, r. repeat split; auto.
      * destruct Hp as [-> | ->]; [exact Hlen|].
        pose proof (inner_len s). lia.
      * intros _. eauto.
    + left. unfold SDK.json_failure.
      destruct (is_json_decode_error e); eexists; reflexivity.
  - right. exists s, []. rewrite repaired_nil.
    repeat split; auto. intros ->. discriminate.
Qed.

(** X8.  Whatever string the SDK-backed [add_graph_data] is given, it
    either sends nothing and returns a failure envelope, or sends exactly
    one [graph.add] request, and then the user id is not empty, the type is
    one of the three valid ones, the payload is the input or the input
    without its first and last character, it has at most 100,000
    characters, and for the type [json] it is a text that [json.loads]
    accepts. *)
Theorem X8_sdk_sends_only_checked_payloads
    (self : ZepCloudClient) (user_id s data_type : string) (w : world) :
  (net_log (snd (SDK.add_graph_data self user_id (VStr s) data_type w)) = net_log w
   /\ exists msg,
        fst (SDK.add_graph_data self user_id (VStr s) data_type w) = Ok (failure msg))
  \/ (exists payload,
        net_log (snd (SDK.add_graph_data self user_id (VStr s) data_type w))
        = (net_log w ++ [Sdk (GraphAdd user_id data_type (VStr payload))])%list
        /\ user_id <> EmptyString
        /\ is_valid_type data_type = true
        /\ (payload = s \/ payload = PyStr.inner s)
        /\ PyStr.len payload <= 100000
        /\ (data_type = "json" -> exists j, json_loads payload = Ok j)).
Proof.
  destruct (sdk_add_string_run self user_id s data_type w)
    as [(msg & ->) | (payload & r & -> & Hrest)].
  - left. split; [reflexivity | exists msg; reflexivity].
  - right. exists payload. rewrite send_graph_data_world. split; [reflexivity | exact Hrest].
Qed.

(** X9.  A dict given with the type [json] is treated as its
    [json.dumps] text, by the tool handler and by the SDK-backed client:
    the run is the run on that text.  When [json.dumps] fails, both return
    a failure envelope and send nothing; the two messages differ. *)
Theorem X9_dict_payload_is_its_json_text
    (srv : server) (self : ZepCloudClient) (user_id : string) (d : Dict.t)
    (w : world) :
  match json_dumps (VDict d) with
  | Ok text =>
      Server.add_graph_data srv user_id (VDict d) "json" w
      = Server.add_graph_data srv user_id (VStr text) "json" w
      /\ SDK.add_graph_data self user_id (VDict d) "json" w
         = SDK.add_graph_data self user_id (VStr text) "json" w
  | Raise e =>
      Server.add_graph_data srv user_id (VDict d) "json" w
      = (Ok (failure_text ("Failed to convert Python dict to JSON string: "
                           ++ exn_msg e)), counted w)
      /\ (user_id <> EmptyString ->
          SDK.add_graph_data self user_id (VDict d) "json" w
          = (Ok (failure ("Error converting dict to JSON: " ++ exn_msg e)), w))
  end.
Proof.
  destruct (json_dumps (VDict d)) as [text|e] eqn:Hd.
  - split.
    + unfold Server.add_graph_data, Server.to_text.
      cbn [String.eqb Ascii.eqb Bool.eqb]. rewrite Hd. reflexivity.
    + unfold SDK.add_graph_data, SDK.convert_dict.
      cbn [String.eqb Ascii.eqb Bool.eqb]. rewrite Hd. reflexivity.
  - split.
    + unfold Server.add_graph_data, Server.to_text.
      cbn [String.eqb Ascii.eqb Bool.eqb]. rewrite Hd. reflexivity.
    + intros Hu. apply String.eqb_neq in Hu.
      unfold SDK.add_graph_data, SDK.convert_dict. rewrite Hu.
      cbn [String.eqb Ascii.eqb Bool.eqb is_valid_type valid_types existsb orb negb].
      rewrite Hd. reflexivity.
Qed.

End ToolLayer.

(* ===================================================================== *)
(** ** The REST-backed client *)
(* ===================================================================== *)

Lemma append_assoc (a b c : string) : (a ++ b) ++ c = a ++ b ++ c.
Proof.
  induction a as [|x r IH]; cbn [append]; [reflexivity | rewrite IH; reflexivity].
Qed.

Lemma get_set_same (k : string) (v : value) (d : Dict.t) :
  Dict.get k (Dict.set k v d) = Some v.
Proof.
  induction d as [|[k' v'] r IH]; cbn [Dict.set Dict.get].
  - rewrite String.eqb_refl. reflexivity.
  - destruct (String.eqb k k') eqn:E; cbn [Dict.get]; rewrite ?String.eqb_refl, ?E;
      [reflexivity | exact IH].
Qed.

Lemma get_set_other (k k' : string) (v : value) (d : Dict.t) :
  k <> k' -> Dict.get k (Dict.set k' v d) = Dict.get k d.
Proof.
  intros Hne. apply String.eqb_neq in Hne.
  induction d as [|[k0 v0] r IH]; cbn [Dict.set Dict.get].
  - rewrite Hne. reflexivity.
  - destruct (String.eqb k' k0) eqn:E; cbn [Dict.get].
    + apply String.eqb_eq in E. subst k0. rewrite Hne. reflexivity.
    + rewrite IH. reflexivity.
Qed.

Section RestOperations.
Context {rt : PyRuntime} {rm : Remote}.

Ltac connected Hf :=
  unfold REST._make_request, self_fallback_mode, rest_outcome, delete_outcome,
    rest_request, sent;
  rewrite Hf; net_unfold; cbn [net_log repair_log tool_count];
  destruct (http_respond _ _) as [resp|e0];
  [destruct (raise_for_status resp); [try destruct (json_body resp)|]|];
  reflexivity.

(** X10.  A connected REST-backed client ([fallback_mode] False) makes of
    each user operation exactly one request and never raises: [get_user],
    [update_user] and [list_users] return the body of the answer, or the
    failure envelope with [str(e)] when the request, the status check or
    the decoding of the body fails; [delete_user] returns
    [{"success": True}] whatever the body is.  [update_user] sends
    [{"metadata": {}}] for a falsy metadata. *)
Theorem X10_rest_operations_pass_on_the_answer
    (self : ZepCloudClient) (user_id : string) (metadata cursor : value)
    (limit : Z) (w : world) :
  fallback_mode self = Some false ->
  (let req := rest_request self "GET" ("/users/" ++ user_id) VNone in
   REST.get_user self user_id w
   = (Ok (rest_outcome (http_respond (net_log w) req)), sent w [Http req]))
  /\ (let req := rest_request self "PATCH" ("/users/" ++ user_id)
                   (VDict [("metadata", REST.or_empty (REST.null_sentinel metadata))]) in
      REST.update_user self user_id metadata w
      = (Ok (rest_outcome (http_respond (net_log w) req)), sent w [Http req]))
  /\ (let req := rest_request self "GET" (users_path limit cursor) VNone in
      REST.list_users self limit cursor w
      = (Ok (rest_outcome (http_respond (net_log w) req)), sent w [Http req]))
  /\ (let req := rest_request self "DELETE" ("/users/" ++ user_id) VNone in
      REST.delete_user self user_id w
      = (Ok (delete_outcome (http_respond (net_log w) req)), sent w [Http req])).
Proof.
  intros Hf. cbv zeta. repeat split.
  - unfold REST.get_user. connected Hf.
  - unfold REST.update_user. connected Hf.
  - unfold REST.list_users, users_path. cbv zeta.
    destruct (truthy cursor); [rewrite (append_assoc (api_url self))|]; connected Hf.
  - unfold REST.delete_user. connected Hf.
Qed.

(** X11.  The body of the request of the REST-backed [create_user] holds
    the user id and, of the four optional fields, exactly those whose value
    is truthy; a metadata of ["null"] counts as [None]. *)
Theorem X11_rest_create_user_sends_only_truthy_fields
    (self : ZepCloudClient) (user_id : string)
    (metadata first_name last_name email : value) (w : world) :
  fallback_mode self = Some false ->
  exists body,
    REST.create_user self user_id metadata first_name last_name email w
    = (Ok (rest_outcome
             (http_respond (net_log w) (rest_request self "POST" "/users" (VDict body)))),
       sent w [Http (rest_request self "POST" "/users" (VDict body))])
    /\ Dict.get "user_id" body = Some (VStr user_id)
    /\ Dict.get "metadata" body = when_truthy (REST.null_sentinel metadata)
    /\ Dict.get "first_name" body = when_truthy first_name
    /\ Dict.get "last_name" body = when_truthy last_name
    /\ Dict.get "email" body = when_truthy email.
Proof.
  intros Hf.
  exists (REST.set_if "email" email
            (REST.set_if "last_name" last_name
               (REST.set_if "first_name" first_name
                  (REST.set_if "metadata" (REST.null_sentinel metadata)
                     [("user_id", VStr user_id)])))).
  split.
  - unfold REST.create_user. cbv zeta. connected Hf.
  - unfold REST.set_if, when_truthy.
    destruct (truthy (REST.null_sentinel metadata)), (truthy first_name),
      (truthy last_name), (truthy email); repeat split; reflexivity.
Qed.

Lemma with_results_spec (d d1 : Dict.t) :
  REST.with_results d = Ok d1 ->
  match Dict.get "results" d with
  | Some r => d1 = d
  | None =>
      exists es ns,
        REST.copied "edges" d = Ok es /\ REST.copied "nodes" d = Ok ns
        /\ d1 = Dict.set "results" (VList (es ++ ns)) d
  end.
Proof.
  unfold REST.with_results, Dict.mem.
  destruct (Dict.get "results" d) as [r|].
  - intros E. injection E as <-. reflexivity.
  - unfold rbind.
    destruct (REST.copied "edges" d) as [es|]; [|discriminate].
    destruct (REST.copied "nodes" d) as [ns|]; [|discriminate].
    intros E. injection E as <-. exists es, ns. auto.
Qed.

Lemma enhance_flags (query : string) (d : Dict.t) (v : value) :
  REST.enhance query (VDict d) = Ok v ->
  exists d' s,
    v = VDict d'
    /\ Dict.get "success" d' = Some (VBool true)
    /\ Dict.get "summary" d' = Some (VStr s).
Proof.
  unfold REST.enhance, rbind.
  destruct (REST.with_results d) as [d1|]; [|discriminate].
  destruct (REST.rest_summary _ _) as [s|]; [|discriminate].
  intros E. injection E as <-. do 2 eexists. split; [reflexivity|]. split.
  - rewrite get_set_other by discriminate. apply get_set_same.
  - apply get_set_same.
Qed.

(** X12.  What the REST-backed [search_graph] makes of a body that is a
    dict, when it succeeds: [success] is set to [True] whatever the body
    said, a [summary] text is added, a [results] field of the body is kept
    as it is and a missing one becomes the truthy [edges] followed by the
    truthy [nodes], and every other field is passed on unchanged. *)
Theorem X12_rest_search_enhances_the_body (query : string) (d : Dict.t) (v : value) :
  REST.enhance query (VDict d) = Ok v ->
  exists d',
    v = VDict d'
    /\ Dict.get "success" d' = Some (VBool true)
    /\ (exists s, Dict.get "summary" d' = Some (VStr s))
    /\ match Dict.get "results" d with
       | Some r => Dict.get "results" d' = Some r
       | None =>
           exists es ns,
             REST.copied "edges" d = Ok es /\ REST.copied "nodes" d = Ok ns
             /\ Dict.get "results" d' = Some (VList (es ++ ns))
       end
    /\ (forall k, k <> "success" -> k <> "summary" -> k <> "results" ->
                  Dict.get k d' = Dict.get k d).
Proof.
  unfold REST.enhance, rbind.
  destruct (REST.with_results d) as [d1|] eqn:H1; [|discriminate].
  destruct (REST.rest_summary query (Dict.set "success" (VBool true) d1)) as [s|];
    [|discriminate].
  intros E. injection E as <-. eexists. split; [reflexivity|].
  apply with_results_spec in H1.
  assert (Hother : forall k, k <> "success" -> k <> "summary" ->
            Dict.get k (Dict.set "summary" (VStr s) (Dict.set "success" (VBool true) d1))
            = Dict.get k d1).
  { intros k Hs Hm. rewrite !get_set_other by assumption. reflexivity. }
  split; [|split; [|split]].
  - rewrite get_set_other by discriminate. apply get_set_same.
  - exists s. apply get_set_same.
  - rewrite Hother by discriminate.
    destruct (Dict.get "results" d) as [r|] eqn:Hr.
    + subst d1. exact Hr.
    + destruct H1 as (es & ns & He & Hn & ->). exists es, ns.
      repeat split; auto. apply get_set_same.
  - intros k Hs Hm Hr. rewrite Hother by assumption.
    destruct (Dict.get "results" d) as [r|].
    + subst d1. reflexivity.
    + destruct H1 as (es & ns & _ & _ & ->). apply get_set_other. exact Hr.
Qed.

(** X13.  A connected REST-backed [search_graph] never raises and sends
    exactly one request, with the query as it was given -- this client
    does not shorten it.  Its result is always a dict with a boolean
    [success] and a [summary] text. *)
Theorem X13_rest_search_always_answers_with_a_summary
    (self : ZepCloudClient) (user_id query : string) (limit : Z) (w : world) :
  fallback_mode self = Some false ->
  exists d b s,
    REST.search_graph self user_id query limit w
    = (Ok (VDict d),
       sent w [Http (rest_request self "POST" "/graph/search"
                       (VDict [("user_id", VStr user_id); ("query", VStr query);
                               ("limit", VInt limit)]))])
    /\ Dict.get "success" d = Some (VBool b)
    /\ Dict.get "summary" d = Some (VStr s).
Proof.
  intros Hf.
  assert (Hfail : forall e (w0 : world),
            exists d b s,
              (Ok (VDict [("error", VStr (exn_msg e)); ("success", VBool false);
                          ("summary", VStr ("Error searching graph: " ++ exn_msg e))]),
               w0) = (Ok (VDict d), w0)
              /\ Dict.get "success" d = Some (VBool b)
              /\ Dict.get "summary" d = Some (VStr s)).
  { intros. do 3 eexists. repeat split; reflexivity. }
  unfold REST.search_graph, REST._make_request, self_fallback_mode, rest_request, sent.
  rewrite Hf. net_unfold. cbn [net_log repair_log tool_count].
  destruct (http_respond _ _) as [resp|e0]; [|apply Hfail].
  destruct (raise_for_status resp); [|apply Hfail].
  destruct (json_body resp) as [body|]; [|apply Hfail].
  destruct (REST.enhance query body) as [v|] eqn:Hv; [|apply Hfail].
  destruct body; try discriminate Hv.
  destruct (enhance_flags query d v Hv) as (d' & s & -> & Hs & Hm).
  exists d', true, s. auto.
Qed.

Lemma test_connection_run (self : ZepCloudClient) (w : world) :
  REST.test_connection self w
  = (Ok (REST.with_fallback self
           (negb (healthy (http_respond (net_log w) (health_check self)))),
         healthy (http_respond (net_log w) (health_check self))),
     sent w [Http (health_check self)]).
Proof.
  unfold REST.test_connection, REST._make_request, health_check, healthy,
    rest_request, sent.
  net_unfold. cbn [net_log repair_log tool_count].
  destruct (http_respond _ _) as [resp|e0]; [|reflexivity].
  destruct (raise_for_status resp); [|reflexivity].
  destruct (status_code resp =? 200); reflexivity.
Qed.

(** X14.  Building the REST-backed client never raises, also without any
    API key: it sends exactly one request, [GET /health], and the object
    is in fallback mode exactly when the answer is not a response with
    status 200.  The key is the argument or else [ZEP_API_KEY], and the
    [Authorization] header is [Bearer None] when there is neither. *)
Theorem X14_rest_client_probes_health_once
    (env : environment) (key url : option string) (w : world) :
  exists c,
    REST.init env key url w = (Ok c, sent w [Http (health_check c)])
    /\ impl c = RestImpl
    /\ api_key c = REST.or_else key (getenv (environ env) "ZEP_API_KEY")
    /\ fallback_mode c
       = Some (negb (healthy (http_respond (net_log w) (health_check c))))
    /\ (api_key c = None ->
        In ("Authorization", "Bearer None") (req_headers (health_check c))).
Proof.
  unfold REST.init. cbv zeta.
  set (self0 := mkClient RestImpl _ _ (Some false)).
  unfold bind. rewrite test_connection_run. unfold ret. cbn [fst].
  exists (REST.with_fallback self0
            (negb (healthy (http_respond (net_log w) (health_check self0))))).
  split; [reflexivity|]. repeat split.
  cbn [api_key REST.with_fallback]. intros H.
  unfold health_check, rest_request, REST.headers.
  cbn [req_headers api_key REST.with_fallback]. rewrite H. right; left; reflexivity.
Qed.

(** X25.  A connected REST-backed [add_graph_data] given a string never
    raises.  It sends nothing for a type outside the three valid ones and
    otherwise exactly one request whose payload is the first 10,000
    characters of the input -- the input itself when it is not longer;
    this client does not look at the text, also for the type [json]. *)
Theorem X25_rest_payload_is_at_most_10000_characters
    (self : ZepCloudClient) (user_id s data_type : string) (w : world) :
  fallback_mode self = Some false ->
  exists v,
    fst (REST.add_graph_data self user_id (VStr s) data_type w) = Ok v
    /\ PyStr.len (PyStr.take (Z.to_nat 10000) s) <= 10000
    /\ net_log (snd (REST.add_graph_data self user_id (VStr s) data_type w))
       = if is_valid_type data_type
         then (net_log w
               ++ [graph_post self user_id (VStr (PyStr.take (Z.to_nat 10000) s))
                     data_type])%list
         else net_log w.
Proof.
  intros Hf.
  assert (Hcut : REST.truncate_data (VStr s) = Ok (VStr (PyStr.take (Z.to_nat 10000) s))).
  { unfold REST.truncate_data, rbind, py_len, REST.py_take.
    destruct (10000 <? PyStr.len s) eqn:Hlong; [reflexivity|].
    apply Z.ltb_ge in Hlong. rewrite take_all; [reflexivity|].
    unfold PyStr.len in Hlong. lia. }
  assert (Hlen : PyStr.len (PyStr.take (Z.to_nat 10000) s) <= 10000).
  { unfold PyStr.len. pose proof (take_length_le (Z.to_nat 10000) s) as [H _]. lia. }
  unfold REST.add_graph_data, REST._make_request, self_fallback_mode, graph_post.
  rewrite Hf. net_unfold. rewrite Hcut.
  destruct (is_valid_type data_type); cbn [negb net_log repair_log tool_count];
    break_matches;
    eexists; (split; [reflexivity | split; [exact Hlen | reflexivity]]).
Qed.

End RestOperations.

(* ===================================================================== *)
(** ** Start-up and the effects of the tools *)
(* ===================================================================== *)

Section EffectSteps.
Context {A B : Type} (P : net_call -> Prop).

Lemma effects_bind_l (n : nat) (c : Net A) (k : A -> Net B) :
  effects P 0 c -> (forall a, effects P n (k a)) -> effects P n (bind c k).
Proof. intros Hc Hk. exact (effects_bind P 0 n c k Hc Hk). Qed.

Lemma effects_bind_r (n : nat) (c : Net A) (k : A -> Net B) :
  effects P n c -> (forall a, effects P 0 (k a)) -> effects P n (bind c k).
Proof.
  intros Hc Hk. pose proof (effects_bind P n 0 c k Hc Hk) as H.
  rewrite Nat.add_0_r in H. exact H.
Qed.

Lemma effects_try_r (n : nat) (c : Net A) (h : exn -> Net A) :
  effects P n c -> (forall e, effects P 0 (h e)) -> effects P n (try_catch c h).
Proof.
  intros Hc Hh. pose proof (effects_try P n 0 c h Hc Hh) as H.
  rewrite Nat.add_0_r in H. exact H.
Qed.

Lemma effects_quiet (n : nat) (c : Net A) : effects P 0 c -> effects P n c.
Proof. apply effects_weaken. lia. Qed.

End EffectSteps.

(** A computation that sends nothing. *)
Ltac quiet :=
  repeat first
    [ apply effects_ret | apply effects_raise | apply effects_lift | apply effects_note
    | apply (effects_bind _ 0 0); [|intros ?]
    | apply (effects_try _ 0 0); [|intros ?]
    | progress cbv beta zeta
    | match goal with
      | |- effects _ _ (match ?x with _ => _ end) => destruct x
      end ].

(** A computation that sends at most one request; [side] proves that the
    request is as it should be. *)
Ltac busy side :=
  repeat first
    [ apply effects_sdk; side | apply effects_http; side
    | apply effects_quiet; solve [quiet]
    | apply effects_bind_r; [|intros ?; solve [quiet]]
    | apply effects_bind_l; [solve [quiet]|intros ?]
    | apply effects_try_r; [|intros ?; solve [quiet]]
    | progress cbv beta zeta
    | match goal with
      | |- effects _ _ (match ?x with _ => _ end) => destruct x
      end ].

Section StartUpAndTools.
Context {rt : PyRuntime} {rm : Remote}.

(** X15.  Start-up never raises and leaves the module in one of three
    states.  With the SDK installed nothing is sent, and either no client
    is bound and the flag is [True], or an SDK-backed client is bound and
    the flag is [False].  Without the SDK a REST-backed client is always
    bound, exactly the probe of [/health] is sent, and the flag says
    whether the probe failed.  Whenever a client is bound, the module's
    flag is the client's own [fallback_mode]. *)
Theorem X15_startup_flag_agrees_with_the_client (env : environment) (w : world) :
  exists srv w',
    Server.startup env w = (Ok srv, w')
    /\ match client srv with
       | None =>
           sdk_installed env = true /\ server_fallback_mode srv = true /\ w' = w
       | Some c =>
           fallback_mode c = Some (server_fallback_mode srv)
           /\ if sdk_installed env
              then impl c = SdkImpl /\ server_fallback_mode srv = false /\ w' = w
              else impl c = RestImpl
                   /\ w' = sent w [Http (health_check c)]
                   /\ server_fallback_mode srv
                      = negb (healthy (http_respond (net_log w) (health_check c)))
       end.
Proof.
  unfold Server.startup, Server.construct.
  destruct (sdk_installed env).
  - unfold lift, SDK.init, rbind.
    destruct (getenv (environ env) "ZEP_API_KEY") as [k|];
      [|do 2 eexists; split; [reflexivity | cbn; auto]].
    destruct (String.eqb k EmptyString);
      [do 2 eexists; split; [reflexivity | cbn; auto]|].
    destruct (zep_new k);
      do 2 eexists; (split; [reflexivity | cbn; auto]).
  - unfold REST.init. cbv zeta.
    set (self0 := mkClient RestImpl _ _ (Some false)).
    unfold bind. rewrite test_connection_run. unfold ret. cbn [fst].
    do 2 eexists. split; [reflexivity|]. cbn. auto.
Qed.

Ltac open_tools :=
  unfold Server.create_user, Server.get_user, Server.update_user, Server.delete_user,
    Server.list_users, Server.search_graph, Server.add_graph_data,
    Server.check_connection, Server.forward, Server.normalize_json, Server.unquote,
    Server.literal_fix, Server.with_client,
    SDK.create_user, SDK.get_user, SDK.update_user, SDK.delete_user,
    SDK.search_graph, SDK.add_graph_data, SDK.validate_json, SDK.send_graph_data,
    REST.create_user, REST.get_user, REST.update_user, REST.delete_user,
    REST.list_users, REST.search_graph, REST.add_graph_data, REST.guarded,
    REST._make_request.

Ltac through := first [exact I | reflexivity].

(** X16.  Every tool handler adds exactly one to [tool_count] and sends at
    most one request, and that through the client the server holds: an SDK
    call when the client is SDK-backed, an HTTP request with the client's
    headers when it is REST-backed, nothing when no client is bound.
    [check_connection] sends nothing.  No handler drops anything from the
    two logs. *)
Theorem X16_every_tool_counts_once_and_sends_at_most_one_request
    (srv : server) (user_id query data_type : string)
    (metadata first_name last_name email cursor data : value) (limit : Z) :
  tool_effects (via srv) 1
    (Server.create_user srv user_id metadata first_name last_name email)
  /\ tool_effects (via srv) 1 (Server.get_user srv user_id)
  /\ tool_effects (via srv) 1 (Server.update_user srv user_id metadata)
  /\ tool_effects (via srv) 1 (Server.delete_user srv user_id)
  /\ tool_effects (via srv) 1 (Server.list_users srv limit cursor)
  /\ tool_effects (via srv) 1 (Server.search_graph srv user_id query limit)
  /\ tool_effects (via srv) 1 (Server.add_graph_data srv user_id data data_type)
  /\ tool_effects (via srv) 0 (Server.check_connection srv).
Proof.
  destruct srv as [[[[|] k u f]|] fb]; open_tools; cbn [client impl];
    repeat split; apply tool_effects_counted; try solve [quiet]; busy through.
Qed.

(** X17.  When start-up has bound no client, every tool that works on a
    user raises [NameError] after it has counted the call, while
    [add_graph_data] (here for the types [text] and [message]) returns the
    same error as a failure envelope.  Nothing is sent. *)
Theorem X17_tools_without_a_client
    (srv : server) (user_id query data_type : string)
    (metadata first_name last_name email cursor data : value) (limit : Z)
    (w : world) :
  client srv = None ->
  Server.create_user srv user_id metadata first_name last_name email w
  = (Raise no_client, counted w)
  /\ Server.get_user srv user_id w = (Raise no_client, counted w)
  /\ Server.update_user srv user_id metadata w = (Raise no_client, counted w)
  /\ Server.delete_user srv user_id w = (Raise no_client, counted w)
  /\ Server.list_users srv limit cursor w = (Raise no_client, counted w)
  /\ Server.search_graph srv user_id query limit w = (Raise no_client, counted w)
  /\ (is_valid_type data_type = true ->
      String.eqb data_type "json" = false ->
      Server.add_graph_data srv user_id data data_type w
      = (Ok (failure_text (exn_msg no_client)), counted w)).
Proof.
  intros Hc. open_tools. rewrite Hc. repeat split.
  intros Hv Hj. unfold Server.to_text. rewrite Hj, Hv.
  destruct data; reflexivity.
Qed.

(** X18.  A metadata of [None] or of the string ["null"] reaches the
    service as an empty dict when a user is updated through the tool --
    [metadata={}] in the SDK call, [{"metadata": {}}] as the body of the
    PATCH request -- and on creation as [metadata={}] in the SDK call and
    as no [metadata] field at all in the body of the POST request. *)
Theorem X18_null_metadata_is_sent_as_an_empty_dict
    (srv : server) (c : ZepCloudClient) (user_id : string) (metadata : value)
    (w : world) :
  client srv = Some c ->
  fallback_mode c = Some false ->
  metadata = VNone \/ metadata = VStr "null" ->
  net_log (snd (Server.update_user srv user_id metadata w))
  = (net_log w
     ++ [match impl c with
         | SdkImpl => Sdk (UserUpdate user_id (VDict []) VNone VNone VNone)
         | RestImpl =>
             Http (rest_request c "PATCH" ("/users/" ++ user_id)
                     (VDict [("metadata", VDict [])]))
         end])%list
  /\ net_log (snd (Server.create_user srv user_id metadata VNone VNone VNone w))
     = (net_log w
        ++ [match impl c with
            | SdkImpl => Sdk (UserAdd user_id (VDict []) VNone VNone VNone)
            | RestImpl =>
                Http (rest_request c "POST" "/users" (VDict [("user_id", VStr user_id)]))
            end])%list.
Proof.
  intros Hc Hf Hm.
  assert (Hn : REST.null_sentinel metadata = VNone) by (destruct Hm as [-> | ->]; reflexivity).
  open_tools. unfold self_fallback_mode, rest_request. rewrite Hc, Hf.
  cbv zeta. rewrite !Hn.
  cbn [REST.null_sentinel SDK.metadata_dict REST.or_empty REST.set_if truthy].
  destruct (impl c); net_unfold; cbn [net_log repair_log tool_count];
    split; break_matches; reflexivity.
Qed.

(** X23.  When the REST-backed client is connected and the service
    answers the POST of [add_graph_data] with a body that is JSON but not
    an object, the tool reports a failure -- the text of the
    [AttributeError] that the logging of the result raises -- although the
    request has been sent and accepted. *)
Theorem X23_answer_that_is_no_object_is_reported_as_failure
    (srv : server) (c : ZepCloudClient) (user_id s data_type : string) (w : world)
    (resp : http_response) (body : value) :
  client srv = Some c ->
  impl c = RestImpl ->
  fallback_mode c = Some false ->
  is_valid_type data_type = true ->
  String.eqb data_type "json" = false ->
  PyStr.len s <= 10000 ->
  http_respond (net_log w)
    (rest_request c "POST" "/graph"
       (VDict [("user_id", VStr user_id); ("type", VStr data_type); ("data", VStr s)]))
  = Ok resp ->
  raise_for_status resp = Ok tt ->
  json_body resp = Ok body ->
  (forall d, body <> VDict d) ->
  Server.add_graph_data srv user_id (VStr s) data_type w
  = (Ok (failure_text "object has no attribute 'get'"),
     sent (counted w) [graph_post c user_id (VStr s) data_type]).
Proof.
  intros Hc Hi Hf Hv Hj Hlen Hresp Hstatus Hbody Hshape.
  apply Z.ltb_ge in Hlen.
  open_tools.
  unfold Server.to_text, self_fallback_mode, REST.truncate_data, rest_request,
    graph_post, sent, counted in *.
  rewrite Hc, Hi, Hf, Hv, Hj. net_unfold.
  cbn [py_len rbind net_log repair_log tool_count negb]. rewrite Hlen.
  cbn [net_log repair_log tool_count]. rewrite Hresp, Hstatus, Hbody.
  destruct body; try reflexivity. exfalso. eapply Hshape. reflexivity.
Qed.

(** X24.  A connected REST-backed client searches with the query that the
    tool has rewritten -- up to 8,017 characters, since this client does
    not cut it again -- and its one request carries exactly that query. *)
Theorem X24_rest_backed_search_sends_the_rewritten_query
    (srv : server) (c : ZepCloudClient) (user_id query : string) (limit : Z)
    (w : world) :
  client srv = Some c ->
  impl c = RestImpl ->
  fallback_mode c = Some false ->
  net_log (snd (Server.search_graph srv user_id query limit w))
  = (net_log w
     ++ [Http (rest_request c "POST" "/graph/search"
                 (VDict [("user_id", VStr user_id);
                         ("query",
                          VStr (Server.rewrite_query (Server.truncate_query query)));
                         ("limit", VInt limit)]))])%list.
Proof.
  intros Hc Hi Hf. open_tools. unfold self_fallback_mode, rest_request.
  rewrite Hc, Hi, Hf. cbv zeta. net_unfold. cbn [net_log repair_log tool_count].
  break_matches; reflexivity.
Qed.

End StartUpAndTools.

(* ===================================================================== *)
(** ** The round of [tests/test_specific_user.py] *)
(* ===================================================================== *)

Lemma sent_app (w : world) (l1 l2 : list net_call) :
  sent (sent w l1) l2 = sent w (l1 ++ l2).
Proof. unfold sent. simpl. rewrite app_assoc. reflexivity. Qed.

Lemma effects_impl {A} (P Q : net_call -> Prop) (n : nat) (c : Net A) :
  (forall x, P x -> Q x) -> effects P n c -> effects Q n c.
Proof.
  intros HPQ Hc w. destruct (Hc w) as (l & r & Hw & Hl & Hn).
  exists l, r. repeat split; auto. eapply Forall_impl; eauto.
Qed.

Section TestScript.
Context {rt : PyRuntime} {rm : Remote}.

Lemma sdk_get_user_run (self : ZepCloudClient) (u : string) (w : world) :
  exists v,
    SDK.get_user self u w = (Ok v, sent w [Sdk (UserGet u)])
    /\ (v = VNone \/ user_record_shape v).
Proof.
  unfold SDK.get_user, sent. net_unfold. cbn [net_log repair_log tool_count].
  destruct (sdk_respond _ _) as [user|e0];
    [|eexists; split; [reflexivity | left; reflexivity]].
  destruct (truthy user); [|eexists; split; [reflexivity | left; reflexivity]].
  destruct (SDK.user_record user) as [v|e0] eqn:Hrec;
    eexists; (split; [reflexivity|]);
    [right; eapply user_record_shape_ok; exact Hrec | left; reflexivity].
Qed.

Lemma check_run (client : ZepCloudClient) (u : string) (verbose : bool) (w : world) :
  exists v,
    UserTest.check_user_exists client u verbose w = (Ok v, sent w [Sdk (UserGet u)])
    /\ (v = VNone \/ user_record_shape v).
Proof.
  unfold UserTest.check_user_exists. net_unfold.
  destruct (sdk_get_user_run client u w) as (v & -> & Hv).
  destruct (truthy v); [|eexists; split; [reflexivity | left; reflexivity]].
  destruct verbose; [destruct (UserTest.show_user v)|];
    eexists; (split; [reflexivity|]); auto.
Qed.

Lemma update_run (client : ZepCloudClient) (u t : string) (md : value) (w : world) :
  json_dumps md = Ok t ->
  exists v,
    UserTest.update_user client u md w
    = (Ok v, sent w [Sdk (UserUpdate u (SDK.metadata_dict md) VNone VNone VNone)]).
Proof.
  intros Ht. unfold UserTest.update_user, SDK.update_user, sent. net_unfold.
  rewrite Ht. cbn [net_log repair_log tool_count].
  break_matches; eexists; reflexivity.
Qed.

Lemma create_run (client : ZepCloudClient) (u : string) (md now : value) (w : world) :
  (exists e, UserTest.create_user client u md now w = (Raise e, w))
  \/ (exists v m,
         UserTest.create_user client u md now w
         = (Ok v, sent w [Sdk (UserAdd u m VNone VNone VNone)])).
Proof.
  unfold UserTest.create_user, SDK.create_user, sent. cbv zeta. net_unfold.
  destruct (json_dumps _); [|left; eexists; reflexivity].
  right. cbn [net_log repair_log tool_count].
  break_matches; do 2 eexists; reflexivity.
Qed.

Lemma delete_run (client : ZepCloudClient) (u : string) (w : world) :
  exists b, UserTest.delete_user client u w = (Ok b, sent w [Sdk (UserDelete u)]).
Proof.
  unfold UserTest.delete_user, SDK.delete_user, sent. net_unfold.
  cbn [net_log repair_log tool_count].
  break_matches; eexists; reflexivity.
Qed.

Section Steps.
Variable P : net_call -> Prop.
Variable client : ZepCloudClient.
Variable u : string.

Lemma check_effects (verbose : bool) :
  P (Sdk (UserGet u)) -> effects P 1 (UserTest.check_user_exists client u verbose).
Proof.
  intros HP. unfold UserTest.check_user_exists, SDK.get_user. busy assumption.
Qed.

Lemma create_effects (md now : value) :
  (forall m, P (Sdk (UserAdd u m VNone VNone VNone))) ->
  effects P 1 (UserTest.create_user client u md now).
Proof.
  intros HP. unfold UserTest.create_user, SDK.create_user. busy ltac:(apply HP).
Qed.

Lemma update_effects (md : value) :
  (forall m, P (Sdk (UserUpdate u m VNone VNone VNone))) ->
  effects P 1 (UserTest.update_user client u md).
Proof.
  intros HP. unfold UserTest.update_user, SDK.update_user. busy ltac:(apply HP).
Qed.

Lemma delete_effects :
  P (Sdk (UserDelete u)) -> effects P 1 (UserTest.delete_user client u).
Proof.
  intros HP. unfold UserTest.delete_user, SDK.delete_user. busy assumption.
Qed.

End Steps.

Lemma restore_original_effects (P : net_call -> Prop) (client : ZepCloudClient)
    (original_user now : value) :
  (forall m, P (Sdk (UserAdd UserTest.USER_ID m VNone VNone VNone))) ->
  effects P 1 (UserTest.restore_original client original_user now).
Proof.
  intros HP. unfold UserTest.restore_original, UserTest.restore_user.
  apply effects_bind_l; [quiet|]. intros has_metadata.
  apply effects_bind_r; [|intros; quiet].
  destruct has_metadata.
  - apply effects_bind_l; [quiet|]. intros md. cbv zeta. apply create_effects, HP.
  - cbv zeta. apply create_effects, HP.
Qed.

Lemma clean_up_effects (P : net_call -> Prop) (client : ZepCloudClient) (had : bool) :
  (had = false -> P (Sdk (UserDelete UserTest.USER_ID))) ->
  effects P 1 (UserTest.clean_up client had).
Proof.
  intros HP. unfold UserTest.clean_up. destruct had; [apply effects_quiet; quiet|].
  apply effects_bind_r; [apply delete_effects; auto | intros; quiet].
Qed.

Lemma proceed_effects (P : net_call -> Prop) (client : ZepCloudClient)
    (metadata original_user : value) (now : nat -> value) :
  P (Sdk (UserGet UserTest.USER_ID)) ->
  (forall m, P (Sdk (UserAdd UserTest.USER_ID m VNone VNone VNone))) ->
  (forall m, P (Sdk (UserUpdate UserTest.USER_ID m VNone VNone VNone))) ->
  (original_user = VNone -> P (Sdk (UserDelete UserTest.USER_ID))) ->
  effects P (if match original_user with VNone => false | _ => true end then 3 else 5)
    (UserTest.proceed client metadata now original_user).
Proof.
  intros Hget Hadd Hupd Hdel. unfold UserTest.proceed. cbv zeta.
  assert (Hhad : match original_user with VNone => false | _ => true end = false ->
                 P (Sdk (UserDelete UserTest.USER_ID))).
  { intros H. apply Hdel. destruct original_user; try discriminate. reflexivity. }
  destruct (match original_user with VNone => false | _ => true end).
  - apply (effects_bind P 0 3); [quiet|]. intros created.
    destruct (negb created); [apply effects_quiet; quiet|].
    apply (effects_bind P 1 2); [apply update_effects, Hupd|]. intros updated_user.
    destruct (negb (truthy updated_user)).
    { apply effects_quiet. apply (effects_bind P 0 0); [|intros; quiet].
      unfold UserTest.clean_up. quiet. }
    apply (effects_bind P 1 1); [apply check_effects, Hget|]. intros verified_user.
    destruct (negb (truthy verified_user)).
    { apply effects_quiet. apply (effects_bind P 0 0); [|intros; quiet].
      unfold UserTest.clean_up. quiet. }
    apply effects_bind_r; [apply restore_original_effects, Hadd | intros; quiet].
  - specialize (Hhad eq_refl).
    apply (effects_bind P 1 4).
    { apply effects_bind_r; [apply create_effects, Hadd | intros; quiet]. }
    intros created. destruct (negb created); [apply effects_quiet; quiet|].
    apply (effects_bind P 1 3); [apply update_effects, Hupd|]. intros updated_user.
    destruct (negb (truthy updated_user)).
    { apply (effects_weaken P 1); [lia|].
      apply effects_bind_r; [apply clean_up_effects; auto | intros; quiet]. }
    apply (effects_bind P 1 2); [apply check_effects, Hget|]. intros verified_user.
    destruct (negb (truthy verified_user)).
    { apply (effects_weaken P 1); [lia|].
      apply effects_bind_r; [apply clean_up_effects; auto | intros; quiet]. }
    apply (effects_bind P 1 1); [apply delete_effects, Hhad|]. intros deleted.
    destruct (negb deleted); [apply effects_quiet; quiet|].
    apply effects_bind_r; [apply check_effects, Hget | intros; quiet].
Qed.

(** X19.  A run of the test script sends at most six requests, all of them
    about the one user [USER_ID], whatever the service answers; without an
    API key it sends none. *)
Theorem X19_test_round_touches_one_user_at_most_six_times
    (env : environment) (client : ZepCloudClient) (metadata : value)
    (now : nat -> value) :
  effects (about_user UserTest.USER_ID) 6 (UserTest.round client metadata now)
  /\ effects (about_user UserTest.USER_ID) 6
       (UserTest.run_test_with_metadata env metadata now)
  /\ (getenv (environ env) "ZEP_API_KEY" = None ->
      forall w, UserTest.run_test_with_metadata env metadata now w = (Ok false, w)).
Proof.
  assert (Hround : forall c,
            effects (about_user UserTest.USER_ID) 6 (UserTest.round c metadata now)).
  { intros c. unfold UserTest.round.
    apply (effects_bind _ 1 5); [apply check_effects; reflexivity|].
    intros original_user.
    eapply effects_weaken; [|apply proceed_effects; intros; reflexivity].
    destruct original_user; lia. }
  split; [apply Hround|]. split.
  - unfold UserTest.run_test_with_metadata.
    destruct (SDK.init env); [apply Hround | apply effects_quiet; quiet].
  - intros Hkey w. unfold UserTest.run_test_with_metadata, SDK.init.
    rewrite Hkey. reflexivity.
Qed.

(** X20.  When the first check finds the user, the rest of the round --
    update, check, restore -- sends at most three requests and none of
    them is a deletion: the script never deletes a user it did not
    create. *)
Theorem X20_test_round_never_deletes_a_user_it_found
    (client : ZepCloudClient) (metadata original_user : value) (now : nat -> value) :
  original_user <> VNone ->
  effects (kept UserTest.USER_ID) 3
    (UserTest.proceed client metadata now original_user).
Proof.
  intros Hfound.
  pose proof (proceed_effects (kept UserTest.USER_ID) client metadata original_user now)
    as H.
  destruct original_user; try contradiction;
    apply H; try (intros; split; [reflexivity | intros []]); discriminate.
Qed.

(** X21.  When the first check did not find the user and the script has
    created it, then -- the clock reading of the update being
    serialisable, as a number is -- the round does not raise and among the
    requests after the creation there is the deletion of the user,
    whatever the update and the later checks answer. *)
Theorem X21_test_round_deletes_the_user_it_created
    (client : ZepCloudClient) (metadata u : value) (now : nat -> value)
    (t : string) (w : world) :
  fst (UserTest.create_user client UserTest.USER_ID metadata (now 0%nat) w) = Ok u ->
  truthy u = true ->
  json_dumps (UserTest.update_metadata (now 1%nat)) = Ok t ->
  exists b m l,
    UserTest.proceed client metadata now VNone w
    = (Ok b, sent w (Sdk (UserAdd UserTest.USER_ID m VNone VNone VNone) :: l))
    /\ In (Sdk (UserDelete UserTest.USER_ID)) l.
Proof.
  intros Hcreated Htruthy Hclock.
  unfold UserTest.proceed. cbv zeta. cbv beta iota. unfold bind, ret.
  destruct (create_run client UserTest.USER_ID metadata (now 0%nat) w)
    as [(e & Hrun) | (v & m & Hrun)]; rewrite Hrun in *; cbn [fst] in Hcreated;
    [discriminate|].
  injection Hcreated as ->. rewrite Htruthy. cbn [negb].
  destruct (update_run client UserTest.USER_ID t (UserTest.update_metadata (now 1%nat))
              (sent w [Sdk (UserAdd UserTest.USER_ID m VNone VNone VNone)]) Hclock)
    as (v2 & ->).
  rewrite sent_app.
  destruct (negb (truthy v2)).
  { unfold UserTest.clean_up, bind, ret.
    destruct (delete_run client UserTest.USER_ID
                (sent w ([Sdk (UserAdd UserTest.USER_ID m VNone VNone VNone)] ++
                         [Sdk (UserUpdate UserTest.USER_ID
                                 (SDK.metadata_dict (UserTest.update_metadata (now 1%nat)))
                                 VNone VNone VNone)]))) as (b & ->).
    rewrite sent_app. do 3 eexists. split; [reflexivity|]. simpl. auto. }
  match goal with
  | |- context [UserTest.check_user_exists client UserTest.USER_ID true ?w0] =>
      destruct (check_run client UserTest.USER_ID true w0) as (v3 & -> & _)
  end.
  rewrite sent_app.
  destruct (negb (truthy v3)).
  { unfold UserTest.clean_up, bind, ret.
    match goal with
    | |- context [UserTest.delete_user client UserTest.USER_ID ?w0] =>
        destruct (delete_run client UserTest.USER_ID w0) as (b & ->)
    end.
    rewrite sent_app. do 3 eexists. split; [reflexivity|]. simpl. auto. }
  match goal with
  | |- context [UserTest.delete_user client UserTest.USER_ID ?w0] =>
      destruct (delete_run client UserTest.USER_ID w0) as (b & ->)
  end.
  rewrite sent_app.
  destruct (negb b); [do 3 eexists; split; [reflexivity | simpl; auto]|].
  match goal with
  | |- context [UserTest.check_user_exists client UserTest.USER_ID true ?w0] =>
      destruct (check_run client UserTest.USER_ID true w0) as (v4 & -> & _)
  end.
  rewrite sent_app.
  destruct (truthy v4); do 3 eexists; (split; [reflexivity | simpl; auto]).
Qed.

Lemma restore_original_ignores_the_clock (client : ZepCloudClient)
    (original_user n n' : value) (w : world) :
  user_record_shape original_user ->
  UserTest.restore_original client original_user n w
  = UserTest.restore_original client original_user n' w.
Proof.
  intros (uid & md & fn & ln & em & -> & Hmd).
  unfold UserTest.restore_original, UserTest.contains_key, UserTest.getitem,
    UserTest.restore_user, UserTest.create_user.
  cbn. destruct Hmd as [Hmd | ->]; [|reflexivity].
  destruct md; try discriminate Hmd; reflexivity.
Qed.

(** X22.  The default metadata of [restore_user] is dead code in the
    round: what the first check returns is [None] or a record with a
    [metadata] that is not [None], so the third clock reading is never
    used -- two rounds whose clocks agree on the first two readings are
    the same run. *)
Theorem X22_test_round_never_restores_with_default_metadata
    (client : ZepCloudClient) (metadata : value) (now now' : nat -> value)
    (w : world) :
  now 0%nat = now' 0%nat ->
  now 1%nat = now' 1%nat ->
  UserTest.round client metadata now w = UserTest.round client metadata now' w.
Proof.
  intros H0 H1. unfold UserTest.round. unfold bind at 1 2.
  destruct (check_run client UserTest.USER_ID true w) as (v & -> & [-> | Hshape]).
  - unfold UserTest.proceed. cbv zeta. cbv beta iota. rewrite H0, H1. reflexivity.
  - assert (Hhad : match v with VNone => false | _ => true end = true).
    { destruct Hshape as (uid & md & fn & ln & em & -> & _). reflexivity. }
    unfold UserTest.proceed. cbv zeta. rewrite Hhad, H1. unfold bind, ret.
    cbn [negb]. cbv beta iota.
    destruct (UserTest.update_user _ _ _ _) as [[v2|e2] w2]; [|reflexivity].
    destruct (negb (truthy v2)); [reflexivity|].
    destruct (UserTest.check_user_exists _ _ _ _) as [[v3|e3] w3]; [|reflexivity].
    destruct (negb (truthy v3)); [reflexivity|].
    rewrite (restore_original_ignores_the_clock client v (now 2%nat) (now' 2%nat) w3 Hshape).
    reflexivity.
Qed.

End TestScript.

(* ===================================================================== *)
(** * Runs of the further properties *)
(* ===================================================================== *)

Section EmptyAccount.
#[local] Existing Instance reference_runtime.
#[local] Existing Instance remote_up.

(** X8 at a JSON object in one pair of double quotes. *)
Lemma X8_witness :
  exists payload,
    net_log (snd (SDK.add_graph_data sdk_client "u1" (VStr quoted_object) "json" world0))
    = (net_log world0 ++ [Sdk (GraphAdd "u1" "json" (VStr payload))])%list
    /\ exists j, json_loads payload = Ok j.
Proof.
  destruct (X8_sdk_sends_only_checked_payloads sdk_client "u1" quoted_object "json" world0)
    as [[Hnone _] | (payload & Hlog & _ & _ & _ & _ & Hj)].
  - vm_compute in Hnone. discriminate Hnone.
  - exists payload. split; [exact Hlog | exact (Hj eq_refl)].
Defined.

(** X9 at a dict that holds an object of the SDK. *)
Lemma X9_witness :
  SDK.add_graph_data sdk_client "u1" (VDict [("k", VObj "User" [])]) "json" world0
  = (Ok (failure ("Error converting dict to JSON: "
                  ++ "Object of type User is not JSON serializable")), world0).
Proof.
  apply (proj2 (X9_dict_payload_is_its_json_text sdk_server sdk_client "u1"
                  [("k", VObj "User" [])] world0)).
  discriminate.
Defined.

(** X10 at [get_user] of a connected client. *)
Lemma X10_witness :
  fallback_mode (rest_client false) = Some false
  /\ REST.get_user (rest_client false) "u1" world0
     = (Ok (VDict []),
        sent world0 [Http (rest_request (rest_client false) "GET" "/users/u1" VNone)]).
Proof.
  split; [reflexivity|].
  destruct (X10_rest_operations_pass_on_the_answer (rest_client false) "u1" VNone VNone
              100 world0 eq_refl) as (Hget & _).
  exact Hget.
Defined.

(** X11 at a first name, the metadata ["null"] and an empty e-mail
    address. *)
Lemma X11_witness :
  fallback_mode (rest_client false) = Some false
  /\ exists body,
       net_log (snd (REST.create_user (rest_client false) "u1" (VStr "null")
                       (VStr "Ann") VNone (VStr EmptyString) world0))
       = [Http (rest_request (rest_client false) "POST" "/users" (VDict body))]
       /\ Dict.get "metadata" body = None
       /\ Dict.get "first_name" body = Some (VStr "Ann")
       /\ Dict.get "email" body = None.
Proof.
  split; [reflexivity|].
  destruct (X11_rest_create_user_sends_only_truthy_fields (rest_client false) "u1"
              (VStr "null") (VStr "Ann") VNone (VStr EmptyString) world0 eq_refl)
    as (body & Hrun & _ & Hmd & Hfn & _ & Hem).
  exists body. rewrite Hrun.
  split; [reflexivity|]. split; [exact Hmd|]. split; [exact Hfn | exact Hem].
Defined.

(** X18 at the metadata ["null"]. *)
Lemma X18_witness :
  client sdk_server = Some sdk_client
  /\ fallback_mode sdk_client = Some false
  /\ net_log (snd (Server.update_user sdk_server "u1" (VStr "null") world0))
     = [Sdk (UserUpdate "u1" (VDict []) VNone VNone VNone)].
Proof.
  split; [reflexivity|]. split; [reflexivity|].
  exact (proj1 (X18_null_metadata_is_sent_as_an_empty_dict sdk_server sdk_client "u1"
                  (VStr "null") world0 eq_refl eq_refl (or_intror eq_refl))).
Defined.

(** X19 at an environment without the key. *)
Lemma X19_witness :
  getenv (environ (env_without_key true)) "ZEP_API_KEY" = None
  /\ UserTest.run_test_with_metadata (env_without_key true) VNone Accounts.clock world0
     = (Ok false, world0).
Proof.
  split; [reflexivity|].
  destruct (X19_test_round_touches_one_user_at_most_six_times (env_without_key true)
              sdk_client VNone Accounts.clock) as (_ & _ & H).
  exact (H eq_refl world0).
Defined.

(** X24 at a query without any of the three words. *)
Lemma X24_witness :
  net_log (snd (Server.search_graph (rest_server false) "u1" "tea" 10 world0))
  = [Http (rest_request (rest_client false) "POST" "/graph/search"
             (VDict [("user_id", VStr "u1"); ("query", VStr "tea user information");
                     ("limit", VInt 10)]))].
Proof.
  exact (X24_rest_backed_search_sends_the_rewritten_query (rest_server false)
           (rest_client false) "u1" "tea" 10 world0 eq_refl eq_refl eq_refl).
Defined.

(** X25 at a payload of 10,001 letters. *)
Lemma X25_witness :
  fallback_mode (rest_client false) = Some false
  /\ exists v,
       fst (REST.add_graph_data (rest_client false) "u1" (VStr (long_payload 10001))
              "text" world0) = Ok v
       /\ net_log (snd (REST.add_graph_data (rest_client false) "u1"
                          (VStr (long_payload 10001)) "text" world0))
          = [graph_post (rest_client false) "u1"
               (VStr (PyStr.take (Z.to_nat 10000) (long_payload 10001))) "text"].
Proof.
  split; [reflexivity|].
  destruct (X25_rest_payload_is_at_most_10000_characters (rest_client false) "u1"
              (long_payload 10001) "text" world0 eq_refl) as (v & Hrun & _ & Hlog).
  exists v. split; [exact Hrun | exact Hlog].
Defined.

End EmptyAccount.

Section BusyAccount.
#[local] Existing Instance reference_runtime.
#[local] Existing Instance Accounts.remote_busy.

(** X3 at an account with two users. *)
Lemma X3_witness :
  exists l,
    fst (SDK.list_users sdk_client world0) = Ok (VList l)
    /\ (l = [] \/ List.length l = 2%nat).
Proof.
  destruct (X3_sdk_list_users_keeps_every_user_or_none sdk_client world0)
    as (l & Hrun & _ & Hcount).
  exists l. split; [exact Hrun|].
  exact (Hcount (Accounts.busy_account UserListOrdered) Accounts.two_users
           eq_refl eq_refl).
Defined.

(** X4 at an account with two facts and one node. *)
Lemma X4_witness :
  exists d,
    fst (SDK.search_graph sdk_client "alice" "tea" 10 world0) = Ok (VDict d)
    /\ Dict.get "results" d
       = Some (VList (map SDK.edge_data Accounts.two_edges
                      ++ map SDK.node_data Accounts.one_node)).
Proof.
  pose proof (X4_sdk_search_results_are_edges_then_nodes sdk_client "alice" "tea" 10
                world0 (Accounts.busy_account (GraphSearch "alice" "tea" 10))
                Accounts.two_edges Accounts.one_node) as H.
  destruct (H eq_refl eq_refl eq_refl) as (d & Hrun & _ & _ & Hres & _).
  exists d. split; [exact Hrun | exact Hres].
Defined.

(** X12 at a body with one fact and [success: false]. *)
Lemma X12_witness :
  exists d',
    REST.enhance "tea" Accounts.search_body = Ok (VDict d')
    /\ Dict.get "success" d' = Some (VBool true)
    /\ Dict.get "results" d' = Some (VList [VDict [("fact", VStr "alice likes tea")]]).
Proof.
  destruct (REST.enhance "tea" Accounts.search_body) as [v|e] eqn:Hv;
    [|vm_compute in Hv; discriminate Hv].
  destruct (X12_rest_search_enhances_the_body "tea" _ v Hv)
    as (d' & -> & Hs & _ & (es & ns & He & Hn & Hres) & _).
  exists d'. split; [reflexivity|]. split; [exact Hs|].
  vm_compute in He. vm_compute in Hn. injection He as <-. injection Hn as <-.
  exact Hres.
Defined.

(** X13 at the same body. *)
Lemma X13_witness :
  fallback_mode (rest_client false) = Some false
  /\ exists d b s,
       fst (REST.search_graph (rest_client false) "alice" "tea" 10 world0)
       = Ok (VDict d)
       /\ Dict.get "success" d = Some (VBool b)
       /\ Dict.get "summary" d = Some (VStr s).
Proof.
  split; [reflexivity|].
  destruct (X13_rest_search_always_answers_with_a_summary (rest_client false) "alice"
              "tea" 10 world0 eq_refl) as (d & b & s & Hrun & Hs & Hm).
  exists d, b, s. rewrite Hrun. split; [reflexivity|]. split; [exact Hs | exact Hm].
Defined.

End BusyAccount.

Section KeepingAccount.
#[local] Existing Instance reference_runtime.
#[local] Existing Instance Accounts.remote_keeping.

(** X20 at a user with an empty metadata. *)
Lemma X20_witness :
  effects (kept UserTest.USER_ID) 3
    (UserTest.proceed sdk_client VNone Accounts.clock
       (VDict [("user_id", VStr UserTest.USER_ID); ("metadata", VDict [])])).
Proof.
  apply X20_test_round_never_deletes_a_user_it_found. discriminate.
Defined.

(** X21 at an account without the user. *)
Lemma X21_witness :
  exists b m l,
    UserTest.proceed sdk_client VNone Accounts.clock VNone world0
    = (Ok b, sent world0 (Sdk (UserAdd UserTest.USER_ID m VNone VNone VNone) :: l))
    /\ In (Sdk (UserDelete UserTest.USER_ID)) l.
Proof.
  eapply X21_test_round_deletes_the_user_it_created; reflexivity.
Defined.

(** X22 at an account with the user and at two clocks that differ in the
    third reading. *)
Lemma X22_witness :
  UserTest.round sdk_client VNone Accounts.clock Accounts.world_with_user
  = UserTest.round sdk_client VNone Accounts.stopped_clock Accounts.world_with_user.
Proof.
  apply X22_test_round_never_restores_with_default_metadata; reflexivity.
Defined.

End KeepingAccount.

Section DownService.
#[local] Existing Instance reference_runtime.
#[local] Existing Instance remote_down.

(** X1 at [get_user] and a refused connection. *)
Lemma X1_witness :
  sdk_respond (net_log world0) (UserGet "u1") = Raise refused
  /\ SDK.get_user sdk_client "u1" world0 = (Ok VNone, sent world0 [Sdk (UserGet "u1")]).
Proof.
  split; [reflexivity|].
  destruct (X1_sdk_operations_catch_every_failure sdk_client "u1" "q" VNone VNone VNone
              VNone 10 world0) as (_ & (v & Hrun & Hsentinel) & _).
  rewrite Hrun, (Hsentinel refused eq_refl). reflexivity.
Defined.

(** X14 without any key and with the service down. *)
Lemma X14_witness :
  exists c,
    fst (REST.init (env_without_key false) None None world0) = Ok c
    /\ fallback_mode c = Some true
    /\ In ("Authorization", "Bearer None") (req_headers (health_check c)).
Proof.
  destruct (X14_rest_client_probes_health_once (env_without_key false) None None world0)
    as (c & Hrun & _ & Hkey & Hfb & Hhdr).
  exists c. rewrite Hrun. split; [reflexivity|]. split; [exact Hfb|].
  apply Hhdr. exact Hkey.
Defined.

(** X17 at a server module without a client. *)
Lemma X17_witness :
  client (mkServer None true) = None
  /\ Server.get_user (mkServer None true) "u1" world0 = (Raise no_client, counted world0)
  /\ Server.add_graph_data (mkServer None true) "u1" (VStr "note") "text" world0
     = (Ok (failure_text "name 'client' is not defined"), counted world0).
Proof.
  split; [reflexivity|].
  destruct (X17_tools_without_a_client (mkServer None true) "u1" "q" "text" VNone VNone
              VNone VNone VNone (VStr "note") 10 world0 eq_refl)
    as (_ & Hget & _ & _ & _ & _ & Hadd).
  split; [exact Hget | exact (Hadd eq_refl eq_refl)].
Defined.

End DownService.

Section TerseService.
#[local] Existing Instance reference_runtime.
#[local] Existing Instance Accounts.remote_terse.

(** X23 at a service that answers [null]. *)
Lemma X23_witness :
  Server.add_graph_data (rest_server false) "u1" (VStr "note") "text" world0
  = (Ok (failure_text "object has no attribute 'get'"),
     sent (counted world0) [graph_post (rest_client false) "u1" (VStr "note") "text"]).
Proof.
  eapply (X23_answer_that_is_no_object_is_reported_as_failure (rest_server false)
            (rest_client false) "u1" "note" "text" world0);
    try reflexivity; first [intros d; discriminate | vm_compute; discriminate].
Defined.

End TerseService.
